(** * The number-reservation lifecycle of the bot, embedded from
      [services/number_manager.py], [database.py] and
      [handlers/number_handlers.py].

    The SQLite tables [numbers], [number_requests] and [logs] are lists of
    rows in insertion order.  Python code that talks to the database is
    written in a small state-and-exception monad over a [World]: the tables,
    a schedule of database failures and the stream the [random] module draws
    from.  A raised exception keeps the world as it was when it was raised,
    because [Database.execute] commits every statement on its own. *)

From Stdlib Require Import ZArith List String Ascii Bool Lia Permutation Sorted.
Import ListNotations.
Open Scope string_scope.
Open Scope list_scope.
Open Scope Z_scope.

(** ** Python values *)

Module Py.

(** [str(n)] for an [int]: decimal digits, most significant first. *)
Definition digit_char (d : Z) : ascii := ascii_of_nat (48 + Z.to_nat d).

Fixpoint str_digits (fuel : nat) (n : Z) (acc : string) : string :=
  match fuel with
  | O => acc
  | S fuel' =>
      let acc' := String (digit_char (n mod 10)) acc in
      if n <? 10 then acc' else str_digits fuel' (n / 10) acc'
  end.

(** A number has no more decimal digits than binary ones, so the fuel
    [1 + log2 n] never runs out. *)
Definition str_int (n : Z) : string :=
  if n <? 0
  then String "-" (str_digits (S (Z.to_nat (Z.log2 (- n)))) (- n) EmptyString)
  else str_digits (S (Z.to_nat (Z.log2 n))) n EmptyString.

(** [str(x)] for an [Optional[str]], as an f-string renders it. *)
Definition str_opt (c : option string) : string :=
  match c with
  | Some s => s
  | None => "None"
  end.

(** Truth value of an [Optional[str]]: [None] and [''] are false. *)
Definition truthy (c : option string) : bool :=
  match c with
  | Some (String _ _) => true
  | _ => false
  end.

Definition is_digit (c : ascii) : bool :=
  let k := nat_of_ascii c in ((48 <=? k) && (k <=? 57))%nat.

Fixpoint all_digits (s : string) : bool :=
  match s with
  | EmptyString => true
  | String c s' => is_digit c && all_digits s'
  end.

(** Keys of a [dict]; a row turned into a [dict] has only [str] keys. *)
Inductive key : Type :=
  | KStr (s : string)
  | KInt (i : Z).

Definition dict : Type := list (string * Z).

Fixpoint dict_get (d : dict) (s : string) : option Z :=
  match d with
  | [] => None
  | (k, v) :: d' => if String.eqb k s then Some v else dict_get d' s
  end.

(** [d[k]]; [None] stands for [KeyError]. *)
Definition dict_item (d : dict) (k : key) : option Z :=
  match k with
  | KStr s => dict_get d s
  | KInt _ => None
  end.

End Py.

(** ** Data model: the rows of [init_db]'s tables *)

(** [number_requests.status]: the four values the schema names. *)
Inductive req_status : Type := PENDING | SUCCESS | EXPIRED | CANCELLED.

Definition status_eqb (a b : req_status) : bool :=
  match a, b with
  | PENDING, PENDING | SUCCESS, SUCCESS
  | EXPIRED, EXPIRED | CANCELLED, CANCELLED => true
  | _, _ => false
  end.

Definition status_text (s : req_status) : string :=
  match s with
  | PENDING => "PENDING"
  | SUCCESS => "SUCCESS"
  | EXPIRED => "EXPIRED"
  | CANCELLED => "CANCELLED"
  end.

(** Timestamps are stored as ['%Y-%m-%d %H:%M:%S'] text; the model keeps the
    number of whole seconds they denote, which orders the same way.
    INTEGER columns are [Z]; a column that may be NULL is an [option]. *)
Record number_row : Type := mk_number {
  n_id : Z;
  n_country_id : Z;
  n_number : string;
  n_platform : string;
  n_added_by : Z;
  n_added_at : Z;
  n_is_premium : Z;
  n_premium_pattern : option string;
  n_times_used : Z;
  n_last_used : option Z;
  n_is_active : Z;
  n_last_used_by : option Z
}.

Record request_row : Type := mk_request {
  r_id : Z;
  r_user_id : Z;
  r_number_id : Z;
  r_api_request_id : string;
  r_status : req_status;
  r_expires_at : Z;
  r_code : option string;
  r_requested_at : Z
}.

Record log_row : Type := mk_log {
  l_who : Z;
  l_action : string;
  l_meta : string
}.

Record Tables : Type := mk_tables {
  numbers : list number_row;
  number_requests : list request_row;
  logs : list log_row
}.

(** ** SQL: the statements and queries the manager sends *)

Module Sql.

(** [ORDER BY]: a stable insertion sort, rows of equal rank keep table
    order.  [before a b] says that [a] may stand in front of [b]. *)
Section OrderBy.
Context {A : Type} (before : A -> A -> bool).

Fixpoint insert_row (x : A) (l : list A) : list A :=
  match l with
  | [] => [x]
  | y :: l' => if before x y then x :: l else y :: insert_row x l'
  end.

Fixpoint order_by (l : list A) : list A :=
  match l with
  | [] => []
  | x :: l' => insert_row x (order_by l')
  end.

End OrderBy.

(** [LIMIT lim OFFSET off] as SQLite reads them: a negative offset is no
    offset, a negative limit is no limit. *)
Definition limit_offset {A : Type} (lim off : Z) (l : list A) : list A :=
  let rest := skipn (Z.to_nat off) l in
  if lim <? 0 then rest else firstn (Z.to_nat lim) rest.

(** [INTEGER PRIMARY KEY AUTOINCREMENT]: one more than the largest id. *)
Definition next_request_id (t : list request_row) : Z :=
  fold_right (fun r m => Z.max (r_id r) m) 0 t + 1.

(** [SELECT id, number, platform FROM numbers WHERE id = ? AND is_active = 1] *)
Definition active_number (number_id : Z) (n : number_row) : bool :=
  (n_id n =? number_id) && (n_is_active n =? 1).

Definition select_active_number (number_id : Z) (d : Tables)
  : option number_row :=
  find (active_number number_id) (numbers d).

(** [INSERT INTO number_requests (user_id, number_id, api_request_id, status,
    expires_at) VALUES (?, ?, ?, ?, ?)]; [code] defaults to NULL and
    [requested_at] to the current second. *)
Definition insert_request (clock : Z) (user_id number_id : Z)
    (api_request_id : string) (status : req_status) (expires_at : Z)
    (d : Tables) : Tables :=
  mk_tables (numbers d)
    (number_requests d ++
       [mk_request (next_request_id (number_requests d)) user_id number_id
          api_request_id status expires_at None clock])
    (logs d).

(** [UPDATE numbers SET is_active = 0, last_used = ?, last_used_by = ?
    WHERE id = ?] *)
Definition hold_row (last_used user_id number_id : Z) (n : number_row)
  : number_row :=
  if n_id n =? number_id
  then mk_number (n_id n) (n_country_id n) (n_number n) (n_platform n)
         (n_added_by n) (n_added_at n) (n_is_premium n) (n_premium_pattern n)
         (n_times_used n) (Some last_used) 0 (Some user_id)
  else n.

Definition hold_number (last_used user_id number_id : Z) (d : Tables)
  : Tables :=
  mk_tables (map (hold_row last_used user_id number_id) (numbers d))
    (number_requests d) (logs d).

(** [WHERE user_id = ? AND number_id = ? AND status = 'PENDING'] *)
Definition pending_of (user_id number_id : Z) (r : request_row) : bool :=
  (r_user_id r =? user_id) && (r_number_id r =? number_id)
  && status_eqb (r_status r) PENDING.

(** [SELECT * FROM number_requests WHERE ... ORDER BY requested_at DESC
    LIMIT 1] *)
Definition later_request (a b : request_row) : bool :=
  r_requested_at b <=? r_requested_at a.

Definition select_pending_request (user_id number_id : Z) (d : Tables)
  : option request_row :=
  hd_error
    (limit_offset 1 0
       (order_by later_request
          (filter (pending_of user_id number_id) (number_requests d)))).

(** [UPDATE number_requests SET status = ?, code = ? WHERE user_id = ? AND
    number_id = ? AND status = 'PENDING'] *)
Definition close_row (status : req_status) (code : option string)
    (user_id number_id : Z) (r : request_row) : request_row :=
  if pending_of user_id number_id r
  then mk_request (r_id r) (r_user_id r) (r_number_id r) (r_api_request_id r)
         status (r_expires_at r) code (r_requested_at r)
  else r.

Definition close_requests (status : req_status) (code : option string)
    (user_id number_id : Z) (d : Tables) : Tables :=
  mk_tables (numbers d)
    (map (close_row status code user_id number_id) (number_requests d))
    (logs d).

(** [UPDATE numbers SET is_active = 1 WHERE id = ?] *)
Definition activate_row (number_id : Z) (n : number_row) : number_row :=
  if n_id n =? number_id
  then mk_number (n_id n) (n_country_id n) (n_number n) (n_platform n)
         (n_added_by n) (n_added_at n) (n_is_premium n) (n_premium_pattern n)
         (n_times_used n) (n_last_used n) 1 (n_last_used_by n)
  else n.

Definition activate_number (number_id : Z) (d : Tables) : Tables :=
  mk_tables (map (activate_row number_id) (numbers d))
    (number_requests d) (logs d).

(** [UPDATE numbers SET times_used = times_used + 1 WHERE id = ?] *)
Definition count_use_row (number_id : Z) (n : number_row) : number_row :=
  if n_id n =? number_id
  then mk_number (n_id n) (n_country_id n) (n_number n) (n_platform n)
         (n_added_by n) (n_added_at n) (n_is_premium n) (n_premium_pattern n)
         (n_times_used n + 1) (n_last_used n) (n_is_active n)
         (n_last_used_by n)
  else n.

Definition count_use (number_id : Z) (d : Tables) : Tables :=
  mk_tables (map (count_use_row number_id) (numbers d))
    (number_requests d) (logs d).

(** [INSERT INTO logs (who, action, meta) VALUES (?, ?, ?)] *)
Definition insert_log (who : Z) (action meta : string) (d : Tables)
  : Tables :=
  mk_tables (numbers d) (number_requests d)
    (logs d ++ [mk_log who action meta]).

(** [WHERE country_id = ? AND is_active = 1], with [AND is_premium = 0] for
    a caller who is not PRO. *)
Definition in_country (country_id : Z) (n : number_row) : bool :=
  (n_country_id n =? country_id) && (n_is_active n =? 1).

Definition listed (country_id : Z) (is_pro : bool) (n : number_row) : bool :=
  in_country country_id n && (is_pro || (n_is_premium n =? 0)).

(** [ORDER BY is_premium DESC, added_at DESC] *)
Definition listed_before (a b : number_row) : bool :=
  (n_is_premium b <? n_is_premium a)
  || ((n_is_premium b =? n_is_premium a) && (n_added_at b <=? n_added_at a)).

Definition select_numbers (country_id : Z) (is_pro : bool) (d : Tables)
  : list number_row :=
  order_by listed_before (filter (listed country_id is_pro) (numbers d)).

(** [SELECT COUNT(id) FROM numbers WHERE country_id = ? AND is_active = 1]:
    one row with the one column [COUNT(id)]. *)
Definition count_numbers (country_id : Z) (d : Tables) : Z :=
  Z.of_nat (List.length (filter (in_country country_id) (numbers d))).

End Sql.

(** ** The world a coroutine runs in, and the monad of Python code *)

(** [faults] says which database calls fail, counted by [db_calls] from the
    start of the run; [entropy] is what the [random] module returns, draw
    after draw, counted by [draws]. *)
Record World : Type := mk_world {
  db : Tables;
  faults : nat -> bool;
  db_calls : nat;
  entropy : nat -> Z;
  draws : nat
}.

Inductive exn : Type := DatabaseError | KeyError | NameError.

Inductive outcome (A : Type) : Type :=
  | Ok (a : A)
  | Raised (e : exn).
Arguments Ok {A} a.
Arguments Raised {A} e.

Definition M (A : Type) : Type := World -> outcome A * World.

Definition ret {A : Type} (a : A) : M A := fun w => (Ok a, w).

Definition raise {A : Type} (e : exn) : M A := fun w => (Raised e, w).

Definition bind {A B : Type} (c : M A) (k : A -> M B) : M B :=
  fun w =>
    match c w with
    | (Ok a, w') => k a w'
    | (Raised e, w') => (Raised e, w')
    end.

(** [try: c  except Exception as e: h e] *)
Definition try_except {A : Type} (c : M A) (h : exn -> M A) : M A :=
  fun w =>
    match c w with
    | (Ok a, w') => (Ok a, w')
    | (Raised e, w') => h e w'
    end.

Notation "x <- c ;; k" := (bind c (fun x => k))
  (at level 61, c at next level, right associativity).
Notation "c ;;; k" := (bind c (fun _ => k))
  (at level 61, right associativity).

Definition fault_free (w : World) : Prop := forall i, faults w i = false.

(** ** [database.py] *)

Module Database.

Definition next_call (w : World) : World :=
  mk_world (db w) (faults w) (S (db_calls w)) (entropy w) (draws w).

Definition commit (d : Tables) (w : World) : World :=
  mk_world d (faults w) (db_calls w) (entropy w) (draws w).

(** [execute]: run the statement and commit it, or log the error and raise
    it again.  A statement that fails changes no row. *)
Definition execute (stmt : Tables -> Tables) : M unit :=
  fun w =>
    if faults w (db_calls w)
    then (Raised DatabaseError, next_call w)
    else (Ok tt, next_call (commit (stmt (db w)) w)).

(** [fetchone]: the first row as a [dict], [None] when there is none and
    also when the query fails. *)
Definition fetchone {R : Type} (query : Tables -> option R) : M (option R) :=
  fun w =>
    if faults w (db_calls w)
    then (Ok None, next_call w)
    else (Ok (query (db w)), next_call w).

(** [fetchall]: all rows, the empty list when the query fails. *)
Definition fetchall {R : Type} (query : Tables -> list R) : M (list R) :=
  fun w =>
    if faults w (db_calls w)
    then (Ok [], next_call w)
    else (Ok (query (db w)), next_call w).

Definition log_action (who : Z) (action meta : string) : M unit :=
  execute (Sql.insert_log who action meta).

End Database.

(** ** The [random] module *)

Module Random.

Definition draw : M Z :=
  fun w =>
    (Ok (entropy w (draws w)),
     mk_world (db w) (faults w) (db_calls w) (entropy w) (S (draws w))).

(** [random.random()] is [k / 2^53] for a uniform [0 <= k < 2^53]; the model
    returns [k]. *)
Definition random : M Z :=
  r <- draw ;; ret (r mod 2 ^ 53).

(** [random.random() < 0.3]: the double written [0.3] is
    [5404319552844595 / 2^54], so [k / 2^53 < 0.3] is an integer test. *)
Definition below_0_3 (k : Z) : bool := 2 * k <? 5404319552844595.

(** [random.randint(a, b)]: a uniform integer of [a .. b], both included. *)
Definition randint (a b : Z) : M Z :=
  r <- draw ;; ret (a + r mod (b - a + 1)).

End Random.

(** ** [datetime] *)

(** The clock counts microseconds; [strftime('%Y-%m-%d %H:%M:%S')] drops
    them and [strptime] reads the text back as a whole second. *)
Definition strftime (t : Z) : Z := t / 1000000.
Definition strptime (s : Z) : Z := s * 1000000.
Definition minutes (m : Z) : Z := m * 60 * 1000000.

(** ** Integers of SQLite *)

Module Int64.

(** What the 64 bits of an SQLite INTEGER hold, which is also what
    [sqlite3] binds to a statement without [OverflowError]. *)
Definition fits (z : Z) : Prop :=
  -9223372036854775808 <= z <= 9223372036854775807.

Definition fitsb (z : Z) : bool :=
  (-9223372036854775808 <=? z) && (z <=? 9223372036854775807).

End Int64.

(** ** [services/number_manager.py] *)

Module NumberManager.

Import Database.

(** [self.request_expiry_minutes] *)
Definition request_expiry_minutes : Z := 5.

(** The [dict] that [initialize_number_request] returns. *)
Record request_data : Type := mk_request_data {
  rd_number_id : Z;
  rd_number : string;
  rd_platform : string;
  rd_api_request_id : string;
  rd_expires_at : Z
}.

(** The rows [get_numbers_for_country] returns:
    [id, number, platform, is_premium]. *)
Record number_item : Type := mk_number_item {
  ni_id : Z;
  ni_number : string;
  ni_platform : string;
  ni_is_premium : Z
}.

Definition item_of (n : number_row) : number_item :=
  mk_number_item (n_id n) (n_number n) (n_platform n) (n_is_premium n).

(** The query binds [country_id], [limit] and [offset]; an integer beyond
    64 bits raises [OverflowError] inside the [try] of [fetchall], which
    answers with the empty list. *)
Definition get_numbers_for_country (country_id : Z) (is_pro : bool)
    (page limit : Z) : M (list number_item) :=
  let offset := (page - 1) * limit in
  fetchall (fun d =>
    if Int64.fitsb country_id && Int64.fitsb limit && Int64.fitsb offset
    then
      map item_of
        (Sql.limit_offset limit offset
           (Sql.select_numbers country_id is_pro d))
    else []).

(** [result[0] if result else 0], where [result] is the [dict] that
    [fetchone] made of the row: its only key is the column name. *)
Definition get_total_numbers_count (country_id : Z) : M Z :=
  result <- fetchone (fun d =>
              Some [("COUNT(id)", Sql.count_numbers country_id d)]) ;;
  match result with
  | Some (item :: items) =>
      match Py.dict_item (item :: items) (Py.KInt 0) with
      | Some v => ret v
      | None => raise KeyError
      end
  | _ => ret 0
  end.

Definition finalize_number_request (user_id number_id : Z)
    (status : req_status) (code : option string) : M unit :=
  execute (Sql.close_requests status code user_id number_id) ;;;
  match status with
  | EXPIRED | CANCELLED =>
      execute (Sql.activate_number number_id) ;;;
      log_action user_id "NUMBER_REQUEST_FAILED"
        ("Number ID: " ++ Py.str_int number_id ++ ", Status: "
           ++ status_text status)%string
  | SUCCESS =>
      execute (Sql.count_use number_id) ;;;
      log_action user_id "NUMBER_REQUEST_SUCCESS"
        ("Number ID: " ++ Py.str_int number_id ++ ", Code: "
           ++ Py.str_opt code)%string
  | PENDING => ret tt
  end.

(** [now] is what [datetime.now()] reads (both reads of the function fall
    in the same microsecond) and [uuid] is [str(uuid.uuid4())]; SQLite's
    [CURRENT_TIMESTAMP] is the same instant to the second.  A constraint
    that a statement violates is one of the failures of [faults]. *)
Definition initialize_number_request (now : Z) (uuid : string)
    (user_id number_id : Z) : M (option request_data) :=
  number_data <- fetchone (Sql.select_active_number number_id) ;;
  match number_data with
  | None => ret None
  | Some nd =>
      let api_request_id := uuid in
      let expires_at := now + minutes request_expiry_minutes in
      let expires_at_str := strftime expires_at in
      try_except
        (execute (Sql.insert_request (strftime now) user_id number_id
                    api_request_id PENDING expires_at_str) ;;;
         execute (Sql.hold_number (strftime now) user_id number_id) ;;;
         log_action user_id "NUMBER_REQUEST_INITIATED"
           ("Number ID: " ++ Py.str_int number_id ++ ", API ID: "
              ++ api_request_id)%string ;;;
         ret (Some (mk_request_data number_id (n_number nd) (n_platform nd)
                      api_request_id expires_at_str)))
        (fun _ => ret None)
  end.

Definition _simulate_api_check (api_request_id : string)
  : M (option string) :=
  u <- Random.random ;;
  if Random.below_0_3 u
  then n <- Random.randint 100000 999999 ;; ret (Some (Py.str_int n))
  else ret None.

Definition check_for_code (now : Z) (user_id number_id : Z)
  : M (option string) :=
  request <- fetchone (Sql.select_pending_request user_id number_id) ;;
  match request with
  | None => ret None
  | Some rq =>
      let expires_at := strptime (r_expires_at rq) in
      if expires_at <? now
      then finalize_number_request user_id number_id EXPIRED None ;;;
           ret (Some "EXPIRED")
      else
        code <- _simulate_api_check (r_api_request_id rq) ;;
        if Py.truthy code
        then finalize_number_request user_id number_id SUCCESS code ;;;
             ret code
        else ret None
  end.

End NumberManager.

(** ** [handlers/number_handlers.py]: what the user is told *)

Module Handlers.

Inductive reply : Type :=
  | RequestUnavailable
  | RequestInitiated (rd : NumberManager.request_data)
  | RequestExpired
  | NotReady
  | RequestCancelled.

Definition number_request_handler (now : Z) (uuid : string)
    (user_id number_id : Z) : M reply :=
  request_data <- NumberManager.initialize_number_request now uuid
                    user_id number_id ;;
  match request_data with
  | None => ret RequestUnavailable
  | Some rd => ret (RequestInitiated rd)
  end.

(** The branch that shows a delivered code calls [safe_edit_text], a name
    the module neither defines nor imports. *)
Definition number_check_code_handler (now : Z) (user_id number_id : Z)
  : M reply :=
  code_result <- NumberManager.check_for_code now user_id number_id ;;
  match code_result with
  | Some code =>
      if String.eqb code "EXPIRED" then ret RequestExpired
      else if Py.truthy code_result then raise NameError
      else ret NotReady
  | None => ret NotReady
  end.

Definition number_cancel_request_handler (user_id number_id : Z) : M reply :=
  NumberManager.finalize_number_request user_id number_id CANCELLED None ;;;
  ret RequestCancelled.

End Handlers.

(** ** Reading a state *)

Module View.

Definition number_by_id (number_id : Z) (d : Tables) : option number_row :=
  find (fun n => n_id n =? number_id) (numbers d).

(** A number is available when its row says [is_active = 1]. *)
Definition available (number_id : Z) (d : Tables) : bool :=
  match number_by_id number_id d with
  | Some n => n_is_active n =? 1
  | None => false
  end.

Definition times_used (number_id : Z) (d : Tables) : option Z :=
  option_map n_times_used (number_by_id number_id d).

(** The PENDING leases on a number, whoever holds them. *)
Definition pending_on (number_id : Z) (d : Tables) : list request_row :=
  filter (fun r => (r_number_id r =? number_id)
                   && status_eqb (r_status r) PENDING)
    (number_requests d).

(** No number of the table has two PENDING leases. *)
Definition exclusive (d : Tables) : bool :=
  forallb (fun n => (List.length (pending_on (n_id n) d) <=? 1)%nat)
    (numbers d).

(** The PENDING leases of one user on one number. *)
Definition pending_for (user_id number_id : Z) (d : Tables)
  : list request_row :=
  filter (Sql.pending_of user_id number_id) (number_requests d).

Definition terminal (s : req_status) : bool := negb (status_eqb s PENDING).

(** [ORDER BY is_premium DESC, added_at DESC], as a relation. *)
Definition premium_then_recent (a b : number_row) : Prop :=
  n_is_premium b < n_is_premium a
  \/ (n_is_premium b = n_is_premium a /\ n_added_at b <= n_added_at a).

End View.

(** ** What an operation leaves in the tables when no statement fails *)

Module Effect.

Definition finalized (user_id number_id : Z) (status : req_status)
    (code : option string) (d : Tables) : Tables :=
  let closed := Sql.close_requests status code user_id number_id d in
  match status with
  | EXPIRED | CANCELLED =>
      Sql.insert_log user_id "NUMBER_REQUEST_FAILED"
        ("Number ID: " ++ Py.str_int number_id ++ ", Status: "
           ++ status_text status)%string
        (Sql.activate_number number_id closed)
  | SUCCESS =>
      Sql.insert_log user_id "NUMBER_REQUEST_SUCCESS"
        ("Number ID: " ++ Py.str_int number_id ++ ", Code: "
           ++ Py.str_opt code)%string
        (Sql.count_use number_id closed)
  | PENDING => closed
  end.

Definition lease_inserted (now : Z) (uuid : string) (user_id number_id : Z)
    (d : Tables) : Tables :=
  Sql.insert_request (strftime now) user_id number_id uuid PENDING
    (strftime (now + minutes NumberManager.request_expiry_minutes)) d.

Definition number_held (now : Z) (uuid : string) (user_id number_id : Z)
    (d : Tables) : Tables :=
  Sql.hold_number (strftime now) user_id number_id
    (lease_inserted now uuid user_id number_id d).

Definition initiated (now : Z) (uuid : string) (user_id number_id : Z)
    (d : Tables) : Tables :=
  Sql.insert_log user_id "NUMBER_REQUEST_INITIATED"
    ("Number ID: " ++ Py.str_int number_id ++ ", API ID: " ++ uuid)%string
    (number_held now uuid user_id number_id d).

End Effect.

(** ** Runs of user actions *)

Module Run.

Inductive action : Type :=
  | Initiate (now : Z) (uuid : string) (user_id number_id : Z)
  | Poll (now : Z) (user_id number_id : Z)
  | Cancel (user_id number_id : Z).

Definition step (a : action) (w : World) : World :=
  match a with
  | Initiate now uuid u k =>
      snd (Handlers.number_request_handler now uuid u k w)
  | Poll now u k => snd (Handlers.number_check_code_handler now u k w)
  | Cancel u k => snd (Handlers.number_cancel_request_handler u k w)
  end.

Definition run (l : list action) (w : World) : World :=
  fold_left (fun w a => step a w) l w.

Definition result {A : Type} (c : M A) (w : World) : outcome A := fst (c w).
Definition after {A : Type} (c : M A) (w : World) : Tables := db (snd (c w)).

End Run.

(** ** Concrete states used in examples *)

Module Scenario.

Definition number1 : number_row :=
  mk_number 1 7 "+15550001" "Telegram" 99 1000 0 None 0 None 1 None.

Definition number2 : number_row :=
  mk_number 2 7 "+15550777" "WhatsApp" 99 2000 1 (Some "*777") 0 None 1 None.

Definition number3 : number_row :=
  mk_number 3 7 "+15550003" "Telegram" 99 3000 0 None 0 None 1 None.

Definition never : nat -> bool := fun _ => false.

Definition world_of (d : Tables) (f : nat -> bool) (e : nat -> Z) : World :=
  mk_world d f 0%nat e 0%nat.

(** One free number, no lease yet, no failure, and a [random] that always
    draws [0] (so the simulated API delivers at once). *)
Definition world0 : World :=
  world_of (mk_tables [number1] [] []) never (fun _ => 0).

(** The same tables with a [random] that never delivers. *)
Definition silent : nat -> Z := fun _ => 2 ^ 52.

Definition world_silent : World :=
  world_of (mk_tables [number1] [] []) never silent.

(** Three numbers of country 7, one of them premium. *)
Definition world_catalog : World :=
  world_of (mk_tables [number1; number2; number3] [] []) never (fun _ => 0).

(** The third database call fails (the second statement of a
    reservation). *)
Definition world_failing : World :=
  world_of (mk_tables [number1] [] []) (fun i => Nat.eqb i 2) (fun _ => 0).

(** User 2 reserves number 1 and cancels; user 1 reserves it; user 2's
    cancel button is pressed once more; user 2 reserves again. *)
Definition double_cancel : list Run.action :=
  [ Run.Initiate 1000000 "a" 2 1;
    Run.Cancel 2 1;
    Run.Initiate 2000000 "b" 1 1;
    Run.Cancel 2 1;
    Run.Initiate 3000000 "c" 2 1 ].


(** User 2 holds number 1 (lease until second 301). *)
Definition world_leased : World :=
  Run.run [Run.Initiate 1000000 "a" 2 1] world_silent.

(** User 2 holds number 1 and the simulated API is about to deliver. *)
Definition world_answering : World :=
  Run.run [Run.Initiate 1000000 "a" 2 1] world0.

(** User 2's lease on number 1 ended in SUCCESS. *)
Definition world_success : World :=
  Run.run [Run.Initiate 1000000 "a" 2 1; Run.Poll 2000000 2 1] world0.

(** User 2's lease on number 1 ended in EXPIRED. *)
Definition world_expired : World :=
  Run.run [Run.Poll 400000000 2 1] world_leased.

End Scenario.

(** * The rest of the bot: countries, users, points and settings *)

(** ** More Python and SQL values *)

Module Text.

(** [s.replace(old, new)] for two characters. *)
Fixpoint replace (old new : ascii) (s : string) : string :=
  match s with
  | EmptyString => EmptyString
  | String c s' =>
      String (if Ascii.eqb c old then new else c) (replace old new s')
  end.

(** SQLite folds the case of the 26 ASCII letters when it compares with
    LIKE. *)
Definition lower (c : ascii) : ascii :=
  let k := nat_of_ascii c in
  if ((65 <=? k) && (k <=? 90))%nat then ascii_of_nat (k + 32) else c.

(** The bytes of UTF-8 text: a lead byte opens a character of several
    bytes, continuation bytes follow it. *)
Definition lead (c : ascii) : bool := (192 <=? nat_of_ascii c)%nat.

Definition continuation (c : ascii) : bool :=
  let k := nat_of_ascii c in ((128 <=? k) && (k <=? 191))%nat.

Fixpoint drop_continuation (s : string) : string :=
  match s with
  | EmptyString => EmptyString
  | String c s' => if continuation c then drop_continuation s' else s
  end.

(** One character of UTF-8 text: a byte and, after a lead byte, the
    continuation bytes that follow it. *)
Definition skip_char (s : string) : option string :=
  match s with
  | EmptyString => None
  | String c s' => Some (if lead c then drop_continuation s' else s')
  end.

(** [s LIKE p]: [%] stands for any number of characters, [_] for one
    character, anything else for itself up to the case of ASCII letters.
    After [%] the rest of the pattern is tried where a character of [s]
    starts, not between the bytes of one ([inside]). *)
Fixpoint like (p s : string) : bool :=
  match p with
  | EmptyString =>
      match s with
      | EmptyString => true
      | String _ _ => false
      end
  | String c p' =>
      if Ascii.eqb c "%" then
        (fix any (inside : bool) (s : string) : bool :=
           match s with
           | EmptyString => like p' EmptyString
           | String d s' =>
               if inside && continuation d then any true s'
               else like p' s || any (lead d) s'
           end) false s
      else if Ascii.eqb c "_" then
        match skip_char s with
        | Some s' => like p' s'
        | None => false
        end
      else
        match s with
        | EmptyString => false
        | String d s' => Ascii.eqb (lower c) (lower d) && like p' s'
        end
  end.

(** Two bytes that are equal, or the same ASCII letter in upper and in
    lower case ([A] is 65, [Z] is 90, [a] is 97). *)
Definition same_letter (c d : ascii) : bool :=
  let a := nat_of_ascii c in
  let b := nat_of_ascii d in
  ((a =? b) || ((65 <=? a) && (a <=? 90) && (b =? a + 32))
   || ((65 <=? b) && (b <=? 90) && (a =? b + 32)))%nat.

(** [s] starts with [p], up to the case of ASCII letters. *)
Fixpoint starts_with (p s : string) : bool :=
  match p, s with
  | EmptyString, _ => true
  | String c p', String d s' => same_letter c d && starts_with p' s'
  | String _ _, EmptyString => false
  end.

(** Two texts that differ in the case of ASCII letters only. *)
Fixpoint same_text (p q : string) : bool :=
  match p, q with
  | EmptyString, EmptyString => true
  | String c p', String d q' => same_letter c d && same_text p' q'
  | _, _ => false
  end.

(** The 256 bytes. *)
Definition alphabet : list ascii := map ascii_of_nat (seq 0 256).

Fixpoint plain (p : string) : bool :=
  match p with
  | EmptyString => true
  | String c p' =>
      negb (Ascii.eqb c "%") && negb (Ascii.eqb c "_")
      && negb (Ascii.eqb c "*") && plain p'
  end.

Fixpoint contains (c : ascii) (s : string) : bool :=
  match s with
  | EmptyString => false
  | String d s' => Ascii.eqb c d || contains c s'
  end.

End Text.

(** ** Dates as text *)

Module Calendar.

(** The civil date of a day counted from 1970-01-01. *)
Definition civil (days : Z) : Z * Z * Z :=
  let z := days + 719468 in
  let era := z / 146097 in
  let doe := z - era * 146097 in
  let yoe := (doe - doe / 1460 + doe / 36524 - doe / 146096) / 365 in
  let doy := doe - (365 * yoe + yoe / 4 - yoe / 100) in
  let mp := (5 * doy + 2) / 153 in
  let d := doy - (153 * mp + 2) / 5 + 1 in
  let m := if mp <? 10 then mp + 3 else mp - 9 in
  let y := yoe + era * 400 in
  (if m <=? 2 then y + 1 else y, m, d).

(** Two digits, as [%m], [%d], [%H], [%M] and [%S] print them. *)
Definition two_digits (n : Z) : string :=
  if n <? 10 then String "0" (Py.str_int n) else Py.str_int n.

(** [strftime("%Y-%m-%d")] of a clock that counts microseconds. *)
Definition date_text (t : Z) : string :=
  let '(y, m, d) := civil (t / 1000000 / 86400) in
  (Py.str_int y ++ "-" ++ two_digits m ++ "-" ++ two_digits d)%string.

(** [strftime("%Y-%m-%d %H:%M:%S")] *)
Definition datetime_text (t : Z) : string :=
  let secs := (t / 1000000) mod 86400 in
  (date_text t ++ " " ++ two_digits (secs / 3600) ++ ":"
     ++ two_digits (secs / 60 mod 60) ++ ":"
     ++ two_digits (secs mod 60))%string.

(** [datetime] holds the years 1 to 9999: the first and the last
    microsecond it can represent, counted like the clock. *)
Definition representable (t : Z) : bool :=
  (-62135596800000000 <=? t) && (t <=? 253402300799999999).

End Calendar.

(** ** The other tables of [init_db]

    INTEGER columns and the integers that are bound to a statement are [Z]:
    the model follows the code for numbers that fit the 64 bits of an
    SQLite INTEGER ([Int64.fits]); where an amount or a limit is an
    argument that a user, an admin or a setting supplies, the theorems say
    so.  Texts that hold a date are [Z] as well (whole seconds,
    what [strftime] writes), except [last_daily_bonus], which the code
    compares as text. *)

Record country_row : Type := mk_country {
  c_id : Z;
  c_name : string;
  c_flag : string;
  c_platform : string;
  c_is_active : Z
}.

Record user_row : Type := mk_user {
  u_id : Z;
  u_username : string;
  u_first_name : string;
  u_last_name : string;
  u_joined_at : Z;
  u_banned : Z;
  u_is_admin : Z;
  u_points : Z;
  u_invited_by : option Z;
  u_total_invites : Z;
  u_is_pro : Z;
  u_pro_expiry : option Z;
  u_last_daily_bonus : option string;
  u_proofs_submitted : Z
}.

Record history_row : Type := mk_history {
  h_id : Z;
  h_user_id : Z;
  h_points_change : Z;
  h_reason : string;
  h_related_id : option Z;
  h_created_at : Z
}.

Record subscription_row : Type := mk_subscription {
  p_id : Z;
  p_user_id : Z;
  p_started_at : Z;
  p_expires_at : Z;
  p_duration_days : Z;
  p_method : string;
  p_is_active : Z
}.

(** ** The whole bot: the world of the reservations, the other tables, and
       the attributes that a [PointsManager] and a [ProManager] keep
       between calls *)

Module Bot.

Record State : Type := mk_state {
  world : World;
  countries : list country_row;
  users : list user_row;
  settings : list (string * string);
  points_history : list history_row;
  pro_subscriptions : list subscription_row;
  daily_bonus_points : Z;
  invite_points : Z;
  proof_points : Z;
  pro_days_duration : Z;
  pro_points_cost : Z
}.

Definition with_world (w : World) (s : State) : State :=
  mk_state w (countries s) (users s) (settings s) (points_history s)
    (pro_subscriptions s) (daily_bonus_points s) (invite_points s)
    (proof_points s) (pro_days_duration s) (pro_points_cost s).

Definition with_numbers (l : list number_row) (s : State) : State :=
  with_world
    (Database.commit
       (mk_tables l (number_requests (db (world s))) (logs (db (world s))))
       (world s)) s.

Definition with_countries (l : list country_row) (s : State) : State :=
  mk_state (world s) l (users s) (settings s) (points_history s)
    (pro_subscriptions s) (daily_bonus_points s) (invite_points s)
    (proof_points s) (pro_days_duration s) (pro_points_cost s).

Definition with_users (l : list user_row) (s : State) : State :=
  mk_state (world s) (countries s) l (settings s) (points_history s)
    (pro_subscriptions s) (daily_bonus_points s) (invite_points s)
    (proof_points s) (pro_days_duration s) (pro_points_cost s).

Definition with_settings (l : list (string * string)) (s : State) : State :=
  mk_state (world s) (countries s) (users s) l (points_history s)
    (pro_subscriptions s) (daily_bonus_points s) (invite_points s)
    (proof_points s) (pro_days_duration s) (pro_points_cost s).

Definition with_points_history (l : list history_row) (s : State) : State :=
  mk_state (world s) (countries s) (users s) (settings s) l
    (pro_subscriptions s) (daily_bonus_points s) (invite_points s)
    (proof_points s) (pro_days_duration s) (pro_points_cost s).

Definition with_pro_subscriptions (l : list subscription_row) (s : State)
  : State :=
  mk_state (world s) (countries s) (users s) (settings s) (points_history s) l
    (daily_bonus_points s) (invite_points s) (proof_points s)
    (pro_days_duration s) (pro_points_cost s).

Definition with_daily_bonus_points (v : Z) (s : State) : State :=
  mk_state (world s) (countries s) (users s) (settings s) (points_history s)
    (pro_subscriptions s) v (invite_points s) (proof_points s)
    (pro_days_duration s) (pro_points_cost s).

Definition with_invite_points (v : Z) (s : State) : State :=
  mk_state (world s) (countries s) (users s) (settings s) (points_history s)
    (pro_subscriptions s) (daily_bonus_points s) v (proof_points s)
    (pro_days_duration s) (pro_points_cost s).

Definition with_proof_points (v : Z) (s : State) : State :=
  mk_state (world s) (countries s) (users s) (settings s) (points_history s)
    (pro_subscriptions s) (daily_bonus_points s) (invite_points s) v
    (pro_days_duration s) (pro_points_cost s).

Definition with_pro_days_duration (v : Z) (s : State) : State :=
  mk_state (world s) (countries s) (users s) (settings s) (points_history s)
    (pro_subscriptions s) (daily_bonus_points s) (invite_points s)
    (proof_points s) v (pro_points_cost s).

Definition with_pro_points_cost (v : Z) (s : State) : State :=
  mk_state (world s) (countries s) (users s) (settings s) (points_history s)
    (pro_subscriptions s) (daily_bonus_points s) (invite_points s)
    (proof_points s) (pro_days_duration s) v.

Definition numbers_of (s : State) : list number_row := numbers (db (world s)).

(** Exceptions: those of the reservation code, a constraint of the schema
    that a statement violates, and the ones Python raises itself. *)
Inductive error : Type :=
  | Core (e : exn)
  | IntegrityError
  | TypeError
  | ValueError
  | OverflowError
  | OpenError.

Inductive result (A : Type) : Type :=
  | Done (a : A)
  | Thrown (e : error).
Arguments Done {A} a.
Arguments Thrown {A} e.

Definition B (A : Type) : Type := State -> result A * State.

Definition ret {A : Type} (a : A) : B A := fun s => (Done a, s).

Definition raise {A : Type} (e : error) : B A := fun s => (Thrown e, s).

Definition bind {A C : Type} (c : B A) (k : A -> B C) : B C :=
  fun s =>
    match c s with
    | (Done a, s') => k a s'
    | (Thrown e, s') => (Thrown e, s')
    end.

Definition try_except {A : Type} (c : B A) (h : error -> B A) : B A :=
  fun s =>
    match c s with
    | (Done a, s') => (Done a, s')
    | (Thrown e, s') => h e s'
    end.

(** Code of the reservation part, run inside the bot. *)
Definition lift {A : Type} (c : M A) : B A :=
  fun s =>
    match c (world s) with
    | (Ok a, w) => (Done a, with_world w s)
    | (Raised e, w) => (Thrown (Core e), with_world w s)
    end.

Definition get {A : Type} (f : State -> A) : B A := fun s => (Done (f s), s).

Definition set (f : State -> State) : B unit := fun s => (Done tt, f s).

Definition no_faults (s : State) : Prop := fault_free (world s).

Definition value {A : Type} (c : B A) (s : State) : result A := fst (c s).
Definition state_after {A : Type} (c : B A) (s : State) : State := snd (c s).

End Bot.

Notation "x <~ c ;; k" := (Bot.bind c (fun x => k))
  (at level 61, c at next level, right associativity).
Notation "c ;;~ k" := (Bot.bind c (fun _ => k))
  (at level 61, right associativity).

(** ** [database.py], on all the tables

    [Store] has the calls on a connection that is open, as it is once
    [init_db] has run at start-up; the test [if self.conn is None] with
    which [execute], [fetchone] and [fetchall] begin is in [Connection]
    below. *)

Module Store.

Import Bot.

Definition failing (s : State) : bool :=
  faults (world s) (db_calls (world s)).

Definition next_call (s : State) : State :=
  with_world (Database.next_call (world s)) s.

(** [execute]; a statement that violates a constraint gives [None] and is
    raised as [IntegrityError]. *)
Definition execute (stmt : State -> option State) : B unit :=
  fun s =>
    if failing s then (Thrown (Core DatabaseError), next_call s)
    else match stmt s with
         | Some s' => (Done tt, next_call s')
         | None => (Thrown IntegrityError, next_call s)
         end.

(** [cursor = await execute(...)] followed by [cursor.lastrowid], for an
    INSERT. *)
Definition execute_insert (stmt : State -> option (Z * State)) : B Z :=
  fun s =>
    if failing s then (Thrown (Core DatabaseError), next_call s)
    else match stmt s with
         | Some (rowid, s') => (Done rowid, next_call s')
         | None => (Thrown IntegrityError, next_call s)
         end.

Definition fetchone {R : Type} (query : State -> option R) : B (option R) :=
  fun s =>
    if failing s then (Done None, next_call s)
    else (Done (query s), next_call s).

Definition fetchall {R : Type} (query : State -> list R) : B (list R) :=
  fun s =>
    if failing s then (Done [], next_call s)
    else (Done (query s), next_call s).

Definition log_action (who : Z) (action meta : string) : B unit :=
  lift (Database.log_action who action meta).

(** *** Statements and queries *)

Definition next_id {R : Type} (id : R -> Z) (t : list R) : Z :=
  fold_right (fun r m => Z.max (id r) m) 0 t + 1.

(** [SELECT * FROM users WHERE id = ?] *)
Definition select_user (user_id : Z) (s : State) : option user_row :=
  find (fun u => u_id u =? user_id) (users s).

(** [INSERT OR IGNORE INTO users (id, username, first_name, last_name,
    invited_by)]: nothing happens when the id is taken. *)
Definition insert_user (clock : Z) (user_id : Z)
    (username first_name last_name : string) (invited_by : option Z)
    (s : State) : option State :=
  match select_user user_id s with
  | Some _ => Some s
  | None =>
      Some (with_users
              (users s ++
                 [mk_user user_id username first_name last_name clock 0 0 0
                    invited_by 0 0 None None 0]) s)
  end.

(** [UPDATE users SET total_invites = total_invites + 1 WHERE id = ?] *)
Definition count_invite_row (user_id : Z) (u : user_row) : user_row :=
  if u_id u =? user_id
  then mk_user (u_id u) (u_username u) (u_first_name u) (u_last_name u)
         (u_joined_at u) (u_banned u) (u_is_admin u) (u_points u)
         (u_invited_by u) (u_total_invites u + 1) (u_is_pro u)
         (u_pro_expiry u) (u_last_daily_bonus u) (u_proofs_submitted u)
  else u.

Definition count_invite (user_id : Z) (s : State) : option State :=
  Some (with_users (map (count_invite_row user_id) (users s)) s).

(** [UPDATE users SET points = points + ? WHERE id = ?], for an amount and
    a sum within the 64 bits of SQLite; beyond them [sqlite3] raises
    [OverflowError] when it binds the amount, and SQLite stores a sum as
    REAL, which the model does not follow. *)
Definition change_points_row (points_change user_id : Z) (u : user_row)
  : user_row :=
  if u_id u =? user_id
  then mk_user (u_id u) (u_username u) (u_first_name u) (u_last_name u)
         (u_joined_at u) (u_banned u) (u_is_admin u)
         (u_points u + points_change)
         (u_invited_by u) (u_total_invites u) (u_is_pro u)
         (u_pro_expiry u) (u_last_daily_bonus u) (u_proofs_submitted u)
  else u.

Definition change_points (points_change user_id : Z) (s : State)
  : option State :=
  Some (with_users (map (change_points_row points_change user_id) (users s))
          s).

(** [UPDATE users SET last_daily_bonus = ? WHERE id = ?] *)
Definition stamp_bonus_row (text : string) (user_id : Z) (u : user_row)
  : user_row :=
  if u_id u =? user_id
  then mk_user (u_id u) (u_username u) (u_first_name u) (u_last_name u)
         (u_joined_at u) (u_banned u) (u_is_admin u) (u_points u)
         (u_invited_by u) (u_total_invites u) (u_is_pro u)
         (u_pro_expiry u) (Some text) (u_proofs_submitted u)
  else u.

Definition stamp_bonus (text : string) (user_id : Z) (s : State)
  : option State :=
  Some (with_users (map (stamp_bonus_row text user_id) (users s)) s).

(** [INSERT INTO points_history (user_id, points_change, reason,
    related_id)]; [user_id] is a foreign key into [users]. *)
Definition insert_history (clock : Z) (user_id points_change : Z)
    (reason : string) (related_id : option Z) (s : State) : option State :=
  match select_user user_id s with
  | None => None
  | Some _ =>
      Some (with_points_history
              (points_history s ++
                 [mk_history (next_id h_id (points_history s)) user_id
                    points_change reason related_id clock]) s)
  end.

(** [SELECT points_change, reason, created_at FROM points_history
    WHERE user_id = ? ORDER BY id DESC LIMIT ?] *)
Definition newer_entry (a b : history_row) : bool := h_id b <=? h_id a.

Definition select_history (user_id limit : Z) (s : State)
  : list history_row :=
  Sql.limit_offset limit 0
    (Sql.order_by newer_entry
       (filter (fun h => h_user_id h =? user_id) (points_history s))).

(** [SELECT id, username, points, total_invites FROM users
    ORDER BY points DESC LIMIT ?] *)
Definition richer (a b : user_row) : bool := u_points b <=? u_points a.

Definition select_top_users (limit : Z) (s : State) : list user_row :=
  Sql.limit_offset limit 0 (Sql.order_by richer (users s)).

(** [SELECT value FROM settings WHERE key = ?] *)
Definition select_setting (key : string) (s : State) : option string :=
  option_map snd (find (fun kv => String.eqb (fst kv) key) (settings s)).

(** [INSERT OR REPLACE INTO settings (key, value)]: [key] is the primary
    key, the row that has it is replaced. *)
Definition replace_setting (key value : string) (s : State)
  : option State :=
  Some (with_settings
          (filter (fun kv => negb (String.eqb (fst kv) key)) (settings s)
             ++ [(key, value)]) s).

(** [INSERT INTO countries (name, flag)]; [name] is UNIQUE. *)
Definition insert_country (name flag : string) (s : State)
  : option (Z * State) :=
  if existsb (fun c => String.eqb (c_name c) name) (countries s) then None
  else
    let id := next_id c_id (countries s) in
    Some (id,
          with_countries
            (countries s ++ [mk_country id name flag "Telegram" 1]) s).

(** [SELECT * FROM countries WHERE id = ?] *)
Definition select_country (country_id : Z) (s : State)
  : option country_row :=
  find (fun c => c_id c =? country_id) (countries s).

(** [SELECT id, name, flag, is_active FROM countries ORDER BY name] *)
Definition name_before (a b : country_row) : bool :=
  String.leb (c_name a) (c_name b).

Definition select_countries (s : State) : list country_row :=
  Sql.order_by name_before (countries s).

(** [SELECT c.id, c.name, c.flag, COUNT(n.id) as number_count
    FROM countries c LEFT JOIN numbers n
      ON c.id = n.country_id AND n.is_active = 1
    WHERE c.is_active = 1 GROUP BY c.id, c.name, c.flag
    HAVING number_count > 0 ORDER BY c.name]; [id] is the primary key, so
    every row of [countries] is a group of its own. *)
Definition number_count (c : country_row) (s : State) : Z :=
  Sql.count_numbers (c_id c) (db (world s)).

Definition offered (s : State) (c : country_row) : bool :=
  (c_is_active c =? 1) && (0 <? number_count c s).

Definition select_offered_countries (s : State)
  : list (country_row * Z) :=
  map (fun c => (c, number_count c s))
    (Sql.order_by name_before (filter (offered s) (countries s))).

(** [INSERT INTO numbers (country_id, number, platform, added_by,
    is_premium, premium_pattern)]; [country_id] is a foreign key into
    [countries]. *)
Definition insert_number (clock : Z) (country_id : Z)
    (number platform : string) (added_by is_premium : Z)
    (premium_pattern : option string) (s : State) : option (Z * State) :=
  match select_country country_id s with
  | None => None
  | Some _ =>
      let id := next_id n_id (numbers_of s) in
      Some (id,
            with_numbers
              (numbers_of s ++
                 [mk_number id country_id number platform added_by clock
                    is_premium premium_pattern 0 None 1 None]) s)
  end.

(** [SELECT id, number, platform FROM numbers WHERE country_id = ? AND
    is_active = 1 AND is_premium = 1 AND number LIKE ?
    ORDER BY added_at DESC].  SQLite refuses a LIKE pattern of more than
    50000 bytes: the query then fails on the first row it would return, and
    [fetchall] answers a failed query with the empty list. *)
Definition like_pattern_ok (sql_pattern : string) : bool :=
  Z.of_nat (String.length sql_pattern) <=? 50000.

Definition premium_match (country_id : Z) (sql_pattern : string)
    (n : number_row) : bool :=
  Sql.in_country country_id n && (n_is_premium n =? 1)
  && like_pattern_ok sql_pattern
  && Text.like sql_pattern (n_number n).

Definition added_later (a b : number_row) : bool :=
  n_added_at b <=? n_added_at a.

Definition select_premium (country_id : Z) (sql_pattern : string)
    (s : State) : list number_row :=
  Sql.order_by added_later
    (filter (premium_match country_id sql_pattern) (numbers_of s)).

(** [UPDATE users SET is_pro = 1, pro_expiry = ? WHERE id = ?] and
    [UPDATE users SET is_pro = 0, pro_expiry = NULL WHERE id = ?] *)
Definition pro_row (is_pro : Z) (pro_expiry : option Z) (user_id : Z)
    (u : user_row) : user_row :=
  if u_id u =? user_id
  then mk_user (u_id u) (u_username u) (u_first_name u) (u_last_name u)
         (u_joined_at u) (u_banned u) (u_is_admin u) (u_points u)
         (u_invited_by u) (u_total_invites u) is_pro pro_expiry
         (u_last_daily_bonus u) (u_proofs_submitted u)
  else u.

Definition set_pro (is_pro : Z) (pro_expiry : option Z) (user_id : Z)
    (s : State) : option State :=
  Some (with_users (map (pro_row is_pro pro_expiry user_id) (users s)) s).

(** [INSERT INTO pro_subscriptions (user_id, expires_at, duration_days,
    method)]; [user_id] is a foreign key into [users]. *)
Definition insert_subscription (clock : Z) (user_id expires_at : Z)
    (duration_days : Z) (method : string) (s : State) : option State :=
  match select_user user_id s with
  | None => None
  | Some _ =>
      Some (with_pro_subscriptions
              (pro_subscriptions s ++
                 [mk_subscription (next_id p_id (pro_subscriptions s))
                    user_id clock expires_at duration_days method 1]) s)
  end.

(** [UPDATE pro_subscriptions SET is_active = 0
    WHERE user_id = ? AND is_active = 1] *)
Definition close_subscription_row (user_id : Z) (p : subscription_row)
  : subscription_row :=
  if (p_user_id p =? user_id) && (p_is_active p =? 1)
  then mk_subscription (p_id p) (p_user_id p) (p_started_at p)
         (p_expires_at p) (p_duration_days p) (p_method p) 0
  else p.

Definition close_subscriptions (user_id : Z) (s : State) : option State :=
  Some (with_pro_subscriptions
          (map (close_subscription_row user_id) (pro_subscriptions s)) s).

(** *** The helpers of [Database] *)

Definition get_user (user_id : Z) : B (option user_row) :=
  fetchone (select_user user_id).

(** [if invited_by:] is false for [None] and for [0]. *)
Definition add_user (now : Z) (user_id : Z)
    (username first_name last_name : string) (invited_by : option Z)
  : B unit :=
  execute (insert_user (strftime now) user_id username first_name last_name
             invited_by) ;;~
  match invited_by with
  | Some inviter =>
      if inviter =? 0 then Bot.ret tt else execute (count_invite inviter)
  | None => Bot.ret tt
  end.

Definition update_user_points (now : Z) (user_id points_change : Z)
    (reason : string) (related_id : option Z) : B unit :=
  execute (change_points points_change user_id) ;;~
  execute (insert_history (strftime now) user_id points_change reason
             related_id).

Definition get_setting (key : string) : B (option string) :=
  fetchone (select_setting key).

Definition set_setting (key value : string) : B unit :=
  execute (replace_setting key value).

(** The columns [points_change, reason, created_at]. *)
Definition history_item (h : history_row) : Z * string * Z :=
  (h_points_change h, h_reason h, h_created_at h).

Definition get_points_history (user_id limit : Z)
  : B (list (Z * string * Z)) :=
  fetchall (fun s => map history_item (select_history user_id limit s)).

End Store.

(** ** [services/points_manager.py] *)

Module PointsManager.

Import Bot Store.

Definition add_points (now : Z) (user_id points : Z) (reason : string)
    (related_id : option Z) : B bool :=
  if points <=? 0 then Bot.ret false
  else
    Bot.try_except
      (update_user_points now user_id points reason related_id ;;~
       Bot.ret true)
      (fun _ => Bot.ret false).

(** When there is no such user, the warning that is logged before
    [return False] formats [user['points']] and [user] is [None]. *)
Definition subtract_points (now : Z) (user_id points : Z) (reason : string)
    (related_id : option Z) : B bool :=
  if points <=? 0 then Bot.ret false
  else
    user <~ get_user user_id ;;
    match user with
    | None => Bot.raise TypeError
    | Some u =>
        if u_points u <? points then Bot.ret false
        else
          Bot.try_except
            (update_user_points now user_id (- points) reason related_id ;;~
             Bot.ret true)
            (fun _ => Bot.ret false)
    end.


Definition admin_add_points (now : Z) (admin_id user_id points : Z)
    (reason : string) : B bool :=
  user <~ get_user user_id ;;
  match user with
  | None => Bot.ret false
  | Some _ =>
      success <~ add_points now user_id points
                   ("إضافة بواسطة المدير " ++ Py.str_int admin_id ++ ": "
                      ++ reason)%string
                   (Some admin_id) ;;
      if success
      then log_action admin_id "ADMIN_ADD_POINTS"
             ("User: " ++ Py.str_int user_id ++ ", Points: "
                ++ Py.str_int points ++ ", Reason: " ++ reason)%string ;;~
           Bot.ret true
      else Bot.ret false
  end.

(** No balance check here: an admin may take a balance below zero. *)
Definition admin_subtract_points (now : Z) (admin_id user_id points : Z)
    (reason : string) : B bool :=
  user <~ get_user user_id ;;
  match user with
  | None => Bot.ret false
  | Some _ =>
      Bot.try_except
        (update_user_points now user_id (- points)
           ("خصم بواسطة المدير " ++ Py.str_int admin_id ++ ": "
              ++ reason)%string
           (Some admin_id) ;;~
         log_action admin_id "ADMIN_SUBTRACT_POINTS"
           ("User: " ++ Py.str_int user_id ++ ", Points: "
              ++ Py.str_int points ++ ", Reason: " ++ reason)%string ;;~
         Bot.ret true)
        (fun _ => Bot.ret false)
  end.

Definition get_points_history (user_id limit : Z)
  : B (list (Z * string * Z)) :=
  Store.get_points_history user_id limit.

(** The columns [id, username, points, total_invites]. *)
Definition top_item (u : user_row) : Z * string * Z * Z :=
  (u_id u, u_username u, u_points u, u_total_invites u).

Definition get_top_users (limit : Z) : B (list (Z * string * Z * Z)) :=
  fetchall (fun s => map top_item (select_top_users limit s)).

Section Config.

(** [int(text)] of Python, [None] when it raises [ValueError]. *)
Variable int : string -> option Z.

(** [int(await self.db.get_setting(key) or current)] *)
Definition setting_or (key : string) (current : State -> Z) : B Z :=
  text <~ get_setting key ;;
  match text with
  | Some (String c rest) =>
      match int (String c rest) with
      | Some n => Bot.ret n
      | None => Bot.raise ValueError
      end
  | _ => Bot.get current
  end.

Definition _get_points_config : B unit :=
  Bot.try_except
    (v <~ setting_or "daily_bonus_points" daily_bonus_points ;;
     Bot.set (with_daily_bonus_points v) ;;~
     v <~ setting_or "invite_points" invite_points ;;
     Bot.set (with_invite_points v) ;;~
     v <~ setting_or "proof_points" proof_points ;;
     Bot.set (with_proof_points v))
    (fun _ => Bot.ret tt).

Definition claim_daily_bonus (now : Z) (user_id : Z) : B (option Z) :=
  _get_points_config ;;~
  user <~ get_user user_id ;;
  match user with
  | None => Bot.ret None
  | Some u =>
      let today := Calendar.date_text now in
      if match u_last_daily_bonus u with
         | Some text => String.eqb text today
         | None => false
         end
      then Bot.ret (Some 0)
      else
        Bot.try_except
          (bonus <~ Bot.get daily_bonus_points ;;
           add_points now user_id bonus "مكافأة يومية" None ;;~
           execute (stamp_bonus (Calendar.datetime_text now) user_id) ;;~
           bonus <~ Bot.get daily_bonus_points ;;
           Bot.ret (Some bonus))
          (fun _ => Bot.ret None)
  end.

Definition reward_inviter (now : Z) (inviter_id invited_user_id : Z)
  : B bool :=
  _get_points_config ;;~
  inviter <~ get_user inviter_id ;;
  match inviter with
  | None => Bot.ret false
  | Some u =>
      if u_banned u =? 1 then Bot.ret false
      else
        points <~ Bot.get invite_points ;;
        add_points now inviter_id points
          ("مكافأة دعوة مستخدم جديد: " ++ Py.str_int invited_user_id)%string
          (Some invited_user_id)
  end.

Definition reward_for_proof (now : Z) (user_id : Z) : B bool :=
  _get_points_config ;;~
  points <~ Bot.get proof_points ;;
  add_points now user_id points "مكافأة تقديم إثبات استخدام ناجح" None.

End Config.

End PointsManager.

(** ** [services/pro_manager.py] *)

Module ProManager.

Import Bot Store.

Definition days (d : Z) : Z := d * 86400 * 1000000.

(** [datetime.now() + timedelta(days=d)]: a [timedelta] holds at most
    999999999 days, and the sum has to be a date that [datetime] can hold;
    Python raises [OverflowError] otherwise. *)
Definition add_days (now d : Z) : option Z :=
  if (Z.abs d <=? 999999999) && Calendar.representable (now + days d)
  then Some (now + days d) else None.

Definition activate_pro (now : Z) (user_id duration_days : Z)
    (method : string) (related_id : option string) : B bool :=
  Bot.try_except
    (match add_days now duration_days with
     | None => Bot.raise OverflowError
     | Some expiry_date =>
         let expiry_str := strftime expiry_date in
         execute (set_pro 1 (Some expiry_str) user_id) ;;~
         execute (insert_subscription (strftime now) user_id expiry_str
                    duration_days method) ;;~
         log_action user_id "PRO_ACTIVATED"
           ("Duration: " ++ Py.str_int duration_days ++ " days, Method: "
              ++ method ++ ", Related: " ++ Py.str_opt related_id)%string ;;~
         Bot.ret true
     end)
    (fun _ => Bot.ret false).

Definition deactivate_pro (user_id : Z) (reason : string) : B bool :=
  Bot.try_except
    (execute (set_pro 0 None user_id) ;;~
     execute (close_subscriptions user_id) ;;~
     log_action user_id "PRO_DEACTIVATED" ("Reason: " ++ reason)%string ;;~
     Bot.ret true)
    (fun _ => Bot.ret false).

(** [pro_expiry] is only ever written by [strftime], so the [strptime] of
    [is_pro] reads it back and its [ValueError] branch is not taken. *)
Definition is_pro (now : Z) (user_id : Z) : B bool :=
  user <~ get_user user_id ;;
  match user with
  | None => Bot.ret false
  | Some u =>
      match u_is_pro u =? 1, u_pro_expiry u with
      | true, Some pro_expiry =>
          let expiry_date := strptime pro_expiry in
          if now <? expiry_date then Bot.ret true
          else deactivate_pro user_id "expired" ;;~ Bot.ret false
      | _, _ => Bot.ret false
      end
  end.

Section Config.

Variable int : string -> option Z.

Definition _get_pro_config : B unit :=
  Bot.try_except
    (v <~ PointsManager.setting_or int "pro_days_duration"
            pro_days_duration ;;
     Bot.set (with_pro_days_duration v) ;;~
     v <~ PointsManager.setting_or int "pro_points_cost" pro_points_cost ;;
     Bot.set (with_pro_points_cost v))
    (fun _ => Bot.ret tt).

Definition buy_pro_with_points (now : Z) (user_id : Z) : B bool :=
  _get_pro_config ;;~
  user <~ get_user user_id ;;
  cost <~ Bot.get pro_points_cost ;;
  match user with
  | None => Bot.ret false
  | Some u =>
      if u_points u <? cost then Bot.ret false
      else
        success <~ PointsManager.subtract_points now user_id cost
                     "شراء اشتراك PRO" None ;;
        if success
        then duration <~ Bot.get pro_days_duration ;;
             activate_pro now user_id duration "points" None
        else Bot.ret false
  end.

End Config.

End ProManager.

(** ** [services/setup_manager.py] *)

Module SetupManager.

Import Bot Store.

(** [Config.DEFAULT_SETTINGS["welcome_message"]] *)
Definition default_welcome_message : string :=
  "مرحباً بك في بوت الأرقام المجانية! ابدأ باستخدام /start.".

Definition is_setup_complete : B bool :=
  setting <~ get_setting "setup_complete" ;;
  match setting with
  | Some text => Bot.ret (String.eqb text "1")
  | None => Bot.ret false
  end.

Definition mark_setup_complete : B unit :=
  set_setting "setup_complete" "1".

(** [message or Config.DEFAULT_SETTINGS["welcome_message"]] *)
Definition get_welcome_message : B string :=
  message <~ get_setting "welcome_message" ;;
  match message with
  | Some (String c rest) => Bot.ret (String c rest)
  | _ => Bot.ret default_welcome_message
  end.

Definition update_setting (admin_id : Z) (key value : string) : B bool :=
  Bot.try_except
    (set_setting key value ;;~
     log_action admin_id "SETTING_UPDATED"
       ("Key: " ++ key ++ ", Value: " ++ value)%string ;;~
     Bot.ret true)
    (fun _ => Bot.ret false).

End SetupManager.

(** ** [database.py]: the connection *)

Module Connection.

Import Bot.

(** What [connect] does when there is no connection: it opens one, or it
    fails before [self.conn] is assigned (the directory or the file cannot
    be opened), or after it (the PRAGMA or the commit raises).  It logs
    what was raised and raises it again, here [OpenError]. *)
Inductive opening : Type := Opens | FailsBefore | FailsAfter.

(** The bot with the attribute [conn] of its [Database] ([true]: not
    [None]) and what the attempts to connect will do. *)
Record Session : Type := mk_session {
  conn : bool;
  openings : nat -> opening;
  attempts : nat;
  bot : State
}.

Definition C (A : Type) : Type := Session -> result A * Session.

Definition connect : C unit :=
  fun c =>
    if conn c then (Done tt, c)
    else
      match openings c (attempts c) with
      | Opens =>
          (Done tt, mk_session true (openings c) (S (attempts c)) (bot c))
      | FailsBefore =>
          (Thrown OpenError,
           mk_session false (openings c) (S (attempts c)) (bot c))
      | FailsAfter =>
          (Thrown OpenError,
           mk_session true (openings c) (S (attempts c)) (bot c))
      end.

(** Code of [Store], run on the connection of the session. *)
Definition run {A : Type} (b : B A) : C A :=
  fun c =>
    match b (bot c) with
    | (r, s) => (r, mk_session (conn c) (openings c) (attempts c) s)
    end.

(** [fetchone]: [if self.conn is None: await self.connect()] comes before
    the [try], so what [connect] raises is not caught. *)
Definition fetchone {R : Type} (query : State -> option R)
  : C (option R) :=
  fun c =>
    match connect c with
    | (Done _, c') => run (Store.fetchone query) c'
    | (Thrown e, c') => (Thrown e, c')
    end.

Definition get_setting (key : string) : C (option string) :=
  fetchone (Store.select_setting key).

(** [SetupManager.get_welcome_message], which has no [try] of its own. *)
Definition get_welcome_message : C string :=
  fun c =>
    match get_setting "welcome_message" c with
    | (Done (Some (String a rest)), c') => (Done (String a rest), c')
    | (Done _, c') => (Done SetupManager.default_welcome_message, c')
    | (Thrown e, c') => (Thrown e, c')
    end.

End Connection.

(** ** [services/number_manager.py]: countries and the catalogue *)

Module Catalogue.

Import Bot Store.

Definition add_country (admin_id : Z) (name flag : string)
  : B (option Z) :=
  Bot.try_except
    (country_id <~ execute_insert (insert_country name flag) ;;
     log_action admin_id "COUNTRY_ADDED"
       ("ID: " ++ Py.str_int country_id ++ ", Name: " ++ name)%string ;;~
     Bot.ret (Some country_id))
    (fun _ => Bot.ret None).

Definition get_country (country_id : Z) : B (option country_row) :=
  fetchone (select_country country_id).

(** The columns [id, name, flag, number_count]. *)
Definition offer_item (o : country_row * Z) : Z * string * string * Z :=
  (c_id (fst o), c_name (fst o), c_flag (fst o), snd o).

Definition get_all_countries : B (list (Z * string * string * Z)) :=
  fetchall (fun s => map offer_item (select_offered_countries s)).

(** The columns [id, name, flag, is_active]. *)
Definition management_item (c : country_row) : Z * string * string * Z :=
  (c_id c, c_name c, c_flag c, c_is_active c).

Definition get_countries_management_list
  : B (list (Z * string * string * Z)) :=
  fetchall (fun s => map management_item (select_countries s)).

Definition add_number (now : Z) (admin_id country_id : Z)
    (number platform : string) (is_premium : bool)
    (premium_pattern : option string) : B (option Z) :=
  Bot.try_except
    (number_id <~ execute_insert
                    (insert_number (strftime now) country_id number platform
                       admin_id (if is_premium then 1 else 0)
                       premium_pattern) ;;
     log_action admin_id "NUMBER_ADDED"
       ("ID: " ++ Py.str_int number_id ++ ", Number: " ++ number)%string ;;~
     Bot.ret (Some number_id))
    (fun _ => Bot.ret None).

(** The columns [id, number, platform]. *)
Definition found_item (n : number_row) : Z * string * string :=
  (n_id n, n_number n, n_platform n).

Definition search_premium_numbers (country_id : Z) (pattern : string)
  : B (list (Z * string * string)) :=
  let sql_pattern := Text.replace "*" "%" pattern in
  fetchall (fun s =>
    map found_item (select_premium country_id sql_pattern s)).

End Catalogue.

(** ** Concrete states of the whole bot *)

Module Example.

Import Bot.

Definition ann : user_row :=
  mk_user 10 "ann" "Ann" "" 100 0 0 50 None 0 0 None None 0.

Definition bob : user_row :=
  mk_user 20 "bob" "Bob" "" 200 0 0 5 (Some 10) 0 0 None None 0.

Definition egypt : country_row := mk_country 7 "Egypt" "EG" "Telegram" 1.

Definition oman : country_row := mk_country 8 "Oman" "OM" "Telegram" 1.

(** Two users, two countries, the three numbers of country 7 of
    [Scenario.world_catalog], some settings of a fresh database and the
    attributes of fresh managers. *)
Definition state0 : State :=
  mk_state Scenario.world_catalog [egypt; oman] [ann; bob]
    [("daily_bonus_points", "10"); ("invite_points", "5");
     ("proof_points", "3"); ("pro_days_duration", "30");
     ("pro_points_cost", "100")]
    [] [] 10 5 3 30 100.

(** The statement after the next one fails. *)
Definition state_failing : State :=
  with_world
    (Scenario.world_of (db Scenario.world_catalog) (fun i => Nat.eqb i 1)
       (fun _ => 0)) state0.

(** The third database call fails. *)
Definition state_entry_fails : State :=
  with_world
    (Scenario.world_of (db Scenario.world_catalog) (fun i => Nat.eqb i 2)
       (fun _ => 0)) state0.

(** Country 7 with a premium number whose text has letters. *)
Definition vanity : number_row :=
  mk_number 4 7 "VIP-777" "Telegram" 99 4000 1 None 0 None 1 None.

Definition state_vanity : State :=
  with_numbers [Scenario.number1; Scenario.number2; vanity] state0.

(** User 10 with 150 points. *)
Definition ann_rich : user_row :=
  mk_user 10 "ann" "Ann" "" 100 0 0 150 None 0 0 None None 0.

Definition state_rich : State := with_users [ann_rich; bob] state0.

(** The seventh database call fails. *)
Definition state_flag_fails : State :=
  with_world
    (Scenario.world_of (db Scenario.world_catalog) (fun i => Nat.eqb i 6)
       (fun _ => 0)) state_rich.




(** A reader of decimal digits, as an instance of [int]. *)
Fixpoint digits_value (acc : Z) (s : string) : option Z :=
  match s with
  | EmptyString => Some acc
  | String c s' =>
      if Py.is_digit c
      then digits_value (10 * acc + Z.of_nat (nat_of_ascii c - 48)) s'
      else None
  end.

Definition int (s : string) : option Z :=
  match s with
  | EmptyString => None
  | String _ _ => digits_value 0 s
  end.

End Example.

(** ** What the points operations leave behind when nothing fails *)

Module Ledger.

Import Bot Store.

(** The tables after [update_user_points]. *)
Definition booked (now : Z) (user_id points_change : Z) (reason : string)
    (related_id : option Z) (s : State) : State :=
  with_points_history
    (points_history s ++
       [mk_history (next_id h_id (points_history s)) user_id points_change
          reason related_id (strftime now)])
    (with_users (map (change_points_row points_change user_id) (users s)) s).

Definition balance (user_id : Z) (s : State) : option Z :=
  option_map u_points (select_user user_id s).


(** What [int(await self.db.get_setting(key) or current)] is when it does
    not raise: the number that the stored text reads as, or the attribute
    of the manager when no text or an empty text is stored. *)
Definition configured (int : string -> option Z) (key : string)
    (current : State -> Z) (s : State) (v : Z) : Prop :=
  match select_setting key s with
  | Some (String c rest) => int (String c rest) = Some v
  | _ => current s = v
  end.

(** Same rows in every table, whatever the counters of calls and draws. *)
Definition same_tables (s t : State) : Prop :=
  db (world s) = db (world t)
  /\ countries s = countries t
  /\ users s = users t
  /\ settings s = settings t
  /\ points_history s = points_history t
  /\ pro_subscriptions s = pro_subscriptions t.

End Ledger.
(** * Properties *)

(** ** Database calls that do not fail *)

Section FaultFree.

Import Database.

Lemma fault_free_next_call w : fault_free w -> fault_free (next_call w).
Proof. intros H i. apply H. Qed.

Lemma fault_free_commit d w : fault_free w -> fault_free (commit d w).
Proof. intros H i. apply H. Qed.

Lemma execute_ok stmt w :
  fault_free w ->
  execute stmt w = (Ok tt, next_call (commit (stmt (db w)) w)).
Proof. intros H. unfold execute. now rewrite H. Qed.

Lemma fetchone_ok {R : Type} (query : Tables -> option R) w :
  fault_free w -> fetchone query w = (Ok (query (db w)), next_call w).
Proof. intros H. unfold fetchone. now rewrite H. Qed.

Lemma fetchall_ok {R : Type} (query : Tables -> list R) w :
  fault_free w -> fetchall query w = (Ok (query (db w)), next_call w).
Proof. intros H. unfold fetchall. now rewrite H. Qed.

End FaultFree.

Create HintDb world.
#[local] Hint Resolve fault_free_next_call fault_free_commit : world.

(** Runs the two statements that follow the first one in
    [finalize_number_request], in a world without faults. *)
Ltac run_two_statements w1 H1 :=
  unfold bind, Database.log_action;
  rewrite (execute_ok _ w1) by exact H1;
  rewrite execute_ok by auto with world;
  eexists; split; [reflexivity | repeat split; auto with world].

(** [finalize_number_request] applies [Effect.finalized] and nothing else. *)
Lemma finalize_ok w user_id number_id status code :
  fault_free w ->
  exists w',
    NumberManager.finalize_number_request user_id number_id status code w
      = (Ok tt, w')
    /\ db w' = Effect.finalized user_id number_id status code (db w)
    /\ fault_free w' /\ draws w' = draws w /\ entropy w' = entropy w.
Proof.
  intros H. unfold NumberManager.finalize_number_request, Effect.finalized.
  unfold bind at 1. rewrite execute_ok by assumption.
  set (w1 := Database.next_call _).
  assert (H1 : fault_free w1) by (subst w1; auto with world).
  destruct status.
  - exists w1. unfold ret. repeat split; auto.
  - run_two_statements w1 H1.
  - run_two_statements w1 H1.
  - run_two_statements w1 H1.
Qed.

(** ** [ORDER BY] sorts and only reorders *)

Section OrderByFacts.
Context {A : Type} (before : A -> A -> bool).

Lemma insert_row_perm x l : Permutation (x :: l) (Sql.insert_row before x l).
Proof.
  induction l as [|y l IH]; cbn; [reflexivity|].
  destruct (before x y); [reflexivity|].
  rewrite perm_swap. now constructor.
Qed.

Lemma order_by_perm l : Permutation l (Sql.order_by before l).
Proof.
  induction l as [|x l IH]; cbn; [constructor|].
  rewrite <- insert_row_perm. now constructor.
Qed.

Lemma order_by_In x l : In x (Sql.order_by before l) <-> In x l.
Proof.
  split; apply Permutation_in;
    [apply Permutation_sym|]; apply order_by_perm.
Qed.

Lemma order_by_nil l : Sql.order_by before l = [] -> l = [].
Proof.
  intros H. apply Permutation_nil. rewrite <- H.
  apply Permutation_sym, order_by_perm.
Qed.

Hypothesis before_total : forall x y, before x y = false -> before y x = true.

Lemma insert_row_sorted x l :
  Sorted (fun a b => before a b = true) l ->
  Sorted (fun a b => before a b = true) (Sql.insert_row before x l).
Proof.
  induction 1 as [|y l Hs IH Hd]; cbn.
  - repeat constructor.
  - destruct (before x y) eqn:E.
    + repeat constructor; assumption.
    + constructor; [exact IH|].
      destruct Hd as [|z l Hz]; cbn.
      * constructor. now apply before_total.
      * destruct (before x z); constructor; auto.
Qed.

Lemma order_by_sorted l :
  Sorted (fun a b => before a b = true) (Sql.order_by before l).
Proof.
  induction l as [|x l IH]; cbn; [constructor|].
  now apply insert_row_sorted.
Qed.
End OrderByFacts.

Lemma limit_offset_incl {A : Type} lim off (l : list A) :
  incl (Sql.limit_offset lim off l) l.
Proof.
  unfold Sql.limit_offset. intros x Hx.
  assert (Hs : forall n, incl (skipn n l) l).
  { intros n y Hy. rewrite <- (firstn_skipn n l). apply in_or_app. now right. }
  destruct (lim <? 0).
  - now apply (Hs (Z.to_nat off)).
  - apply (Hs (Z.to_nat off)).
    rewrite <- (firstn_skipn (Z.to_nat lim) (skipn _ l)).
    apply in_or_app. now left.
Qed.

(** ** Rows under the [UPDATE] statements *)

Lemma find_id_map (f : number_row -> number_row) k l :
  (forall n, n_id (f n) = n_id n) ->
  find (fun n => n_id n =? k) (map f l)
    = option_map f (find (fun n => n_id n =? k) l).
Proof.
  intros Hid. induction l as [|n l IH]; cbn; [reflexivity|].
  rewrite Hid. destruct (n_id n =? k); [reflexivity | exact IH].
Qed.

Lemma activate_row_id k n : n_id (Sql.activate_row k n) = n_id n.
Proof. unfold Sql.activate_row. now destruct (n_id n =? k). Qed.

Lemma count_use_row_id k n : n_id (Sql.count_use_row k n) = n_id n.
Proof. unfold Sql.count_use_row. now destruct (n_id n =? k). Qed.

Lemma hold_row_id t u k n : n_id (Sql.hold_row t u k n) = n_id n.
Proof. unfold Sql.hold_row. now destruct (n_id n =? k). Qed.

Lemma close_row_terminal st c u k r :
  View.terminal (r_status r) = true -> Sql.close_row st c u k r = r.
Proof.
  unfold View.terminal, Sql.close_row, Sql.pending_of. intros H.
  apply negb_true_iff in H. rewrite H. now rewrite andb_false_r.
Qed.

Lemma close_row_id st c u k r : r_id (Sql.close_row st c u k r) = r_id r.
Proof. unfold Sql.close_row. now destruct (Sql.pending_of u k r). Qed.

Lemma close_row_pending st c u k r :
  Sql.pending_of u k r = true ->
  r_status (Sql.close_row st c u k r) = st
  /\ r_code (Sql.close_row st c u k r) = c.
Proof. unfold Sql.close_row. intros ->. now split. Qed.

Lemma close_row_settles st c u k r :
  st <> PENDING -> Sql.pending_of u k (Sql.close_row st c u k r) = false.
Proof.
  intros Hst. unfold Sql.close_row.
  destruct (Sql.pending_of u k r) eqn:E; [|exact E].
  unfold Sql.pending_of; cbn. destruct st; try congruence;
    now rewrite andb_false_r.
Qed.

Lemma close_rows_settle st c u k l :
  st <> PENDING ->
  filter (Sql.pending_of u k) (map (Sql.close_row st c u k) l) = [].
Proof.
  intros Hst. induction l as [|r l IH]; cbn; [reflexivity|].
  now rewrite close_row_settles.
Qed.

Lemma close_rows_none st c u k l :
  filter (Sql.pending_of u k) l = [] -> map (Sql.close_row st c u k) l = l.
Proof.
  induction l as [|r l IH]; cbn; [reflexivity|].
  unfold Sql.close_row at 1.
  destruct (Sql.pending_of u k r); [discriminate|].
  intros H. now rewrite IH.
Qed.

(** The tables of [Effect.finalized], column by column. *)
Lemma finalized_requests u k st c d :
  number_requests (Effect.finalized u k st c d)
    = map (Sql.close_row st c u k) (number_requests d).
Proof. now destruct st. Qed.

Lemma finalized_number_success u k c d i :
  View.number_by_id i (Effect.finalized u k SUCCESS c d)
    = option_map (Sql.count_use_row k) (View.number_by_id i d).
Proof. apply find_id_map, count_use_row_id. Qed.

Lemma finalized_number_released u k st c d i :
  st = EXPIRED \/ st = CANCELLED ->
  View.number_by_id i (Effect.finalized u k st c d)
    = option_map (Sql.activate_row k) (View.number_by_id i d).
Proof. intros [-> | ->]; apply find_id_map, activate_row_id. Qed.

Lemma finalized_pending_for u k st c d :
  st <> PENDING -> View.pending_for u k (Effect.finalized u k st c d) = [].
Proof.
  intros Hst. unfold View.pending_for. rewrite finalized_requests.
  now apply close_rows_settle.
Qed.


Lemma select_pending_none u k d :
  Sql.select_pending_request u k d = None <-> View.pending_for u k d = [].
Proof.
  unfold Sql.select_pending_request, View.pending_for. split.
  - intros H. apply (order_by_nil Sql.later_request).
    destruct (Sql.order_by _ _) as [|x l]; [reflexivity|discriminate].
  - intros ->. reflexivity.
Qed.

(** When the pair has one PENDING lease, as the data model wants, that is
    the lease a poll reads. *)
Lemma select_pending_single u k d rq :
  View.pending_for u k d = [rq] ->
  Sql.select_pending_request u k d = Some rq.
Proof.
  unfold View.pending_for, Sql.select_pending_request. now intros ->.
Qed.

(** ** The simulated API and the poll *)

Lemma simulate_api_check_run api_request_id w :
  exists code w',
    NumberManager._simulate_api_check api_request_id w = (Ok code, w')
    /\ db w' = db w /\ (fault_free w -> fault_free w').
Proof.
  unfold NumberManager._simulate_api_check, Random.random, Random.randint,
    Random.draw, bind, ret.
  destruct (Random.below_0_3 _); eexists; eexists;
    (split; [reflexivity | split; [reflexivity | intros H i; apply H]]).
Qed.

Lemma check_for_code_none w now u k :
  fault_free w ->
  View.pending_for u k (db w) = [] ->
  NumberManager.check_for_code now u k w = (Ok None, Database.next_call w).
Proof.
  intros H Hp. apply select_pending_none in Hp.
  unfold NumberManager.check_for_code, bind.
  rewrite fetchone_ok by assumption. now rewrite Hp.
Qed.

(** A poll that returns a string has closed every PENDING lease of the
    pair. *)
Lemma check_for_code_some w now u k s w1 :
  fault_free w ->
  NumberManager.check_for_code now u k w = (Ok (Some s), w1) ->
  fault_free w1 /\ View.pending_for u k (db w1) = [].
Proof.
  intros H. unfold NumberManager.check_for_code. unfold bind at 1.
  rewrite fetchone_ok by assumption.
  destruct (Sql.select_pending_request u k (db w)) as [rq|];
    [|unfold ret; congruence].
  assert (Hn : fault_free (Database.next_call w)) by auto with world.
  destruct (strptime (r_expires_at rq) <? now).
  - destruct (finalize_ok _ u k EXPIRED None Hn) as (w' & E & Hd & Hf & _).
    unfold bind, ret. rewrite E. intros [= _ <-]. split; [exact Hf|].
    rewrite Hd. now apply finalized_pending_for.
  - destruct (simulate_api_check_run (r_api_request_id rq)
                (Database.next_call w)) as (code & w2 & E2 & Hd2 & Hf2).
    unfold bind at 1. rewrite E2.
    destruct (Py.truthy code); [|unfold ret; congruence].
    destruct (finalize_ok _ u k SUCCESS code (Hf2 Hn))
      as (w' & E & Hd & Hf & _).
    unfold bind, ret. rewrite E. intros [= _ <-]. split; [exact Hf|].
    rewrite Hd. now apply finalized_pending_for.
Qed.

(** ** Claims *)

(** C1, evaluated on the run [Scenario.double_cancel]: user 2 reserves
    number 1 and cancels, user 1 reserves it, user 2's cancel is handled a
    second time and puts the number back although user 1 holds it, and the
    next reservation succeeds too.  The number then has two PENDING leases,
    of users 1 and 2. *)
Theorem double_cancel_breaks_exclusion :
  View.exclusive (db Scenario.world0) = true
  /\ map r_user_id
       (View.pending_on 1
          (db (Run.run Scenario.double_cancel Scenario.world0)))
     = [1; 2]
  /\ View.exclusive (db (Run.run Scenario.double_cancel Scenario.world0))
     = false.
Proof. vm_compute. repeat split; reflexivity. Qed.

(** The guard of [initialize_number_request] itself: a number that is
    missing or not active is refused and nothing is written. *)
Lemma initiate_refuses_held_number w now uuid u k :
  fault_free w ->
  Sql.select_active_number k (db w) = None ->
  NumberManager.initialize_number_request now uuid u k w
    = (Ok None, Database.next_call w)
  /\ Handlers.number_request_handler now uuid u k w
    = (Ok Handlers.RequestUnavailable, Database.next_call w).
Proof.
  intros H Hn.
  assert (E : NumberManager.initialize_number_request now uuid u k w
              = (Ok None, Database.next_call w)).
  { unfold NumberManager.initialize_number_request, bind.
    rewrite fetchone_ok by assumption. now rewrite Hn. }
  split; [exact E|].
  unfold Handlers.number_request_handler, bind. now rewrite E.
Qed.

(** C2, evaluated on [Scenario.world_success], where user 2's lease on
    number 1 is SUCCESS, the number is held and was used once.  A second
    finalize leaves the lease row as it is, but with CANCELLED it makes the
    number available again, and with SUCCESS it counts a second use. *)
Theorem finalize_again_mutates_number :
  map r_status (number_requests (db Scenario.world_success)) = [SUCCESS]
  /\ View.available 1 (db Scenario.world_success) = false
  /\ View.times_used 1 (db Scenario.world_success) = Some 1
  /\ (let d := Run.after
                 (NumberManager.finalize_number_request 2 1 CANCELLED None)
                 Scenario.world_success in
      number_requests d = number_requests (db Scenario.world_success)
      /\ View.available 1 d = true)
  /\ (let d := Run.after
                 (NumberManager.finalize_number_request 2 1 SUCCESS
                    (Some "654321"))
                 Scenario.world_success in
      number_requests d = number_requests (db Scenario.world_success)
      /\ View.times_used 1 d = Some 2).
Proof. vm_compute. repeat split; reflexivity. Qed.

(** The guard that [finalize_number_request] does have: a lease row that is
    already terminal is never rewritten. *)
Lemma finalize_keeps_terminal_rows w u k st c :
  fault_free w ->
  Forall2 (fun old new => View.terminal (r_status old) = true -> new = old)
    (number_requests (db w))
    (number_requests
       (Run.after (NumberManager.finalize_number_request u k st c) w)).
Proof.
  intros H. unfold Run.after.
  destruct (finalize_ok _ u k st c H) as (w' & E & Hd & _).
  rewrite E; cbn [snd]. rewrite Hd, finalized_requests.
  induction (number_requests (db w)) as [|r l IH]; cbn; constructor; auto.
  apply close_row_terminal.
Qed.




(** C4, as the code has it: cancelling closes every PENDING lease of
    (user, number) as CANCELLED with no code and, when there was one, puts
    the number back among the available ones.  When there is none the
    handler answers that the request was cancelled all the same (it has no
    other answer) and no lease row changes. *)
Theorem cancel_outcomes w user_id number_id :
  fault_free w ->
  exists w',
    Handlers.number_cancel_request_handler user_id number_id w
      = (Ok Handlers.RequestCancelled, w')
    /\ View.pending_for user_id number_id (db w') = []
    /\ (forall rq, In rq (View.pending_for user_id number_id (db w)) ->
        exists rq', In rq' (number_requests (db w'))
                    /\ r_id rq' = r_id rq
                    /\ r_status rq' = CANCELLED /\ r_code rq' = None)
    /\ (View.pending_for user_id number_id (db w) <> [] ->
        View.number_by_id number_id (db w) <> None ->
        View.available number_id (db w') = true)
    /\ (View.pending_for user_id number_id (db w) = [] ->
        number_requests (db w') = number_requests (db w)).
Proof.
  intros H.
  destruct (finalize_ok _ user_id number_id CANCELLED None H)
    as (w' & E & Hd & _).
  exists w'. split; [|split; [|split; [|split]]].
  - unfold Handlers.number_cancel_request_handler, bind, ret. now rewrite E.
  - rewrite Hd. now apply finalized_pending_for.
  - intros rq Hrq. apply filter_In in Hrq as [Hin Hp].
    exists (Sql.close_row CANCELLED None user_id number_id rq).
    rewrite Hd, finalized_requests. split; [now apply in_map|].
    split; [apply close_row_id | now apply close_row_pending].
  - intros _ Hrow. unfold View.available.
    rewrite Hd, finalized_number_released by now right.
    destruct (View.number_by_id number_id (db w)) as [n|] eqn:En;
      [|congruence].
    cbn. apply find_some in En as [_ En]. unfold Sql.activate_row.
    now rewrite En.
  - intros Hp. rewrite Hd, finalized_requests. now apply close_rows_none.
Qed.

Lemma cancel_outcomes_witness :
  fault_free Scenario.world_leased
  /\ exists w',
       Handlers.number_cancel_request_handler 2 1 Scenario.world_leased
         = (Ok Handlers.RequestCancelled, w')
       /\ View.pending_for 2 1 (db w') = []
       /\ View.available 1 (db w') = true.
Proof.
  split; [intro i; reflexivity|].
  destruct (cancel_outcomes Scenario.world_leased 2 1)
    as (w' & E & Hp & _ & Ha & _); [intro i; reflexivity|].
  exists w'. split; [exact E|]. split; [exact Hp|].
  apply Ha; discriminate.
Defined.

(** C4 as stated fails: user 2's lease on number 1 is already SUCCESS in
    [Scenario.world_success], yet cancelling it is answered as a
    cancellation, a log row is written and the number, which was held, is
    available afterwards. *)
Lemma cancel_without_lease_is_no_failure :
  View.pending_for 2 1 (db Scenario.world_success) = []
  /\ Run.result (Handlers.number_cancel_request_handler 2 1)
       Scenario.world_success = Ok Handlers.RequestCancelled
  /\ View.available 1 (db Scenario.world_success) = false
  /\ View.available 1
       (Run.after (Handlers.number_cancel_request_handler 2 1)
          Scenario.world_success) = true
  /\ Run.after (Handlers.number_cancel_request_handler 2 1)
       Scenario.world_success <> db Scenario.world_success.
Proof.
  repeat split; try (vm_compute; reflexivity).
  intros E. apply (f_equal (View.available 1)) in E. vm_compute in E.
  discriminate.
Qed.

(** C5, as the code has it: a poll for a pair without PENDING lease returns
    [None], which the handler answers with its not-ready alert; nothing is
    written and [random] is not drawn from.  [None] is also what a poll of
    a live lease returns when the simulated API has no code.  After a poll
    that returned ["EXPIRED"] or a code, the next poll of the pair returns
    [None] and changes nothing, so no use is counted twice. *)
Theorem poll_without_pending_lease w now user_id number_id :
  fault_free w ->
  (View.pending_for user_id number_id (db w) = [] ->
   exists w',
     NumberManager.check_for_code now user_id number_id w = (Ok None, w')
     /\ Handlers.number_check_code_handler now user_id number_id w
          = (Ok Handlers.NotReady, w')
     /\ db w' = db w /\ draws w' = draws w)
  /\ (forall rq,
        Sql.select_pending_request user_id number_id (db w) = Some rq ->
        now <= strptime (r_expires_at rq) ->
        Random.below_0_3 (entropy w (draws w) mod 2 ^ 53) = false ->
        exists w',
          NumberManager.check_for_code now user_id number_id w = (Ok None, w')
          /\ db w' = db w)
  /\ (forall s w1,
        NumberManager.check_for_code now user_id number_id w
          = (Ok (Some s), w1) ->
        forall now', exists w2,
          NumberManager.check_for_code now' user_id number_id w1
            = (Ok None, w2)
          /\ db w2 = db w1 /\ draws w2 = draws w1).
Proof.
  intros H. split; [|split].
  - intros Hp. exists (Database.next_call w).
    pose proof (check_for_code_none w now user_id number_id H Hp) as E.
    split; [exact E|]. split; [|split; reflexivity].
    unfold Handlers.number_check_code_handler, bind. now rewrite E.
  - intros rq Hsel Hlive Hsilent.
    unfold NumberManager.check_for_code. unfold bind at 1.
    rewrite fetchone_ok by assumption. rewrite Hsel.
    apply Z.ltb_ge in Hlive. rewrite Hlive.
    unfold NumberManager._simulate_api_check, Random.random, Random.draw,
      bind, ret. cbn [entropy draws Database.next_call].
    rewrite Hsilent. cbn. eexists. split; reflexivity.
  - intros s w1 E now'.
    destruct (check_for_code_some w now user_id number_id s w1 H E)
      as [Hf Hp].
    exists (Database.next_call w1). split; [|split; reflexivity].
    now apply check_for_code_none.
Qed.

Lemma poll_without_pending_lease_witness :
  fault_free Scenario.world_expired
  /\ exists w',
       NumberManager.check_for_code 500000000 2 1 Scenario.world_expired
         = (Ok None, w')
       /\ db w' = db Scenario.world_expired.
Proof.
  split; [intro i; reflexivity|].
  destruct (poll_without_pending_lease Scenario.world_expired 500000000 2 1)
    as [Hnone _]; [intro i; reflexivity|].
  destruct Hnone as (w' & E & _ & Hd & _); [reflexivity|].
  exists w'. split; [exact E | exact Hd].
Defined.

(** C5 as stated fails: the poll that finds user 2's lease expired returns
    ["EXPIRED"], the poll after it returns [None], and [None] is also what
    a poll of the live lease returns while no code has come. *)
Lemma second_poll_returns_none :
  Run.result (NumberManager.check_for_code 400000000 2 1)
    Scenario.world_leased = Ok (Some "EXPIRED")
  /\ View.pending_for 2 1 (db Scenario.world_expired) = []
  /\ Run.result (NumberManager.check_for_code 400000001 2 1)
       Scenario.world_expired = Ok None
  /\ View.pending_for 2 1 (db Scenario.world_leased) <> []
  /\ Run.result (NumberManager.check_for_code 2000000 2 1)
       Scenario.world_leased = Ok None.
Proof.
  repeat split; try (vm_compute; reflexivity). vm_compute. discriminate.
Qed.

(** C6: when no statement fails, finalizing with SUCCESS adds one to the
    number's [times_used] and leaves its [is_active] flag as it was (a held
    number stays held); finalizing with EXPIRED or CANCELLED sets
    [is_active] to 1 and leaves [times_used] alone.  Rows of other numbers
    are not touched. *)
Theorem finalize_side_effects w user_id number_id code n :
  fault_free w ->
  View.number_by_id number_id (db w) = Some n ->
  (exists n',
     View.number_by_id number_id
       (Run.after (NumberManager.finalize_number_request user_id number_id
                     SUCCESS code) w) = Some n'
     /\ n_times_used n' = n_times_used n + 1
     /\ n_is_active n' = n_is_active n)
  /\ (forall status, status = EXPIRED \/ status = CANCELLED ->
      exists n',
        View.number_by_id number_id
          (Run.after (NumberManager.finalize_number_request user_id
                        number_id status code) w) = Some n'
        /\ n_is_active n' = 1
        /\ n_times_used n' = n_times_used n)
  /\ (forall status other, status <> PENDING -> other <> number_id ->
      View.number_by_id other
        (Run.after (NumberManager.finalize_number_request user_id number_id
                      status code) w)
      = View.number_by_id other (db w)).
Proof.
  intros H Hrow.
  assert (Hid : (n_id n =? number_id) = true)
    by (apply find_some in Hrow as [_ Hrow]; exact Hrow).
  assert (Hafter : forall st,
             Run.after (NumberManager.finalize_number_request user_id
                          number_id st code) w
             = Effect.finalized user_id number_id st code (db w)).
  { intros st. unfold Run.after.
    destruct (finalize_ok _ user_id number_id st code H) as (w' & E & Hd & _).
    now rewrite E. }
  split; [|split].
  - rewrite Hafter, finalized_number_success, Hrow. cbn.
    eexists. split; [reflexivity|].
    unfold Sql.count_use_row. rewrite Hid. now split.
  - intros st Hst. rewrite Hafter, finalized_number_released, Hrow by exact Hst.
    cbn. eexists. split; [reflexivity|].
    unfold Sql.activate_row. rewrite Hid. now split.
  - intros st other Hst Hother. rewrite Hafter.
    assert (Hsame : forall f : number_row -> number_row,
               (forall m, n_id (f m) = n_id m) ->
               (forall m, n_id m <> number_id -> f m = m) ->
               option_map f (View.number_by_id other (db w))
               = View.number_by_id other (db w)).
    { intros f _ Hf. destruct (View.number_by_id other (db w)) as [m|] eqn:Em;
        [|reflexivity].
      cbn. f_equal. apply Hf. apply find_some in Em as [_ Em].
      apply Z.eqb_eq in Em. congruence. }
    destruct st; try congruence.
    + rewrite finalized_number_success.
      apply Hsame; [apply count_use_row_id|].
      intros m Hm. unfold Sql.count_use_row.
      now destruct (Z.eqb_spec (n_id m) number_id).
    + rewrite finalized_number_released by now left.
      apply Hsame; [apply activate_row_id|].
      intros m Hm. unfold Sql.activate_row.
      now destruct (Z.eqb_spec (n_id m) number_id).
    + rewrite finalized_number_released by now right.
      apply Hsame; [apply activate_row_id|].
      intros m Hm. unfold Sql.activate_row.
      now destruct (Z.eqb_spec (n_id m) number_id).
Qed.

Lemma finalize_side_effects_witness :
  fault_free Scenario.world_leased
  /\ View.number_by_id 1 (db Scenario.world_leased)
     = Some (Sql.hold_row 1 2 1 Scenario.number1)
  /\ exists n',
       View.number_by_id 1
         (Run.after (NumberManager.finalize_number_request 2 1 SUCCESS
                       (Some "123456")) Scenario.world_leased) = Some n'
       /\ n_times_used n' = 1 /\ n_is_active n' = 0.
Proof.
  split; [intro i; reflexivity|]. split; [reflexivity|].
  destruct (finalize_side_effects Scenario.world_leased 2 1 (Some "123456")
              (Sql.hold_row 1 2 1 Scenario.number1))
    as [Hs _]; [intro i; reflexivity | reflexivity |].
  exact Hs.
Defined.

(** C7, as the code has it: a reservation of an active number is three
    statements, each committed on its own: the PENDING lease row with a
    fresh correlation id and expiry = now + 5 minutes (kept to the second),
    then the number row set to held with last-used and last-used-by, then
    the log row.  When all three succeed the lease is returned.  When one
    fails, [None] is returned and the statements before it stay
    committed. *)
Theorem initiate_commits_each_statement w now uuid user_id number_id nd :
  faults w (db_calls w) = false ->
  Sql.select_active_number number_id (db w) = Some nd ->
  let c := db_calls w in
  let r := Run.result (NumberManager.initialize_number_request now uuid
                         user_id number_id) w in
  let d := Run.after (NumberManager.initialize_number_request now uuid
                        user_id number_id) w in
  match faults w (S c), faults w (S (S c)), faults w (S (S (S c))) with
  | true, _, _ => r = Ok None /\ d = db w
  | false, true, _ =>
      r = Ok None
      /\ d = Effect.lease_inserted now uuid user_id number_id (db w)
  | false, false, true =>
      r = Ok None /\ d = Effect.number_held now uuid user_id number_id (db w)
  | false, false, false =>
      r = Ok (Some (NumberManager.mk_request_data number_id (n_number nd)
                      (n_platform nd) uuid
                      (strftime (now + 5 * 60 * 1000000))))
      /\ d = mk_tables
               (map (Sql.hold_row (strftime now) user_id number_id)
                  (numbers (db w)))
               (number_requests (db w) ++
                  [mk_request (Sql.next_request_id (number_requests (db w)))
                     user_id number_id uuid PENDING
                     (strftime (now + 5 * 60 * 1000000)) None (strftime now)])
               (logs (db w) ++
                  [mk_log user_id "NUMBER_REQUEST_INITIATED"
                     ("Number ID: " ++ Py.str_int number_id ++ ", API ID: "
                        ++ uuid)%string])
  end.
Proof.
  intros Hfetch Hsel c r d. subst c r d.
  unfold Run.result, Run.after, NumberManager.initialize_number_request.
  unfold try_except, bind, Database.log_action, Database.execute,
    Database.fetchone, ret.
  rewrite Hfetch, Hsel.
  cbn [faults db_calls db Database.next_call Database.commit fst snd].
  destruct (faults w (S (db_calls w))); [now split|].
  cbn [faults db_calls db Database.next_call Database.commit fst snd].
  destruct (faults w (S (S (db_calls w)))); [now split|].
  cbn [faults db_calls db Database.next_call Database.commit fst snd].
  destruct (faults w (S (S (S (db_calls w))))); now split.
Qed.

Lemma initiate_commits_each_statement_witness :
  faults Scenario.world0 (db_calls Scenario.world0) = false
  /\ Sql.select_active_number 1 (db Scenario.world0)
     = Some Scenario.number1
  /\ Run.result (NumberManager.initialize_number_request 1000000 "a" 2 1)
       Scenario.world0
     = Ok (Some (NumberManager.mk_request_data 1 "+15550001" "Telegram" "a"
                   301)).
Proof.
  split; [reflexivity|]. split; [reflexivity|].
  exact (proj1 (initiate_commits_each_statement Scenario.world0 1000000 "a"
                  2 1 Scenario.number1 eq_refl eq_refl)).
Defined.

(** C7 as stated fails: in [Scenario.world_failing] the statement that
    marks the number as held fails.  The reservation returns [None], yet
    the PENDING lease row is there and the number is still available. *)
Lemma failed_initiate_leaves_lease_row :
  let c := NumberManager.initialize_number_request 1000000 "a" 2 1 in
  Run.result c Scenario.world_failing = Ok None
  /\ map r_status (View.pending_for 2 1 (Run.after c Scenario.world_failing))
     = [PENDING]
  /\ View.available 1 (Run.after c Scenario.world_failing) = true
  /\ Run.after c Scenario.world_failing <> db Scenario.world_failing.
Proof.
  repeat split; try (vm_compute; reflexivity).
  intros E. apply (f_equal number_requests) in E. vm_compute in E.
  discriminate.
Qed.

(** ** The listing *)

Lemma listed_before_spec a b :
  Sql.listed_before a b = true <-> View.premium_then_recent a b.
Proof.
  unfold Sql.listed_before, View.premium_then_recent.
  rewrite orb_true_iff, andb_true_iff, Z.ltb_lt, Z.eqb_eq, Z.leb_le.
  reflexivity.
Qed.

Lemma listed_before_total a b :
  Sql.listed_before a b = false -> Sql.listed_before b a = true.
Proof.
  intros H. apply listed_before_spec.
  assert (Hn : ~ View.premium_then_recent a b)
    by (rewrite <- listed_before_spec; congruence).
  unfold View.premium_then_recent in *. lia.
Qed.

Lemma premium_then_recent_trans a b c :
  View.premium_then_recent a b -> View.premium_then_recent b c ->
  View.premium_then_recent a c.
Proof. unfold View.premium_then_recent. lia. Qed.

Lemma select_numbers_sorted country_id is_pro d :
  StronglySorted View.premium_then_recent
    (Sql.select_numbers country_id is_pro d).
Proof.
  apply Sorted_StronglySorted.
  - intros a b c. apply premium_then_recent_trans.
  - unfold Sql.select_numbers.
    pose proof (order_by_sorted Sql.listed_before listed_before_total
                  (filter (Sql.listed country_id is_pro) (numbers d))) as Hs.
    induction Hs as [|x l Hl IH Hd]; constructor; [exact IH|].
    destruct Hd; constructor. now apply listed_before_spec.
Qed.

Lemma select_numbers_perm country_id is_pro d :
  Permutation (Sql.select_numbers country_id is_pro d)
    (filter (Sql.listed country_id is_pro) (numbers d)).
Proof. apply Permutation_sym, order_by_perm. Qed.

Lemma fitsb_fits z : Int64.fitsb z = true <-> Int64.fits z.
Proof.
  unfold Int64.fitsb, Int64.fits.
  rewrite andb_true_iff, !Z.leb_le. tauto.
Qed.

(** C8: for a country, a page size and an offset [(page - 1) * limit]
    that SQLite can bind (64 bits), the listing consists of the columns
    [id], [number], [platform] and [is_premium] of the slice
    [LIMIT limit OFFSET (page - 1) * limit] of the rows that are active, of
    that country and, for a caller who is not PRO, not premium; the rows
    are all of those (a PRO caller gets every active row of the country),
    ordered premium first and then most recently added first.  An item
    that a caller who is not PRO gets is never premium.  With a number
    that cannot be bound the query fails and the listing is empty. *)
Theorem listing_ordered_and_filtered w country_id is_pro page limit :
  faults w (db_calls w) = false ->
  let all := Sql.select_numbers country_id is_pro (db w) in
  let shown := Sql.limit_offset limit ((page - 1) * limit) all in
  let items :=
    map (fun n => NumberManager.mk_number_item (n_id n) (n_number n)
                    (n_platform n) (n_is_premium n)) shown in
  let listing :=
    Run.result (NumberManager.get_numbers_for_country country_id is_pro
                  page limit) w in
  let bound :=
    Int64.fits country_id /\ Int64.fits limit
    /\ Int64.fits ((page - 1) * limit) in
  (bound -> listing = Ok items)
  /\ (~ bound -> listing = Ok [])
  /\ (0 <= limit -> 0 <= page - 1 ->
      shown = firstn (Z.to_nat limit)
                (skipn (Z.to_nat (page - 1) * Z.to_nat limit) all))
  /\ StronglySorted
       (fun a b => n_is_premium b < n_is_premium a
                   \/ (n_is_premium b = n_is_premium a
                       /\ n_added_at b <= n_added_at a)) all
  /\ Permutation all
       (filter (fun n => (n_country_id n =? country_id)
                         && (n_is_active n =? 1)
                         && (is_pro || (n_is_premium n =? 0)))
          (numbers (db w)))
  /\ (is_pro = false ->
      (forall n, In n shown ->
         n_is_premium n = 0 /\ n_is_active n = 1
         /\ n_country_id n = country_id)
      /\ (forall item, In item items ->
            NumberManager.ni_is_premium item = 0))
  /\ (is_pro = true ->
      Permutation all
        (filter (fun n => (n_country_id n =? country_id)
                          && (n_is_active n =? 1))
           (numbers (db w)))).
Proof.
  intros Hfetch all shown items listing bound.
  assert (Hstd : is_pro = false ->
                 forall n, In n shown ->
                   n_is_premium n = 0 /\ n_is_active n = 1
                   /\ n_country_id n = country_id).
  { intros -> n Hn. apply limit_offset_incl in Hn.
    apply (Permutation_in _ (select_numbers_perm country_id false (db w)))
      in Hn.
    apply filter_In in Hn as [_ Hn]. unfold Sql.listed, Sql.in_country in Hn.
    cbn in Hn. rewrite !andb_true_iff, !Z.eqb_eq in Hn. tauto. }
  assert (Hrun : listing
                 = Ok (if Int64.fitsb country_id && Int64.fitsb limit
                          && Int64.fitsb ((page - 1) * limit)
                       then items else [])).
  { subst listing.
    unfold Run.result, NumberManager.get_numbers_for_country,
      Database.fetchall. rewrite Hfetch. cbn [fst].
    now destruct (Int64.fitsb country_id && Int64.fitsb limit
                  && Int64.fitsb ((page - 1) * limit)). }
  split; [|split; [|split; [|split; [|split; [|split]]]]].
  - intros (Hc & Hl & Ho). rewrite Hrun.
    apply fitsb_fits in Hc, Hl, Ho. now rewrite Hc, Hl, Ho.
  - intros Hn. rewrite Hrun.
    destruct (Int64.fitsb country_id && Int64.fitsb limit
              && Int64.fitsb ((page - 1) * limit)) eqn:E; [|reflexivity].
    exfalso. apply Hn. rewrite !andb_true_iff in E.
    destruct E as [[Hc Hl] Ho]. subst bound.
    repeat split; now apply fitsb_fits.
  - intros Hl Hp. subst shown. unfold Sql.limit_offset.
    replace (limit <? 0) with false by (symmetry; apply Z.ltb_ge; lia).
    f_equal. f_equal. rewrite <- Z2Nat.inj_mul by lia. reflexivity.
  - exact (select_numbers_sorted country_id is_pro (db w)).
  - apply select_numbers_perm.
  - intros Hstandard. split; [now apply Hstd|].
    intros item Hitem. subst items. apply in_map_iff in Hitem
      as (n & <- & Hn).
    cbn [NumberManager.ni_is_premium]. now apply Hstd.
  - intros ->. subst all. rewrite select_numbers_perm.
    unfold Sql.listed, Sql.in_country. cbn.
    erewrite filter_ext; [reflexivity|]. intros n. apply andb_true_r.
Qed.

(** The two pages of two for a PRO caller, the second page of one for a
    standard caller, of the three numbers of country 7, and a page size
    that cannot be bound. *)
Lemma listing_ordered_and_filtered_witness :
  faults Scenario.world_catalog (db_calls Scenario.world_catalog) = false
  /\ (Int64.fits 7 /\ Int64.fits 2 /\ Int64.fits ((2 - 1) * 2))
  /\ Run.result (NumberManager.get_numbers_for_country 7 true 1 2)
       Scenario.world_catalog
     = Ok [NumberManager.mk_number_item 2 "+15550777" "WhatsApp" 1;
           NumberManager.mk_number_item 3 "+15550003" "Telegram" 0]
  /\ Run.result (NumberManager.get_numbers_for_country 7 true 2 2)
       Scenario.world_catalog
     = Ok [NumberManager.mk_number_item 1 "+15550001" "Telegram" 0]
  /\ Run.result (NumberManager.get_numbers_for_country 7 false 2 1)
       Scenario.world_catalog
     = Ok [NumberManager.mk_number_item 1 "+15550001" "Telegram" 0]
  /\ Run.result
       (NumberManager.get_numbers_for_country 7 true 1 9223372036854775808)
       Scenario.world_catalog
     = Ok [].
Proof.
  assert (Hb : forall page limit,
             0 <= limit <= 10 -> 1 <= page <= 10 ->
             Int64.fits 7 /\ Int64.fits limit
             /\ Int64.fits ((page - 1) * limit))
    by (unfold Int64.fits; intros; nia).
  split; [reflexivity|]. split; [apply Hb; lia|].
  split; [|split; [|split]].
  - exact (proj1 (listing_ordered_and_filtered Scenario.world_catalog 7
                    true 1 2 eq_refl) (Hb 1 2 ltac:(lia) ltac:(lia))).
  - exact (proj1 (listing_ordered_and_filtered Scenario.world_catalog 7
                    true 2 2 eq_refl) (Hb 2 2 ltac:(lia) ltac:(lia))).
  - exact (proj1 (listing_ordered_and_filtered Scenario.world_catalog 7
                    false 2 1 eq_refl) (Hb 2 1 ltac:(lia) ltac:(lia))).
  - apply (proj1 (proj2 (listing_ordered_and_filtered
                           Scenario.world_catalog 7 true 1
                           9223372036854775808 eq_refl))).
    unfold Int64.fits. lia.
Defined.

(** ** The total count *)

(** The query counts every active row of the country: it is the length of
    what a PRO caller is listed, and no less than what any caller is. *)
Lemma count_numbers_is_pro_listing country_id d :
  Sql.count_numbers country_id d
  = Z.of_nat (List.length (Sql.select_numbers country_id true d)).
Proof.
  unfold Sql.count_numbers. f_equal.
  rewrite (Permutation_length (select_numbers_perm country_id true d)).
  unfold Sql.listed. f_equal. apply filter_ext. intros n. cbn.
  symmetry. apply andb_true_r.
Qed.

Lemma count_numbers_bounds_listing country_id is_pro d :
  Z.of_nat (List.length (Sql.select_numbers country_id is_pro d))
  <= Sql.count_numbers country_id d.
Proof.
  unfold Sql.count_numbers.
  rewrite (Permutation_length (select_numbers_perm country_id is_pro d)).
  apply inj_le. unfold Sql.listed.
  induction (numbers d) as [|n l IH]; cbn; [lia|].
  destruct (Sql.in_country country_id n); cbn; [|exact IH].
  destruct (is_pro || (n_is_premium n =? 0)); cbn; lia.
Qed.

(** Whenever the query succeeds, indexing its [dict] with [0] raises. *)
Lemma get_total_numbers_count_raises w country_id :
  faults w (db_calls w) = false ->
  Run.result (NumberManager.get_total_numbers_count country_id) w
  = Raised KeyError.
Proof.
  intros H. unfold Run.result, NumberManager.get_total_numbers_count, bind,
    Database.fetchone. now rewrite H.
Qed.

(** C9, evaluated on [Scenario.world_catalog] (three active numbers of
    country 7, one premium): the COUNT query finds 3 rows where a caller
    who is not PRO is listed 2, but [get_total_numbers_count] does not
    return that count: it raises [KeyError]. *)
Theorem total_count_raises_key_error :
  Sql.count_numbers 7 (db Scenario.world_catalog) = 3
  /\ List.length (Sql.select_numbers 7 false (db Scenario.world_catalog))
     = 2%nat
  /\ Run.result (NumberManager.get_total_numbers_count 7)
       Scenario.world_catalog = Raised KeyError.
Proof. vm_compute. repeat split; reflexivity. Qed.

(** ** Codes of the simulated API *)

Lemma digit_char_is_digit d :
  0 <= d <= 9 -> Py.is_digit (Py.digit_char d) = true.
Proof.
  intros H.
  assert (E : d = 0 \/ d = 1 \/ d = 2 \/ d = 3 \/ d = 4 \/ d = 5 \/ d = 6
              \/ d = 7 \/ d = 8 \/ d = 9) by lia.
  repeat (destruct E as [-> | E]; [reflexivity|]). now subst.
Qed.

Lemma str_digits_all_digits fuel : forall n acc,
  0 <= n -> Py.all_digits acc = true ->
  Py.all_digits (Py.str_digits fuel n acc) = true.
Proof.
  induction fuel as [|fuel IH]; intros n acc Hn Hacc; cbn; [exact Hacc|].
  assert (Hd : Py.all_digits (String (Py.digit_char (n mod 10)) acc) = true).
  { cbn [Py.all_digits]. rewrite Hacc, digit_char_is_digit; [reflexivity|].
    pose proof (Z.mod_pos_bound n 10). lia. }
  destruct (n <? 10); [exact Hd|].
  apply IH; [|exact Hd]. apply Z.div_pos; lia.
Qed.

(** [str] of a number of six digits. *)
Lemma str_int_six_digits n :
  100000 <= n <= 999999 ->
  String.length (Py.str_int n) = 6%nat
  /\ Py.all_digits (Py.str_int n) = true.
Proof.
  intros Hn. unfold Py.str_int.
  replace (n <? 0) with false by (symmetry; apply Z.ltb_ge; lia).
  split; [|apply str_digits_all_digits; [lia | reflexivity]].
  assert (Hlog : 16 <= Z.log2 n).
  { change 16 with (Z.log2 65536). apply Z.log2_le_mono. lia. }
  destruct (Z.to_nat (Z.log2 n)) as [|[|[|[|[|k]]]]] eqn:E; try lia.
  assert (H1 : n / 10 >= 10000 /\ n / 10 <= 99999)
    by (Z.to_euclidean_division_equations; lia).
  assert (H2 : n / 10 / 10 >= 1000 /\ n / 10 / 10 <= 9999)
    by (Z.to_euclidean_division_equations; lia).
  assert (H3 : n / 10 / 10 / 10 >= 100 /\ n / 10 / 10 / 10 <= 999)
    by (Z.to_euclidean_division_equations; lia).
  assert (H4 : n / 10 / 10 / 10 / 10 >= 10 /\ n / 10 / 10 / 10 / 10 <= 99)
    by (Z.to_euclidean_division_equations; lia).
  assert (H5 : n / 10 / 10 / 10 / 10 / 10 >= 1
               /\ n / 10 / 10 / 10 / 10 / 10 <= 9)
    by (Z.to_euclidean_division_equations; lia).
  cbn [Py.str_digits].
  replace (n <? 10) with false by (symmetry; apply Z.ltb_ge; lia).
  replace (n / 10 <? 10) with false by (symmetry; apply Z.ltb_ge; lia).
  replace (n / 10 / 10 <? 10) with false by (symmetry; apply Z.ltb_ge; lia).
  replace (n / 10 / 10 / 10 <? 10) with false
    by (symmetry; apply Z.ltb_ge; lia).
  replace (n / 10 / 10 / 10 / 10 <? 10) with false
    by (symmetry; apply Z.ltb_ge; lia).
  replace (n / 10 / 10 / 10 / 10 / 10 <? 10) with true
    by (symmetry; apply Z.ltb_lt; lia).
  reflexivity.
Qed.

Lemma digits_are_not_expired s :
  Py.all_digits s = true -> s <> "EXPIRED".
Proof. intros H ->. discriminate. Qed.

Lemma randint_range a b r : a <= b -> a <= a + r mod (b - a + 1) <= b.
Proof. intros H. pose proof (Z.mod_pos_bound r (b - a + 1)). lia. Qed.

(** What [_simulate_api_check] returns, whatever [random] draws. *)
Lemma simulate_api_check_code api_request_id w code w' :
  NumberManager._simulate_api_check api_request_id w = (Ok (Some code), w') ->
  exists n, 100000 <= n <= 999999 /\ code = Py.str_int n.
Proof.
  unfold NumberManager._simulate_api_check, Random.random, Random.randint,
    Random.draw, bind, ret.
  destruct (Random.below_0_3 _); [|congruence].
  intros E.
  exists (100000 + entropy w (S (draws w)) mod (999999 - 100000 + 1)).
  split; [apply randint_range; lia|].
  cbn [entropy draws] in E. congruence.
Qed.

(** C10: a code that the simulated API delivers is [str n] for some
    [100000 <= n <= 999999]: six characters, all decimal digits, so it is
    neither ["EXPIRED"] nor empty.  Hence a poll returns [None], or
    ["EXPIRED"] and then the lease it read had expired, or another string
    and then that string is such a code, delivered for a lease that had not
    expired. *)
Theorem poll_results_unambiguous w now user_id number_id r w' :
  NumberManager.check_for_code now user_id number_id w = (Ok r, w') ->
  (forall api_request_id w0 code w1,
     NumberManager._simulate_api_check api_request_id w0
       = (Ok (Some code), w1) ->
     exists n, 100000 <= n <= 999999 /\ code = Py.str_int n
               /\ String.length code = 6%nat /\ Py.all_digits code = true
               /\ code <> "EXPIRED" /\ Py.truthy (Some code) = true)
  /\ match r with
     | None => True
     | Some s =>
         exists rq,
           Sql.select_pending_request user_id number_id (db w) = Some rq
           /\ ((s = "EXPIRED" /\ strptime (r_expires_at rq) < now)
               \/ (s <> "EXPIRED" /\ now <= strptime (r_expires_at rq)
                   /\ exists n, 100000 <= n <= 999999 /\ s = Py.str_int n
                                /\ String.length s = 6%nat))
     end.
Proof.
  intros Hrun.
  assert (Hcode : forall api_request_id w0 code w1,
             NumberManager._simulate_api_check api_request_id w0
               = (Ok (Some code), w1) ->
             exists n, 100000 <= n <= 999999 /\ code = Py.str_int n
                       /\ String.length code = 6%nat
                       /\ Py.all_digits code = true
                       /\ code <> "EXPIRED" /\ Py.truthy (Some code) = true).
  { intros id w0 code w1 E.
    destruct (simulate_api_check_code id w0 code w1 E) as (n & Hn & ->).
    destruct (str_int_six_digits n Hn) as [Hlen Hdig].
    exists n. repeat split; try tauto.
    - now apply digits_are_not_expired.
    - destruct (Py.str_int n); [discriminate | reflexivity]. }
  split; [exact Hcode|].
  destruct r as [s|]; [|exact I].
  revert Hrun. unfold NumberManager.check_for_code. unfold bind at 1.
  unfold Database.fetchone.
  destruct (faults w (db_calls w)); [unfold ret; congruence|].
  destruct (Sql.select_pending_request user_id number_id (db w)) as [rq|];
    [|unfold ret; congruence].
  exists rq. split; [reflexivity|].
  destruct (Z.ltb_spec (strptime (r_expires_at rq)) now) as [Hexp | Hlive].
  - left. revert Hrun. unfold bind, ret.
    destruct (NumberManager.finalize_number_request _ _ _ _ _) as [[[]|e] w2];
      [|congruence].
    intros [= <- _]. now split.
  - right. revert Hrun. unfold bind at 1.
    destruct (NumberManager._simulate_api_check _ _) as [[code|e] w2] eqn:E;
      [|congruence].
    destruct (Py.truthy code) eqn:Ht; [|unfold ret; congruence].
    unfold bind, ret.
    destruct (NumberManager.finalize_number_request _ _ _ _ _) as [[[]|e] w3];
      [|congruence].
    intros [= -> _].
    destruct (Hcode _ _ _ _ E) as (n & Hn & Hs & Hlen & _ & Hne & _).
    split; [exact Hne|]. split; [exact Hlive|]. now exists n.
Qed.

Lemma poll_results_unambiguous_witness :
  NumberManager.check_for_code 2000000 2 1 Scenario.world_answering
    = (Ok (Some "100000"),
       snd (NumberManager.check_for_code 2000000 2 1
              Scenario.world_answering))
  /\ exists rq,
       Sql.select_pending_request 2 1 (db Scenario.world_answering) = Some rq
       /\ (("100000" = "EXPIRED" /\ strptime (r_expires_at rq) < 2000000)
           \/ ("100000" <> "EXPIRED" /\ 2000000 <= strptime (r_expires_at rq)
               /\ exists n, 100000 <= n <= 999999
                            /\ "100000" = Py.str_int n
                            /\ String.length "100000" = 6%nat)).
Proof.
  assert (E : NumberManager.check_for_code 2000000 2 1
                Scenario.world_answering
              = (Ok (Some "100000"),
                 snd (NumberManager.check_for_code 2000000 2 1
                        Scenario.world_answering)))
    by reflexivity.
  split; [exact E|].
  exact (proj2 (poll_results_unambiguous Scenario.world_answering 2000000 2 1
                  (Some "100000") _ E)).
Defined.

(** * Properties of the rest of the bot *)

(** ** Database calls of the bot that do not fail *)

Lemma find_app {A : Type} (p : A -> bool) l1 l2 :
  find p (l1 ++ l2)
  = match find p l1 with
    | Some x => Some x
    | None => find p l2
    end.
Proof.
  induction l1 as [|x l1 IH]; cbn; [reflexivity|].
  now destruct (p x).
Qed.

Lemma find_filter_none {A : Type} (p : A -> bool) l :
  find p (filter (fun x => negb (p x)) l) = None.
Proof.
  induction l as [|x l IH]; cbn; [reflexivity|].
  destruct (p x) eqn:E; cbn; [exact IH|]. now rewrite E.
Qed.

Lemma find_filter_other {A : Type} (p q : A -> bool) l :
  (forall x, p x = true -> q x = true) ->
  find p (filter q l) = find p l.
Proof.
  intros H. induction l as [|x l IH]; cbn; [reflexivity|].
  destruct (q x) eqn:Eq; cbn.
  - now destruct (p x).
  - destruct (p x) eqn:Ep; [|exact IH].
    rewrite (H x Ep) in Eq. discriminate.
Qed.

Section BotFaultFree.

Import Bot Store.

Lemma bot_execute_ok stmt s :
  Bot.no_faults s ->
  execute stmt s
  = match stmt s with
    | Some s' => (Done tt, next_call s')
    | None => (Thrown IntegrityError, next_call s)
    end.
Proof. intros H. unfold execute, failing. now rewrite H. Qed.

Lemma bot_execute_insert_ok stmt s :
  Bot.no_faults s ->
  execute_insert stmt s
  = match stmt s with
    | Some (rowid, s') => (Done rowid, next_call s')
    | None => (Thrown IntegrityError, next_call s)
    end.
Proof. intros H. unfold execute_insert, failing. now rewrite H. Qed.

Lemma bot_fetchone_ok {R : Type} (query : State -> option R) s :
  Bot.no_faults s -> fetchone query s = (Done (query s), next_call s).
Proof. intros H. unfold fetchone, failing. now rewrite H. Qed.

Lemma bot_fetchall_ok {R : Type} (query : State -> list R) s :
  Bot.no_faults s -> fetchall query s = (Done (query s), next_call s).
Proof. intros H. unfold fetchall, failing. now rewrite H. Qed.

Lemma bot_log_action_ok who action meta s :
  Bot.no_faults s ->
  log_action who action meta s
  = (Done tt,
     with_world
       (Database.next_call
          (Database.commit (Sql.insert_log who action meta (db (world s)))
             (world s))) s).
Proof.
  intros H. unfold log_action, lift, Database.log_action.
  now rewrite execute_ok.
Qed.

Lemma fault_free_next s : Bot.no_faults s -> Bot.no_faults (next_call s).
Proof. intros H i. apply H. Qed.

Lemma fault_free_users l s :
  Bot.no_faults s -> Bot.no_faults (with_users l s).
Proof. intros H i. apply H. Qed.

Lemma fault_free_settings l s :
  Bot.no_faults s -> Bot.no_faults (with_settings l s).
Proof. intros H i. apply H. Qed.

Lemma fault_free_history l s :
  Bot.no_faults s -> Bot.no_faults (with_points_history l s).
Proof. intros H i. apply H. Qed.

Lemma fault_free_countries l s :
  Bot.no_faults s -> Bot.no_faults (with_countries l s).
Proof. intros H i. apply H. Qed.

Lemma fault_free_numbers l s :
  Bot.no_faults s -> Bot.no_faults (with_numbers l s).
Proof. intros H i. apply H. Qed.

Lemma fault_free_world w s :
  fault_free w -> Bot.no_faults (with_world w s).
Proof. intros H i. apply H. Qed.

End BotFaultFree.

Create HintDb bot.
#[local] Hint Resolve fault_free_next fault_free_users fault_free_settings
  fault_free_history fault_free_countries fault_free_numbers : bot.

(** The calls of [Database] one by one, for a given pattern of
    failures. *)
Section BotCalls.

Import Bot Store.

Lemma fetchone_at {R : Type} (query : State -> option R) s :
  failing s = false -> fetchone query s = (Done (query s), next_call s).
Proof. intros H. unfold fetchone. now rewrite H. Qed.


Lemma fetchall_at {R : Type} (query : State -> list R) s :
  failing s = false -> fetchall query s = (Done (query s), next_call s).
Proof. intros H. unfold fetchall. now rewrite H. Qed.


End BotCalls.

(** ** Settings *)

Lemma select_setting_replaced key value other s l :
  l = filter (fun kv => negb (String.eqb (fst kv) key)) (Bot.settings s)
        ++ [(key, value)] ->
  Store.select_setting other (Bot.with_settings l s)
  = if String.eqb key other then Some value
    else Store.select_setting other s.
Proof.
  intros ->. unfold Store.select_setting. cbn [Bot.settings Bot.with_settings].
  rewrite find_app. destruct (String.eqb_spec key other) as [<- | Hne].
  - rewrite find_filter_none. cbn. now rewrite String.eqb_refl.
  - rewrite find_filter_other.
    + destruct (find _ (Bot.settings s)); [reflexivity|].
      cbn. now rewrite (proj2 (String.eqb_neq key other) Hne).
    + intros kv Hkv. apply String.eqb_eq in Hkv.
      apply negb_true_iff, String.eqb_neq. congruence.
Qed.

Lemma set_setting_ok key value s :
  Bot.no_faults s ->
  Store.set_setting key value s
  = (Bot.Done tt,
     Store.next_call
       (Bot.with_settings
          (filter (fun kv => negb (String.eqb (fst kv) key))
             (Bot.settings s) ++ [(key, value)]) s)).
Proof.
  intros H. unfold Store.set_setting. now rewrite bot_execute_ok.
Qed.

Lemma get_setting_ok key s :
  Bot.no_faults s ->
  Store.get_setting key s
  = (Bot.Done (Store.select_setting key s), Store.next_call s).
Proof. intros H. unfold Store.get_setting. now rewrite bot_fetchone_ok. Qed.

(** X1 (settings round trip): after [set_setting key value] a
    [get_setting key] returns [value], every other key reads as before, and
    keys that were unique stay unique. *)
Theorem setting_round_trip s key value :
  Bot.no_faults s ->
  let s' := Bot.state_after (Store.set_setting key value) s in
  Bot.value (Store.get_setting key) s' = Bot.Done (Some value)
  /\ (forall other, other <> key ->
      Bot.value (Store.get_setting other) s'
      = Bot.value (Store.get_setting other) s)
  /\ (NoDup (map fst (Bot.settings s)) ->
      NoDup (map fst (Bot.settings s'))).
Proof.
  intros H s'.
  assert (Es : s' = Store.next_call
                 (Bot.with_settings
                    (filter (fun kv => negb (String.eqb (fst kv) key))
                       (Bot.settings s) ++ [(key, value)]) s)).
  { subst s'. unfold Bot.state_after, Store.set_setting.
    now rewrite bot_execute_ok. }
  assert (Hs' : Bot.no_faults s') by (rewrite Es; auto with bot).
  unfold Bot.value, Store.get_setting.
  split; [|split].
  - rewrite bot_fetchone_ok by assumption. cbn [fst]. rewrite Es.
    change (Store.select_setting key (Store.next_call ?x))
      with (Store.select_setting key x).
    erewrite select_setting_replaced by reflexivity.
    now rewrite String.eqb_refl.
  - intros other Hne. rewrite !bot_fetchone_ok by assumption. cbn [fst].
    rewrite Es.
    change (Store.select_setting other (Store.next_call ?x))
      with (Store.select_setting other x).
    erewrite select_setting_replaced by reflexivity.
    now rewrite (proj2 (String.eqb_neq key other)) by congruence.
  - intros Hnd. rewrite Es. cbn [Bot.settings Store.next_call
      Bot.with_world Bot.with_settings].
    rewrite map_app. cbn [map fst].
    assert (Hf : forall l, NoDup (map fst l) ->
                 NoDup (map fst
                          (filter (fun kv : string * string =>
                                     negb (String.eqb (fst kv) key)) l))
                 /\ ~ In key
                      (map fst
                         (filter (fun kv : string * string =>
                                    negb (String.eqb (fst kv) key)) l))
                 /\ incl (map fst
                           (filter (fun kv : string * string =>
                                      negb (String.eqb (fst kv) key)) l))
                      (map fst l)).
    { induction l as [|[k v] l IH]; cbn; intros Hl.
      - repeat split; [constructor | tauto | apply incl_refl].
      - inversion Hl as [|? ? Hk Hl']; subst.
        destruct (IH Hl') as (IH1 & IH2 & IH3).
        destruct (String.eqb_spec k key) as [-> | Hne]; cbn.
        + repeat split; auto. now apply incl_tl.
        + repeat split.
          * constructor; [|exact IH1]. intros Hin. apply Hk. now apply IH3.
          * intros [E | Hin]; [congruence | now apply IH2].
          * intros x [<- | Hx]; [now left | right; now apply IH3]. }
    destruct (Hf _ Hnd) as (H1 & H2 & _).
    apply NoDup_app; [exact H1 | repeat constructor; intros [] |].
    intros x Hx [<- | []]. now apply H2.
Qed.

Lemma setting_round_trip_witness :
  Bot.no_faults Example.state0
  /\ Bot.value (Store.get_setting "invite_points")
       (Bot.state_after (Store.set_setting "invite_points" "8")
          Example.state0) = Bot.Done (Some "8").
Proof.
  split; [intro i; reflexivity|].
  exact (proj1 (setting_round_trip Example.state0 "invite_points" "8"
                  (fun i => eq_refl))).
Defined.

(** X2 (setup flag): the setup counts as complete exactly when the stored
    value of [setup_complete] is the text [1]; on a table without the key
    it does not, and after [mark_setup_complete] it does. *)
Theorem setup_complete_after_mark s :
  Bot.no_faults s ->
  Bot.value SetupManager.is_setup_complete
    (Bot.state_after SetupManager.mark_setup_complete s) = Bot.Done true
  /\ (Bot.value SetupManager.is_setup_complete s = Bot.Done true
      <-> Store.select_setting "setup_complete" s = Some "1")
  /\ (Store.select_setting "setup_complete" s = None ->
      Bot.value SetupManager.is_setup_complete s = Bot.Done false).
Proof.
  intros H.
  assert (Hval : forall t, Bot.no_faults t ->
            Bot.value SetupManager.is_setup_complete t
            = Bot.Done match Store.select_setting "setup_complete" t with
                       | Some text => String.eqb text "1"
                       | None => false
                       end).
  { intros t Ht. unfold Bot.value, SetupManager.is_setup_complete, Bot.bind.
    rewrite get_setting_ok by assumption.
    now destruct (Store.select_setting "setup_complete" t). }
  split; [|split].
  - unfold Bot.state_after, SetupManager.mark_setup_complete.
    rewrite set_setting_ok by assumption. cbn [snd].
    rewrite Hval by auto with bot.
    change (Store.select_setting ?k (Store.next_call ?x))
      with (Store.select_setting k x).
    erewrite select_setting_replaced by reflexivity. reflexivity.
  - rewrite Hval by assumption.
    destruct (Store.select_setting "setup_complete" s) as [text|].
    + split.
      * intros [= E]. apply String.eqb_eq in E. now subst.
      * intros [= ->]. reflexivity.
    + split; discriminate.
  - intros E. rewrite Hval by assumption. now rewrite E.
Qed.

Lemma setup_complete_after_mark_witness :
  Bot.no_faults Example.state0
  /\ Bot.value SetupManager.is_setup_complete Example.state0
     = Bot.Done false
  /\ Bot.value SetupManager.is_setup_complete
       (Bot.state_after SetupManager.mark_setup_complete Example.state0)
     = Bot.Done true.
Proof.
  split; [intro i; reflexivity|].
  destruct (setup_complete_after_mark Example.state0 (fun i => eq_refl))
    as (Hmark & _ & Hnone).
  split; [apply Hnone; reflexivity | exact Hmark].
Defined.





(** X4 (update_setting): [update_setting] answers [True] only when both the
    setting and the log row were written.  When the write of the setting
    fails nothing changes; when only the log row fails the answer is
    [False] although the new value is stored. *)
Theorem update_setting_outcomes s admin_id key value :
  let c := db_calls (Bot.world s) in
  let r := Bot.value (SetupManager.update_setting admin_id key value) s in
  let s' := Bot.state_after (SetupManager.update_setting admin_id key value)
              s in
  match faults (Bot.world s) c, faults (Bot.world s) (S c) with
  | true, _ => r = Bot.Done false /\ Bot.settings s' = Bot.settings s
  | false, true =>
      r = Bot.Done false /\ Store.select_setting key s' = Some value
  | false, false =>
      r = Bot.Done true /\ Store.select_setting key s' = Some value
      /\ logs (db (Bot.world s'))
         = logs (db (Bot.world s))
             ++ [mk_log admin_id "SETTING_UPDATED"
                   ("Key: " ++ key ++ ", Value: " ++ value)%string]
  end.
Proof.
  intros c r s'. subst c r s'.
  unfold Bot.value, Bot.state_after, SetupManager.update_setting,
    Bot.try_except, Bot.bind, Store.set_setting, Store.execute,
    Store.failing, Store.log_action, Bot.lift, Database.log_action,
    Database.execute, Bot.ret.
  destruct (faults (Bot.world s) (db_calls (Bot.world s))); [now split|].
  cbn [Store.replace_setting Store.next_call Bot.world Bot.with_world
         Bot.with_settings faults db_calls Database.next_call fst snd].
  assert (Hsel : forall t,
             Bot.settings t
             = filter (fun kv => negb (String.eqb (fst kv) key))
                 (Bot.settings s) ++ [(key, value)] ->
             Store.select_setting key t = Some value).
  { intros t Ht.
    change (Store.select_setting key t)
      with (Store.select_setting key (Bot.with_settings (Bot.settings t) s)).
    erewrite select_setting_replaced by exact Ht.
    now rewrite String.eqb_refl. }
  destruct (faults (Bot.world s) (S (db_calls (Bot.world s)))); cbn.
  - split; [reflexivity | now apply Hsel].
  - split; [reflexivity|]. split; [now apply Hsel | reflexivity].
Qed.

(** ** Users and points *)

Lemma find_key_map {R : Type} (key : R -> Z) (f : R -> R) k l :
  (forall r, key (f r) = key r) ->
  find (fun r => key r =? k) (map f l)
  = option_map f (find (fun r => key r =? k) l).
Proof.
  intros Hk. induction l as [|r l IH]; cbn; [reflexivity|].
  rewrite Hk. destruct (key r =? k); [reflexivity | exact IH].
Qed.

Lemma map_untouched {R : Type} (key : R -> Z) (f : R -> R) k l :
  (forall r, key r <> k -> f r = r) ->
  find (fun r => key r =? k) l = None -> map f l = l.
Proof.
  intros Hf. induction l as [|r l IH]; cbn; [reflexivity|].
  destruct (Z.eqb_spec (key r) k) as [E | Hne]; [discriminate|].
  intros Hn. now rewrite Hf, IH.
Qed.

Lemma change_points_row_id chg k u :
  u_id (Store.change_points_row chg k u) = u_id u.
Proof. unfold Store.change_points_row. now destruct (u_id u =? k). Qed.

Lemma change_points_row_other chg k u :
  u_id u <> k -> Store.change_points_row chg k u = u.
Proof.
  intros H. unfold Store.change_points_row.
  now destruct (Z.eqb_spec (u_id u) k).
Qed.

Lemma select_user_booked now k chg reason rel other s :
  Store.select_user other (Ledger.booked now k chg reason rel s)
  = option_map (Store.change_points_row chg k) (Store.select_user other s).
Proof. apply (find_key_map u_id), change_points_row_id. Qed.

Lemma balance_booked now k chg reason rel s :
  Ledger.balance k (Ledger.booked now k chg reason rel s)
  = option_map (fun b => b + chg) (Ledger.balance k s).
Proof.
  unfold Ledger.balance. rewrite select_user_booked.
  destruct (Store.select_user k s) as [u|] eqn:E; [|reflexivity].
  cbn. apply find_some in E as [_ E]. unfold Store.change_points_row.
  now rewrite E.
Qed.

Lemma select_user_booked_other now k chg reason rel other s :
  other <> k ->
  Store.select_user other (Ledger.booked now k chg reason rel s)
  = Store.select_user other s.
Proof.
  intros Hne. rewrite select_user_booked.
  destruct (Store.select_user other s) as [u|] eqn:E; [|reflexivity].
  cbn. f_equal. apply change_points_row_other.
  apply find_some in E as [_ E]. apply Z.eqb_eq in E. congruence.
Qed.

Lemma update_user_points_ok now k chg reason rel s :
  Bot.no_faults s ->
  Store.select_user k s <> None ->
  Store.update_user_points now k chg reason rel s
  = (Bot.Done tt,
     Store.next_call
       (Store.next_call (Ledger.booked now k chg reason rel s))).
Proof.
  intros H Hu. unfold Store.update_user_points, Bot.bind.
  rewrite bot_execute_ok by assumption. cbn [Store.change_points].
  rewrite bot_execute_ok by auto with bot.
  unfold Store.insert_history.
  change (Store.select_user k (Store.next_call ?x))
    with (Store.select_user k x).
  replace (Store.select_user k
             (Bot.with_users
                (map (Store.change_points_row chg k) (Bot.users s)) s))
    with (option_map (Store.change_points_row chg k)
            (Store.select_user k s))
    by (symmetry; apply (find_key_map u_id), change_points_row_id).
  destruct (Store.select_user k s); [reflexivity | congruence].
Qed.

Lemma update_user_points_unknown now k chg reason rel s :
  Bot.no_faults s ->
  Store.select_user k s = None ->
  exists s',
    Store.update_user_points now k chg reason rel s
    = (Bot.Thrown Bot.IntegrityError, s')
    /\ Ledger.same_tables s' s /\ Bot.no_faults s'.
Proof.
  intros H Hu. unfold Store.update_user_points, Bot.bind.
  rewrite bot_execute_ok by assumption. cbn [Store.change_points].
  rewrite bot_execute_ok by auto with bot.
  unfold Store.insert_history.
  change (Store.select_user k (Store.next_call ?x))
    with (Store.select_user k x).
  replace (Store.select_user k
             (Bot.with_users
                (map (Store.change_points_row chg k) (Bot.users s)) s))
    with (option_map (Store.change_points_row chg k)
            (Store.select_user k s))
    by (symmetry; apply (find_key_map u_id), change_points_row_id).
  rewrite Hu. cbn [option_map].
  eexists. split; [reflexivity|]. split.
  - unfold Ledger.same_tables. cbn. repeat split.
    apply (map_untouched u_id _ k); [|exact Hu].
    intros r. apply change_points_row_other.
  - auto with bot.
Qed.

Lemma same_tables_refl s : Ledger.same_tables s s.
Proof. unfold Ledger.same_tables. tauto. Qed.

Lemma same_tables_next s : Ledger.same_tables (Store.next_call s) s.
Proof. unfold Ledger.same_tables. cbn. tauto. Qed.

(** X5 (add_points), for an amount within the 64 bits of SQLite: a request
    to add nothing or less is refused without touching the database; a
    positive amount for a user who exists is added to the balance (when
    the new balance is within the 64 bits as well), other users keep
    theirs, and the history gets one row for it; for a user who does not
    exist the answer is [False] and no row changes. *)
Theorem add_points_outcomes s now user_id points reason related_id :
  Bot.no_faults s ->
  Int64.fits points ->
  let r := Bot.value (PointsManager.add_points now user_id points reason
                        related_id) s in
  let s' := Bot.state_after (PointsManager.add_points now user_id points
                               reason related_id) s in
  (points <= 0 -> r = Bot.Done false /\ s' = s)
  /\ (0 < points ->
      forall u, Store.select_user user_id s = Some u ->
      Int64.fits (u_points u + points) ->
      r = Bot.Done true
      /\ Ledger.balance user_id s' = Some (u_points u + points)
      /\ (forall other, other <> user_id ->
          Store.select_user other s' = Store.select_user other s)
      /\ Bot.points_history s'
         = Bot.points_history s
             ++ [mk_history (Store.next_id h_id (Bot.points_history s))
                   user_id points reason related_id (strftime now)])
  /\ (0 < points -> Store.select_user user_id s = None ->
      r = Bot.Done false /\ Ledger.same_tables s' s).
Proof.
  intros H _ r s'. subst r s'.
  unfold Bot.value, Bot.state_after, PointsManager.add_points.
  split; [|split].
  - intros Hp. replace (points <=? 0) with true
      by (symmetry; apply Z.leb_le; lia).
    now split.
  - intros Hp u Hu _. replace (points <=? 0) with false
      by (symmetry; apply Z.leb_gt; lia).
    unfold Bot.try_except, Bot.bind.
    rewrite update_user_points_ok by (assumption || congruence).
    cbn [fst snd Bot.ret].
    split; [reflexivity|]. split; [|split].
    + change (Ledger.balance user_id
                (Store.next_call (Store.next_call ?x)))
        with (Ledger.balance user_id x).
      rewrite balance_booked. unfold Ledger.balance. now rewrite Hu.
    + intros other Hne. now apply select_user_booked_other.
    + reflexivity.
  - intros Hp Hu. replace (points <=? 0) with false
      by (symmetry; apply Z.leb_gt; lia).
    unfold Bot.try_except, Bot.bind.
    destruct (update_user_points_unknown now user_id points reason
                related_id s H Hu) as (s1 & E & Hs & _).
    rewrite E. cbn. now split.
Qed.

Lemma add_points_outcomes_witness :
  Bot.no_faults Example.state0
  /\ Int64.fits 7
  /\ 0 < 7
  /\ Store.select_user 20 Example.state0 = Some Example.bob
  /\ Int64.fits (u_points Example.bob + 7)
  /\ Bot.value (PointsManager.add_points 5000000 20 7 "gift" None)
       Example.state0 = Bot.Done true
  /\ Ledger.balance 20
       (Bot.state_after (PointsManager.add_points 5000000 20 7 "gift" None)
          Example.state0) = Some 12
  /\ Bot.value (PointsManager.add_points 5000000 99 7 "gift" None)
       Example.state0 = Bot.Done false.
Proof.
  assert (Hp : Int64.fits 7) by (unfold Int64.fits; lia).
  assert (Hs : Int64.fits (u_points Example.bob + 7))
    by (unfold Int64.fits; cbn; lia).
  split; [intro i; reflexivity|]. split; [exact Hp|].
  split; [reflexivity|]. split; [reflexivity|]. split; [exact Hs|].
  destruct (add_points_outcomes Example.state0 5000000 20 7 "gift" None
              (fun i => eq_refl) Hp) as (_ & Hadd & _).
  destruct (Hadd eq_refl Example.bob eq_refl Hs) as (Hr & Hb & _).
  split; [exact Hr|]. split; [exact Hb|].
  destruct (add_points_outcomes Example.state0 5000000 99 7 "gift" None
              (fun i => eq_refl) Hp) as (_ & _ & Hno).
  exact (proj1 (Hno eq_refl eq_refl)).
Defined.

Lemma get_user_ok k s :
  Bot.no_faults s ->
  Store.get_user k s = (Bot.Done (Store.select_user k s), Store.next_call s).
Proof. intros H. unfold Store.get_user. now rewrite bot_fetchone_ok. Qed.


(** [subtract_points] on a user who exists, for any pattern of failing
    calls: the read of the user, the debit and the history row. *)
Lemma subtract_points_run now k points reason rel s u :
  Store.select_user k s = Some u ->
  PointsManager.subtract_points now k points reason rel s
  = if points <=? 0 then (Bot.Done false, s)
    else if Store.failing s
    then (Bot.Thrown Bot.TypeError, Store.next_call s)
    else if u_points u <? points
    then (Bot.Done false, Store.next_call s)
    else if faults (Bot.world s) (S (db_calls (Bot.world s)))
    then (Bot.Done false, Store.next_call (Store.next_call s))
    else if faults (Bot.world s) (S (S (db_calls (Bot.world s))))
    then (Bot.Done false,
          Store.next_call
            (Store.next_call
               (Bot.with_users
                  (map (Store.change_points_row (- points) k)
                     (Bot.users s)) (Store.next_call s))))
    else (Bot.Done true,
          Store.next_call
            (Store.next_call
               (Ledger.booked now k (- points) reason rel
                  (Store.next_call s)))).
Proof.
  intros Hu. unfold PointsManager.subtract_points.
  destruct (points <=? 0); [reflexivity|].
  unfold Bot.bind at 1. unfold Store.get_user, Store.fetchone.
  destruct (Store.failing s) eqn:Ef; [reflexivity|]. rewrite Hu.
  destruct (u_points u <? points); [reflexivity|].
  unfold Bot.try_except, Store.update_user_points, Bot.bind,
    Store.execute.
  change (Store.failing (Store.next_call s))
    with (faults (Bot.world s) (S (db_calls (Bot.world s)))).
  destruct (faults (Bot.world s) (S (db_calls (Bot.world s))));
    [reflexivity|].
  cbn [Store.change_points].
  change (Store.failing (Store.next_call (Bot.with_users ?l ?x)))
    with (faults (Bot.world s) (S (S (db_calls (Bot.world s))))).
  destruct (faults (Bot.world s) (S (S (db_calls (Bot.world s)))));
    [reflexivity|].
  unfold Store.insert_history.
  set (t := Bot.with_users _ (Store.next_call s)).
  assert (Ht : Store.select_user k (Store.next_call t)
               = option_map (Store.change_points_row (- points) k)
                   (Store.select_user k s))
    by (apply (find_key_map u_id), change_points_row_id).
  rewrite Ht, Hu. reflexivity.
Qed.

(** X6 (subtract_points): for a user who exists, whatever fails.  A
    request for nothing or less, or for more than the balance, is refused
    and no row changes.  Otherwise the balance is debited by the first
    statement and the history row is written by the second: when the first
    fails the answer is [False] and no row changes; when the second fails
    the answer is [False] although the debit is committed; when both
    succeed the answer is [True].  So [True] is answered exactly for an
    amount that is positive and covered, with both statements succeeding,
    and a balance that is not negative never becomes negative. *)
Theorem subtract_points_never_overdraws s now user_id points reason
    related_id u :
  Store.select_user user_id s = Some u ->
  let c := db_calls (Bot.world s) in
  let debit_fails := faults (Bot.world s) (S c) in
  let entry_fails := faults (Bot.world s) (S (S c)) in
  let r := Bot.value (PointsManager.subtract_points now user_id points
                        reason related_id) s in
  let s' := Bot.state_after (PointsManager.subtract_points now user_id
                               points reason related_id) s in
  (points <= 0 -> r = Bot.Done false /\ s' = s)
  /\ (0 < points -> Store.failing s = true ->
      r = Bot.Thrown Bot.TypeError /\ Ledger.same_tables s' s)
  /\ (Store.failing s = false -> u_points u < points ->
      r = Bot.Done false /\ Ledger.same_tables s' s)
  /\ (Store.failing s = false -> 0 < points <= u_points u ->
      (forall other, other <> user_id ->
         Store.select_user other s' = Store.select_user other s)
      /\ match debit_fails, entry_fails with
         | true, _ => r = Bot.Done false /\ Ledger.same_tables s' s
         | false, true =>
             r = Bot.Done false
             /\ Ledger.balance user_id s' = Some (u_points u - points)
             /\ Bot.points_history s' = Bot.points_history s
         | false, false =>
             r = Bot.Done true
             /\ Ledger.balance user_id s' = Some (u_points u - points)
             /\ Bot.points_history s'
                = Bot.points_history s
                    ++ [mk_history
                          (Store.next_id h_id (Bot.points_history s))
                          user_id (- points) reason related_id
                          (strftime now)]
         end)
  /\ (r = Bot.Done true
      <-> Store.failing s = false /\ 0 < points <= u_points u
          /\ debit_fails = false /\ entry_fails = false)
  /\ (0 <= u_points u ->
      exists b, Ledger.balance user_id s' = Some b /\ 0 <= b).
Proof.
  intros Hu c debit_fails entry_fails r s'.
  subst debit_fails entry_fails.
  remember (faults (Bot.world s) (S c)) as debit_fails eqn:Ed.
  remember (faults (Bot.world s) (S (S c))) as entry_fails eqn:Ee.
  assert (Hbal : Ledger.balance user_id s = Some (u_points u))
    by (unfold Ledger.balance; now rewrite Hu).
  assert (Hsame : forall t, Ledger.same_tables t s ->
                            Ledger.balance user_id t = Some (u_points u)).
  { intros t (_ & _ & Eu & _). unfold Ledger.balance, Store.select_user.
    rewrite Eu. exact Hbal. }
  pose proof (subtract_points_run now user_id points reason related_id s u
                Hu) as Hrun.
  fold c in Hrun. rewrite <- Ed, <- Ee in Hrun.
  subst r s'. unfold Bot.value, Bot.state_after. rewrite Hrun.
  assert (Hdebited : forall t,
            Bot.users t
            = map (Store.change_points_row (- points) user_id) (Bot.users s)
            -> Ledger.balance user_id t = Some (u_points u - points)
               /\ (forall other, other <> user_id ->
                   Store.select_user other t = Store.select_user other s)).
  { intros t Et. unfold Ledger.balance, Store.select_user. rewrite Et.
    split.
    - rewrite (find_key_map u_id) by apply change_points_row_id.
      fold (Store.select_user user_id s). rewrite Hu. cbn.
      unfold Store.change_points_row. apply find_some in Hu as [_ Hid].
      rewrite Hid. cbn. f_equal; lia.
    - intros other Hne.
      rewrite (find_key_map u_id) by apply change_points_row_id.
      fold (Store.select_user other s).
      destruct (Store.select_user other s) as [v|] eqn:Ev; [|reflexivity].
      cbn. f_equal. apply change_points_row_other.
      apply find_some in Ev as [_ Ev]. apply Z.eqb_eq in Ev. congruence. }
  destruct (Z.leb_spec points 0) as [Hp | Hp].
  { cbn [fst snd]. split; [now split|]. split; [lia|].
    split; [intros _ _; split; [reflexivity | apply same_tables_refl]|].
    split; [lia|]. split.
    - split; [discriminate | lia].
    - intros Hpos. exists (u_points u). now split. }
  destruct (Store.failing s) eqn:Ef.
  { cbn [fst snd]. split; [lia|].
    split; [intros _ _; split; [reflexivity | apply same_tables_next]|].
    split; [discriminate|]. split; [discriminate|]. split.
    - split; [discriminate | intros [? _]; discriminate].
    - intros Hpos. exists (u_points u).
      split; [apply Hsame, same_tables_next | exact Hpos]. }
  destruct (Z.ltb_spec (u_points u) points) as [Hlow | Hcov].
  { cbn [fst snd]. split; [lia|]. split; [discriminate|].
    split; [intros _ _; split; [reflexivity | apply same_tables_next]|].
    split; [lia|]. split.
    - split; [discriminate | lia].
    - intros Hpos. exists (u_points u).
      split; [apply Hsame, same_tables_next | exact Hpos]. }
  destruct debit_fails.
  { cbn [fst snd].
    assert (Hs2 : Ledger.same_tables (Store.next_call (Store.next_call s)) s)
      by (unfold Ledger.same_tables; cbn; tauto).
    split; [lia|]. split; [discriminate|]. split; [lia|]. split.
    - intros _ _. split; [|now split].
      intros other _. reflexivity.
    - split.
      + split; [discriminate | intros (_ & _ & ? & _); discriminate].
      + intros Hpos. exists (u_points u). split; [now apply Hsame | lia]. }
  destruct entry_fails.
  { cbn [fst snd].
    destruct (Hdebited
                (Store.next_call
                   (Store.next_call
                      (Bot.with_users
                         (map (Store.change_points_row (- points) user_id)
                            (Bot.users s)) (Store.next_call s))))
                eq_refl) as [Hb Ho].
    split; [lia|]. split; [discriminate|]. split; [lia|]. split.
    - intros _ _. split; [exact Ho|]. now repeat split.
    - split.
      + split; [discriminate | intros (_ & _ & _ & ?); discriminate].
      + intros Hpos. eexists. split; [exact Hb | lia]. }
  cbn [fst snd].
  destruct (Hdebited
              (Store.next_call
                 (Store.next_call
                    (Ledger.booked now user_id (- points) reason related_id
                       (Store.next_call s))))
              eq_refl) as [Hb Ho].
  split; [lia|]. split; [discriminate|]. split; [lia|]. split.
  - intros _ _. split; [exact Ho|]. now repeat split.
  - split.
    + split; [intros _; repeat split; (reflexivity || lia) | reflexivity].
    + intros Hpos. eexists. split; [exact Hb | lia].
Qed.

(** User 10 has 50 points: 51 are refused, 50 are taken, and 50 are taken
    but answered with [False] when the history row cannot be written. *)
Lemma subtract_points_never_overdraws_witness :
  Store.select_user 10 Example.state0 = Some Example.ann
  /\ Store.select_user 10 Example.state_entry_fails = Some Example.ann
  /\ Bot.value (PointsManager.subtract_points 5000000 10 51 "fee" None)
       Example.state0 = Bot.Done false
  /\ Bot.value (PointsManager.subtract_points 5000000 10 50 "fee" None)
       Example.state0 = Bot.Done true
  /\ Ledger.balance 10
       (Bot.state_after
          (PointsManager.subtract_points 5000000 10 50 "fee" None)
          Example.state0) = Some 0
  /\ Bot.value (PointsManager.subtract_points 5000000 10 50 "fee" None)
       Example.state_entry_fails = Bot.Done false
  /\ Ledger.balance 10
       (Bot.state_after
          (PointsManager.subtract_points 5000000 10 50 "fee" None)
          Example.state_entry_fails) = Some 0.
Proof.
  split; [reflexivity|]. split; [reflexivity|].
  destruct (subtract_points_never_overdraws Example.state0 5000000 10 51
              "fee" None Example.ann eq_refl) as (_ & _ & Hlow & _).
  destruct (subtract_points_never_overdraws Example.state0 5000000 10 50
              "fee" None Example.ann eq_refl) as (_ & _ & _ & Hok & _).
  destruct (subtract_points_never_overdraws Example.state_entry_fails
              5000000 10 50 "fee" None Example.ann eq_refl)
    as (_ & _ & _ & Hbad & _).
  assert (Hin : 0 < 50 <= u_points Example.ann) by (cbn; lia).
  split; [exact (proj1 (Hlow eq_refl eq_refl))|].
  destruct (Hok eq_refl Hin) as (_ & Hr & Hb & _).
  split; [exact Hr|]. split; [exact Hb|].
  destruct (Hbad eq_refl Hin) as (_ & Hr' & Hb' & _).
  split; [exact Hr' | exact Hb'].
Defined.

(** X7 (subtract_points, unknown user): a positive amount for a user who
    has no row (or whose row cannot be read) raises [TypeError] instead of
    answering [False]; nothing is written. *)
Theorem subtract_points_unknown_user s now user_id points reason related_id :
  0 < points ->
  Store.failing s = true \/ Store.select_user user_id s = None ->
  Bot.value (PointsManager.subtract_points now user_id points reason
               related_id) s = Bot.Thrown Bot.TypeError
  /\ Ledger.same_tables
       (Bot.state_after (PointsManager.subtract_points now user_id points
                           reason related_id) s) s.
Proof.
  intros Hp Hu. unfold Bot.value, Bot.state_after,
    PointsManager.subtract_points.
  replace (points <=? 0) with false by (symmetry; apply Z.leb_gt; lia).
  unfold Bot.bind, Store.get_user, Store.fetchone.
  destruct (Store.failing s) eqn:Ef.
  - split; [reflexivity | apply same_tables_next].
  - destruct Hu as [Hu | Hu]; [discriminate|]. rewrite Hu.
    split; [reflexivity | apply same_tables_next].
Qed.

Lemma subtract_points_unknown_user_witness :
  0 < 3
  /\ Store.select_user 99 Example.state0 = None
  /\ Bot.value (PointsManager.subtract_points 5000000 99 3 "fee" None)
       Example.state0 = Bot.Thrown Bot.TypeError.
Proof.
  split; [reflexivity|]. split; [reflexivity|].
  exact (proj1 (subtract_points_unknown_user Example.state0 5000000 99 3
                  "fee" None eq_refl (or_intror eq_refl))).
Defined.

Lemma add_points_ok now k points reason rel s :
  Bot.no_faults s ->
  0 < points ->
  Store.select_user k s <> None ->
  PointsManager.add_points now k points reason rel s
  = (Bot.Done true,
     Store.next_call
       (Store.next_call (Ledger.booked now k points reason rel s))).
Proof.
  intros H Hp Hu. unfold PointsManager.add_points.
  replace (points <=? 0) with false by (symmetry; apply Z.leb_gt; lia).
  unfold Bot.try_except, Bot.bind.
  now rewrite update_user_points_ok.
Qed.

Lemma no_faults_booked now k chg reason rel s :
  Bot.no_faults s -> Bot.no_faults (Ledger.booked now k chg reason rel s).
Proof. intros H i. apply H. Qed.

#[local] Hint Resolve no_faults_booked : bot.







(** X10 (admin_subtract_points): an admin's deduction is not checked
    against the balance: for an amount that, like the new balance, is
    within the 64 bits of SQLite, the balance of an existing user goes down
    by exactly that amount, below zero when the amount is larger than the
    balance, and the action is logged. *)
Theorem admin_subtract_points_unchecked s now admin_id user_id points
    reason u :
  Bot.no_faults s ->
  Store.select_user user_id s = Some u ->
  Int64.fits (- points) ->
  Int64.fits (u_points u - points) ->
  let r := Bot.value (PointsManager.admin_subtract_points now admin_id
                        user_id points reason) s in
  let s' := Bot.state_after (PointsManager.admin_subtract_points now
                               admin_id user_id points reason) s in
  r = Bot.Done true
  /\ Ledger.balance user_id s' = Some (u_points u - points)
  /\ (u_points u < points ->
      exists b, Ledger.balance user_id s' = Some b /\ b < 0)
  /\ (forall other, other <> user_id ->
      Store.select_user other s' = Store.select_user other s)
  /\ logs (db (Bot.world s'))
     = logs (db (Bot.world s))
         ++ [mk_log admin_id "ADMIN_SUBTRACT_POINTS"
               ("User: " ++ Py.str_int user_id ++ ", Points: "
                  ++ Py.str_int points ++ ", Reason: " ++ reason)%string].
Proof.
  intros H Hu _ _ r s'. subst r s'. unfold Bot.value, Bot.state_after.
  assert (Hrun : PointsManager.admin_subtract_points now admin_id user_id
                   points reason s
                 = (Bot.Done true,
                    Bot.with_world
                      (Database.next_call
                         (Database.commit
                            (Sql.insert_log admin_id "ADMIN_SUBTRACT_POINTS"
                               ("User: " ++ Py.str_int user_id
                                  ++ ", Points: " ++ Py.str_int points
                                  ++ ", Reason: " ++ reason)%string
                               (db (Bot.world s)))
                            (Database.next_call
                               (Database.next_call
                                  (Database.next_call (Bot.world s))))))
                      (Ledger.booked now user_id (- points)
                         ("خصم بواسطة المدير " ++ Py.str_int admin_id
                            ++ ": " ++ reason)%string
                         (Some admin_id) s))).
  { unfold PointsManager.admin_subtract_points. unfold Bot.bind at 1.
    rewrite get_user_ok by assumption. rewrite Hu.
    unfold Bot.try_except, Bot.bind.
    rewrite update_user_points_ok;
      [|auto with bot
       |change (Store.select_user user_id (Store.next_call s))
          with (Store.select_user user_id s); congruence].
    rewrite bot_log_action_ok by auto with bot. reflexivity. }
  rewrite Hrun. cbn [fst snd].
  change (Ledger.balance ?k (Bot.with_world ?w ?x))
    with (Ledger.balance k x).
  assert (Hb : Ledger.balance user_id
                 (Ledger.booked now user_id (- points)
                    ("خصم بواسطة المدير " ++ Py.str_int admin_id ++ ": "
                       ++ reason)
                    (Some admin_id) s)
               = Some (u_points u - points)).
  { rewrite balance_booked. unfold Ledger.balance.
    rewrite Hu. cbn. f_equal; lia. }
  split; [reflexivity|].
  split; [exact Hb|]. split; [|split].
  - intros Hlt. eexists. split; [exact Hb | lia].
  - intros other Hne.
    change (Store.select_user other (Bot.with_world ?w ?x))
      with (Store.select_user other x).
    now rewrite select_user_booked_other.
  - reflexivity.
Qed.

Lemma admin_subtract_points_unchecked_witness :
  Bot.no_faults Example.state0
  /\ Store.select_user 20 Example.state0 = Some Example.bob
  /\ Int64.fits (- 8)
  /\ Int64.fits (u_points Example.bob - 8)
  /\ Bot.value (PointsManager.admin_subtract_points 5000000 1 20 8 "fine")
       Example.state0 = Bot.Done true
  /\ Ledger.balance 20
       (Bot.state_after
          (PointsManager.admin_subtract_points 5000000 1 20 8 "fine")
          Example.state0) = Some (-3).
Proof.
  assert (Hp : Int64.fits (- 8)) by (unfold Int64.fits; lia).
  assert (Hs : Int64.fits (u_points Example.bob - 8))
    by (unfold Int64.fits; cbn; lia).
  split; [intro i; reflexivity|]. split; [reflexivity|].
  split; [exact Hp|]. split; [exact Hs|].
  destruct (admin_subtract_points_unchecked Example.state0 5000000 1 20 8
              "fine" Example.bob (fun i => eq_refl) eq_refl Hp Hs)
    as (Hr & Hb & _).
  split; [exact Hr | exact Hb].
Defined.

(** ** History and ranking *)

Lemma next_id_fresh {R : Type} (id : R -> Z) t r :
  In r t -> id r < Store.next_id id t.
Proof.
  unfold Store.next_id. induction t as [|x t IH]; cbn; [tauto|].
  intros [<- | Hin]; [lia|]. specialize (IH Hin). lia.
Qed.

Lemma order_by_last_first {A : Type} (before : A -> A -> bool) l x :
  (forall a, In a l -> before a x = false) ->
  Sql.order_by before (l ++ [x]) = x :: Sql.order_by before l.
Proof.
  induction l as [|a l IH]; intros H; cbn; [reflexivity|].
  rewrite IH by (intros b Hb; apply H; now right).
  cbn. now rewrite (H a (or_introl eq_refl)).
Qed.

(** X11 (points history): what [add_points] writes is what
    [get_points_history] shows first.  After a successful [add_points] (an
    amount and a new balance within the 64 bits of SQLite) the history of
    the user, read with a limit of one or more (within 64 bits), is the
    new entry, its amount, reason and time, followed by what the history
    showed before with a limit one smaller. *)
Theorem history_shows_last_entry_first s now user_id points reason
    related_id limit u :
  Bot.no_faults s ->
  0 < points ->
  Int64.fits points ->
  Store.select_user user_id s = Some u ->
  Int64.fits (u_points u + points) ->
  0 < limit ->
  Int64.fits limit ->
  exists older,
    Bot.value (PointsManager.get_points_history user_id (limit - 1)) s
    = Bot.Done older
    /\ Bot.value (PointsManager.get_points_history user_id limit)
         (Bot.state_after (PointsManager.add_points now user_id points
                             reason related_id) s)
       = Bot.Done ((points, reason, strftime now) :: older).
Proof.
  intros H Hp _ Hu _ Hl _. unfold Bot.state_after.
  rewrite add_points_ok by (assumption || congruence). cbn [snd].
  unfold Bot.value, PointsManager.get_points_history,
    Store.get_points_history.
  rewrite !bot_fetchall_ok by auto with bot. cbn [fst].
  eexists. split; [reflexivity|]. f_equal.
  unfold Store.select_history.
  cbn [Bot.points_history Store.next_call Bot.with_world Ledger.booked
         Bot.with_points_history Bot.with_users].
  rewrite filter_app. cbn [filter h_user_id]. rewrite Z.eqb_refl.
  rewrite order_by_last_first.
  - unfold Sql.limit_offset. cbn [skipn Z.to_nat].
    replace (limit <? 0) with false by (symmetry; apply Z.ltb_ge; lia).
    replace (limit - 1 <? 0) with false by (symmetry; apply Z.ltb_ge; lia).
    replace (Z.to_nat limit) with (S (Z.to_nat (limit - 1))) by lia.
    reflexivity.
  - intros a Ha. apply filter_In in Ha as [Ha _].
    unfold Store.newer_entry. cbn [h_id]. apply Z.leb_gt.
    now apply next_id_fresh.
Qed.

(** User 20 got 7 points at second 5 and gets 3 more at second 6. *)
Lemma history_shows_last_entry_first_witness :
  let s := Bot.state_after
             (PointsManager.add_points 5000000 20 7 "gift" None)
             Example.state0 in
  let u := mk_user 20 "bob" "Bob" "" 200 0 0 12 (Some 10) 0 0 None None 0 in
  Bot.no_faults s /\ 0 < 3 /\ Int64.fits 3
  /\ Store.select_user 20 s = Some u /\ Int64.fits (u_points u + 3)
  /\ 0 < 2 /\ Int64.fits 2
  /\ Bot.value (PointsManager.get_points_history 20 (2 - 1)) s
     = Bot.Done [(7, "gift", 5)]
  /\ Bot.value (PointsManager.get_points_history 20 2)
       (Bot.state_after (PointsManager.add_points 6000000 20 3 "more" None)
          s)
     = Bot.Done [(3, "more", 6); (7, "gift", 5)].
Proof.
  intros s u.
  assert (H : Bot.no_faults s) by (intro i; reflexivity).
  assert (Hu : Store.select_user 20 s = Some u) by reflexivity.
  assert (Hp : Int64.fits 3) by (unfold Int64.fits; lia).
  assert (Hs : Int64.fits (u_points u + 3))
    by (unfold Int64.fits; cbn; lia).
  assert (Hl : Int64.fits 2) by (unfold Int64.fits; lia).
  destruct (history_shows_last_entry_first s 6000000 20 3 "more" None 2 u
              H eq_refl Hp Hu Hs eq_refl Hl) as (older & Eold & Enew).
  assert (Eo : older = [(7, "gift", 5)]).
  { assert (E : Bot.Done older = Bot.Done [(7, "gift", 5)])
      by (rewrite <- Eold; reflexivity).
    now injection E. }
  subst older.
  split; [exact H|]. split; [reflexivity|]. split; [exact Hp|].
  split; [exact Hu|]. split; [exact Hs|]. split; [reflexivity|].
  split; [exact Hl|]. split; [exact Eold | exact Enew].
Defined.

Lemma sorted_prefix_dominates {A : Type} (R : A -> A -> Prop) l n :
  StronglySorted R l ->
  forall x y, In x (firstn n l) -> In y (skipn n l) -> R x y.
Proof.
  intros Hs. revert n. induction Hs as [|a l Hs IH Ha]; intros n x y.
  - rewrite firstn_nil. intros [].
  - destruct n as [|n]; cbn; [intros []|].
    intros [<- | Hx] Hy.
    + rewrite Forall_forall in Ha. apply Ha.
      rewrite <- (firstn_skipn n l). apply in_or_app. now right.
    + now apply (IH n).
Qed.

(** X12 (get_top_users): for a limit of zero or more that fits the 64
    bits of SQLite, the ranking gives the id, the user name, the points and
    the invitations of [limit] users (of all of them when there are
    fewer), richest first, and nobody who is left out has more points than
    somebody who is shown. *)
Theorem top_users_are_the_richest s limit :
  Store.failing s = false ->
  0 <= limit ->
  Int64.fits limit ->
  exists shown rest,
    Bot.value (PointsManager.get_top_users limit) s
    = Bot.Done (map (fun u => (u_id u, u_username u, u_points u,
                               u_total_invites u)) shown)
    /\ Permutation (Bot.users s) (shown ++ rest)
    /\ List.length shown
       = Nat.min (Z.to_nat limit) (List.length (Bot.users s))
    /\ StronglySorted (fun u v => u_points v <= u_points u) shown
    /\ (forall u v, In u shown -> In v rest -> u_points v <= u_points u).
Proof.
  intros Hf Hl _.
  set (sorted := Sql.order_by Store.richer (Bot.users s)).
  assert (Hs : StronglySorted (fun u v => u_points v <= u_points u) sorted).
  { apply Sorted_StronglySorted; [intros a b c; lia|].
    pose proof (order_by_sorted Store.richer) as Hsorted.
    assert (Ht : forall x y, Store.richer x y = false ->
                             Store.richer y x = true).
    { unfold Store.richer. intros x y E. apply Z.leb_gt in E.
      apply Z.leb_le. lia. }
    specialize (Hsorted Ht (Bot.users s)). fold sorted in Hsorted.
    induction Hsorted as [|x l Hl' IH Hd]; constructor; [exact IH|].
    destruct Hd; constructor. now apply Z.leb_le. }
  exists (firstn (Z.to_nat limit) sorted), (skipn (Z.to_nat limit) sorted).
  split; [|split; [|split; [|split]]].
  - unfold Bot.value, PointsManager.get_top_users.
    rewrite fetchall_at by assumption. cbn [fst].
    unfold Store.select_top_users, Sql.limit_offset. cbn [skipn Z.to_nat].
    now replace (limit <? 0) with false by (symmetry; apply Z.ltb_ge; lia).
  - rewrite firstn_skipn. apply order_by_perm.
  - rewrite length_firstn. f_equal. symmetry.
    apply Permutation_length, order_by_perm.
  - clear -Hs. revert Hs. generalize (Z.to_nat limit) as n.
    induction sorted as [|a l IH]; intros n Hs.
    + rewrite firstn_nil. constructor.
    + destruct n; cbn; [constructor|]. inversion Hs; subst.
      constructor; [now apply IH|].
      rewrite Forall_forall in *. intros x Hx. apply H2.
      rewrite <- (firstn_skipn n l). apply in_or_app. now left.
  - intros u v Hu Hv.
    exact (sorted_prefix_dominates _ sorted (Z.to_nat limit) Hs u v Hu Hv).
Qed.

Lemma top_users_are_the_richest_witness :
  Store.failing Example.state0 = false /\ 0 <= 1 /\ Int64.fits 1
  /\ Bot.value (PointsManager.get_top_users 1) Example.state0
     = Bot.Done [(10, "ann", 50, 0)]
  /\ exists shown rest,
       Bot.Done [(10, "ann", 50, 0)]
       = Bot.Done (map (fun u => (u_id u, u_username u, u_points u,
                                  u_total_invites u)) shown)
       /\ Permutation (Bot.users Example.state0) (shown ++ rest)
       /\ List.length shown = 1%nat
       /\ (forall u v, In u shown -> In v rest ->
           u_points v <= u_points u).
Proof.
  assert (Hfit : Int64.fits 1) by (unfold Int64.fits; lia).
  split; [reflexivity|]. split; [discriminate|]. split; [exact Hfit|].
  split; [reflexivity|].
  destruct (top_users_are_the_richest Example.state0 1 eq_refl)
    as (shown & rest & E & Hp & Hlen & _ & Hd);
    [discriminate | exact Hfit |].
  exists shown, rest. repeat split; assumption.
Defined.

(** ** Registration *)

Lemma count_invite_row_id k u :
  u_id (Store.count_invite_row k u) = u_id u.
Proof. unfold Store.count_invite_row. now destruct (u_id u =? k). Qed.

Lemma count_invite_row_other k u :
  u_id u <> k -> Store.count_invite_row k u = u.
Proof.
  intros H. unfold Store.count_invite_row.
  now destruct (Z.eqb_spec (u_id u) k).
Qed.

Lemma add_user_ok now k username first_name last_name invited_by s :
  Bot.no_faults s ->
  exists s',
    Store.add_user now k username first_name last_name invited_by s
    = (Bot.Done tt, s')
    /\ Bot.users s'
       = (let registered :=
            match Store.select_user k s with
            | Some _ => Bot.users s
            | None =>
                Bot.users s
                  ++ [mk_user k username first_name last_name (strftime now)
                        0 0 0 invited_by 0 0 None None 0]
            end in
          match invited_by with
          | Some inviter =>
              if inviter =? 0 then registered
              else map (Store.count_invite_row inviter) registered
          | None => registered
          end).
Proof.
  intros H. unfold Store.add_user, Bot.bind.
  rewrite bot_execute_ok by assumption. unfold Store.insert_user.
  destruct (Store.select_user k s) as [u|] eqn:Eu;
    (destruct invited_by as [inviter|];
     [destruct (inviter =? 0);
      [eexists; split; reflexivity|]
     |eexists; split; reflexivity]);
    rewrite bot_execute_ok by auto with bot;
    eexists; split; reflexivity.
Qed.

(** X13 (add_user, new user): a user who registers gets a row with no
    points, not banned, not PRO and no daily bonus yet, with the names and
    the inviter that were passed (an id that fits the 64 bits of SQLite);
    the inviter's count of invitations goes up by one and nobody else's
    row changes.  The inviter is not compared with the new user: who
    registers with the own id as inviter starts with one invitation. *)
Theorem add_user_registers s now user_id username first_name last_name
    invited_by :
  Bot.no_faults s ->
  Store.select_user user_id s = None ->
  match invited_by with
  | Some inviter => Int64.fits inviter
  | None => True
  end ->
  let s' := Bot.state_after
              (Store.add_user now user_id username first_name last_name
                 invited_by) s in
  let own := match invited_by with
             | Some inviter => (inviter =? user_id) && negb (inviter =? 0)
             | None => false
             end in
  Store.select_user user_id s'
  = Some (mk_user user_id username first_name last_name (strftime now)
            0 0 0 invited_by (if own then 1 else 0) 0 None None 0)
  /\ (forall inviter u, invited_by = Some inviter -> inviter <> 0 ->
      Store.select_user inviter s = Some u ->
      option_map u_total_invites (Store.select_user inviter s')
      = Some (u_total_invites u + 1))
  /\ (forall other, other <> user_id -> invited_by <> Some other ->
      Store.select_user other s' = Store.select_user other s).
Proof.
  intros H Hnew _ s' own. subst s' own. unfold Bot.state_after.
  destruct (add_user_ok now user_id username first_name last_name
              invited_by s H) as (s1 & E & Hu).
  rewrite E. cbn [snd]. rewrite Hnew in Hu. cbn zeta in Hu.
  set (row := mk_user user_id username first_name last_name (strftime now)
                0 0 0 invited_by 0 0 None None 0) in *.
  assert (Hfind : forall k,
             find (fun u => u_id u =? k) (Bot.users s ++ [row])
             = if k =? user_id
               then Some row else Store.select_user k s).
  { intros k. rewrite find_app. fold (Store.select_user k s).
    destruct (Z.eqb_spec k user_id) as [-> | Hne].
    - rewrite Hnew. cbn. now rewrite Z.eqb_refl.
    - destruct (Store.select_user k s); [reflexivity|].
      cbn. now replace (user_id =? k) with false
        by (symmetry; apply Z.eqb_neq; congruence). }
  assert (Hplain : Bot.users s1 = Bot.users s ++ [row] ->
            Store.select_user user_id s1 = Some row
            /\ (forall other, other <> user_id ->
                Store.select_user other s1 = Store.select_user other s)).
  { intros Hs.
    assert (Hsel : forall k,
               Store.select_user k s1
               = if k =? user_id then Some row
                 else Store.select_user k s).
    { intros k. unfold Store.select_user at 1. rewrite Hs. apply Hfind. }
    split.
    - now rewrite Hsel, Z.eqb_refl.
    - intros other Ho. rewrite Hsel.
      now replace (other =? user_id) with false
        by (symmetry; now apply Z.eqb_neq). }
  destruct invited_by as [inviter|].
  - destruct (Z.eqb_spec inviter 0) as [-> | Hnz].
    + destruct (Hplain Hu) as [Hrow Hothers].
      rewrite andb_false_r. split; [exact Hrow|]. split.
      * intros i u [= <-] Hi. congruence.
      * intros other Ho _. now apply Hothers.
    + assert (Hsel : forall k,
                 Store.select_user k s1
                 = option_map (Store.count_invite_row inviter)
                     (if k =? user_id then Some row
                      else Store.select_user k s)).
      { intros k. unfold Store.select_user at 1. rewrite Hu.
        rewrite (find_key_map u_id) by apply count_invite_row_id.
        now rewrite Hfind. }
      rewrite andb_true_r. split; [|split].
      * rewrite Hsel, Z.eqb_refl. cbn [option_map]. f_equal.
        unfold Store.count_invite_row. subst row. cbn [u_id].
        rewrite (Z.eqb_sym user_id inviter).
        now destruct (inviter =? user_id).
      * intros i u [= <-] _ Hi. rewrite Hsel.
        assert (Hne : inviter <> user_id) by congruence.
        replace (inviter =? user_id) with false
          by (symmetry; now apply Z.eqb_neq).
        rewrite Hi. cbn. f_equal. unfold Store.count_invite_row.
        apply find_some in Hi as [_ Hi]. now rewrite Hi.
      * intros other Ho Hi. rewrite Hsel.
        replace (other =? user_id) with false
          by (symmetry; now apply Z.eqb_neq).
        destruct (Store.select_user other s) as [u|] eqn:Eo; [|reflexivity].
        cbn. f_equal. apply count_invite_row_other.
        apply find_some in Eo as [_ Eo]. apply Z.eqb_eq in Eo. congruence.
  - destruct (Hplain Hu) as [Hrow Hothers].
    split; [exact Hrow|]. split.
    + intros i u [=].
    + intros other Ho _. now apply Hothers.
Qed.

(** User 30 registers with user 10 as inviter, and user 40 with the own
    id. *)
Lemma add_user_registers_witness :
  Bot.no_faults Example.state0
  /\ Store.select_user 30 Example.state0 = None
  /\ Int64.fits 10
  /\ option_map u_total_invites
       (Store.select_user 10
          (Bot.state_after
             (Store.add_user 5000000 30 "cat" "Cat" "" (Some 10))
             Example.state0)) = Some 1
  /\ Store.select_user 40
       (Bot.state_after
          (Store.add_user 5000000 40 "dan" "Dan" "" (Some 40))
          Example.state0)
     = Some (mk_user 40 "dan" "Dan" "" 5 0 0 0 (Some 40) 1 0 None None 0).
Proof.
  split; [intro i; reflexivity|]. split; [reflexivity|].
  split; [unfold Int64.fits; lia|]. split.
  - destruct (add_user_registers Example.state0 5000000 30 "cat" "Cat" ""
                (Some 10) (fun i => eq_refl) eq_refl
                ltac:(unfold Int64.fits; lia))
      as (_ & Hinv & _).
    apply (Hinv 10 Example.ann); [reflexivity | discriminate | reflexivity].
  - exact (proj1 (add_user_registers Example.state0 5000000 40 "dan" "Dan"
                    "" (Some 40) (fun i => eq_refl) eq_refl
                    ltac:(unfold Int64.fits; lia))).
Defined.

(** X14 (add_user, known user): for an id that already has a row,
    [add_user] changes neither the names nor anything else of that row
    ([INSERT OR IGNORE]), but it counts one more invitation for the inviter
    every time it is called. *)
Theorem add_user_keeps_known_user s now user_id username first_name
    last_name inviter u v :
  Bot.no_faults s ->
  Store.select_user user_id s = Some u ->
  Store.select_user inviter s = Some v ->
  inviter <> 0 ->
  inviter <> user_id ->
  let s' := Bot.state_after
              (Store.add_user now user_id username first_name last_name
                 (Some inviter)) s in
  Store.select_user user_id s' = Some u
  /\ option_map u_total_invites (Store.select_user inviter s')
     = Some (u_total_invites v + 1)
  /\ List.length (Bot.users s') = List.length (Bot.users s).
Proof.
  intros H Hu Hv Hnz Hne s'. subst s'. unfold Bot.state_after.
  destruct (add_user_ok now user_id username first_name last_name
              (Some inviter) s H) as (s1 & E & Hs).
  rewrite E. cbn [snd]. rewrite Hu in Hs. cbn zeta in Hs.
  replace (inviter =? 0) with false in Hs
    by (symmetry; now apply Z.eqb_neq).
  assert (Hsel : forall k,
             Store.select_user k s1
             = option_map (Store.count_invite_row inviter)
                 (Store.select_user k s)).
  { intros k. unfold Store.select_user. rewrite Hs.
    apply (find_key_map u_id), count_invite_row_id. }
  rewrite !Hsel, Hu, Hv, Hs. cbn [option_map]. split; [|split].
  - f_equal. apply count_invite_row_other.
    apply find_some in Hu as [_ Hu]. apply Z.eqb_eq in Hu. congruence.
  - f_equal. unfold Store.count_invite_row.
    apply find_some in Hv as [_ Hv]. now rewrite Hv.
  - apply length_map.
Qed.

Lemma add_user_keeps_known_user_witness :
  Bot.no_faults Example.state0
  /\ Store.select_user 20 Example.state0 = Some Example.bob
  /\ Store.select_user 10 Example.state0 = Some Example.ann
  /\ 10 <> 0 /\ 10 <> 20
  /\ Store.select_user 20
       (Bot.state_after
          (Store.add_user 5000000 20 "robert" "Robert" "B" (Some 10))
          Example.state0) = Some Example.bob.
Proof.
  split; [intro i; reflexivity|]. split; [reflexivity|].
  split; [reflexivity|]. split; [discriminate|]. split; [discriminate|].
  exact (proj1 (add_user_keeps_known_user Example.state0 5000000 20 "robert"
                  "Robert" "B" 10 Example.bob Example.ann
                  (fun i => eq_refl) eq_refl eq_refl
                  ltac:(discriminate) ltac:(discriminate))).
Defined.

(** ** The daily bonus *)

Lemma contains_append c a b :
  Text.contains c (a ++ b)%string = Text.contains c a || Text.contains c b.
Proof.
  induction a as [|d a IH]; [reflexivity|].
  cbn [append Text.contains]. now rewrite IH, orb_assoc.
Qed.

Lemma digits_have_no_space s :
  Py.all_digits s = true -> Text.contains " " s = false.
Proof.
  induction s as [|c s IH]; [reflexivity|].
  cbn [Py.all_digits Text.contains].
  intros H. apply andb_true_iff in H as [Hc Hs]. rewrite (IH Hs).
  destruct (Ascii.eqb_spec " " c) as [<- | _]; [discriminate | reflexivity].
Qed.

Lemma str_int_no_space n : Text.contains " " (Py.str_int n) = false.
Proof.
  unfold Py.str_int. destruct (Z.ltb_spec n 0).
  - cbn [Text.contains].
    replace (Ascii.eqb " " "-") with false by reflexivity. cbn [orb].
    apply digits_have_no_space, str_digits_all_digits;
      [lia | reflexivity].
  - apply digits_have_no_space, str_digits_all_digits; [lia | reflexivity].
Qed.

Lemma two_digits_no_space n :
  Text.contains " " (Calendar.two_digits n) = false.
Proof.
  unfold Calendar.two_digits. destruct (n <? 10);
    [cbn [Text.contains];
     replace (Ascii.eqb " " "0") with false by reflexivity; cbn [orb]|];
    apply str_int_no_space.
Qed.

Lemma date_text_no_space t : Text.contains " " (Calendar.date_text t) = false.
Proof.
  unfold Calendar.date_text.
  destruct (Calendar.civil _) as [[y m] d].
  rewrite !contains_append, str_int_no_space, !two_digits_no_space.
  reflexivity.
Qed.

(** The stamp with the time of day is never the text of a date. *)
Lemma datetime_text_is_no_date t t' :
  String.eqb (Calendar.datetime_text t) (Calendar.date_text t') = false.
Proof.
  apply String.eqb_neq. intros E.
  apply (f_equal (Text.contains " ")) in E.
  rewrite date_text_no_space in E. unfold Calendar.datetime_text in E.
  rewrite contains_append, date_text_no_space in E.
  cbn [append Text.contains] in E.
  replace (Ascii.eqb " " " ") with true in E by reflexivity.
  discriminate.
Qed.

Section DailyBonus.

Variable int : string -> option Z.

Lemma setting_or_ok key current s :
  Bot.no_faults s ->
  exists r,
    PointsManager.setting_or int key current s = (r, Store.next_call s).
Proof.
  intros H. unfold PointsManager.setting_or, Bot.bind.
  rewrite get_setting_ok by assumption.
  destruct (Store.select_setting key s) as [[|c rest]|];
    try (eexists; reflexivity).
  destruct (int (String c rest)); eexists; reflexivity.
Qed.

Lemma get_points_config_ok s :
  Bot.no_faults s ->
  exists s',
    PointsManager._get_points_config int s = (Bot.Done tt, s')
    /\ Ledger.same_tables s' s /\ Bot.no_faults s'.
Proof.
  intros H. unfold PointsManager._get_points_config, Bot.try_except.
  unfold Bot.bind at 1.
  destruct (setting_or_ok "daily_bonus_points" Bot.daily_bonus_points s H)
    as ([v1|e1] & E1); rewrite E1;
    [|eexists; split; [reflexivity|]; split;
      [apply same_tables_next | auto with bot]].
  unfold Bot.bind at 1. unfold Bot.set at 1.
  set (s1 := Bot.with_daily_bonus_points v1 (Store.next_call s)).
  assert (H1 : Bot.no_faults s1) by (intro i; apply H).
  unfold Bot.bind at 1.
  destruct (setting_or_ok "invite_points" Bot.invite_points s1 H1)
    as ([v2|e2] & E2); rewrite E2;
    [|eexists; split; [reflexivity|]; split;
      [unfold Ledger.same_tables; cbn; tauto | intro i; apply H]].
  unfold Bot.bind at 1. unfold Bot.set at 1.
  set (s2 := Bot.with_invite_points v2 (Store.next_call s1)).
  assert (H2 : Bot.no_faults s2) by (intro i; apply H).
  unfold Bot.bind at 1.
  destruct (setting_or_ok "proof_points" Bot.proof_points s2 H2)
    as ([v3|e3] & E3); rewrite E3;
    (eexists; split; [reflexivity|]; split;
     [unfold Ledger.same_tables; cbn; tauto | intro i; apply H]).
Qed.

Lemma setting_or_configured key current s v :
  (forall t, current (Store.next_call t) = current t) ->
  Bot.no_faults s ->
  Ledger.configured int key current s v ->
  PointsManager.setting_or int key current s
  = (Bot.Done v, Store.next_call s).
Proof.
  intros Hcur H Hc. unfold PointsManager.setting_or, Bot.bind.
  rewrite get_setting_ok by assumption. unfold Ledger.configured in Hc.
  destruct (Store.select_setting key s) as [[|c rest]|].
  - unfold Bot.get. now rewrite Hcur, Hc.
  - now rewrite Hc.
  - unfold Bot.get. now rewrite Hcur, Hc.
Qed.

Lemma get_points_config_bonus s b :
  Bot.no_faults s ->
  Ledger.configured int "daily_bonus_points" Bot.daily_bonus_points s b ->
  exists s',
    PointsManager._get_points_config int s = (Bot.Done tt, s')
    /\ Ledger.same_tables s' s /\ Bot.no_faults s'
    /\ Bot.daily_bonus_points s' = b.
Proof.
  intros H Hc. unfold PointsManager._get_points_config, Bot.try_except.
  unfold Bot.bind at 1.
  rewrite (setting_or_configured "daily_bonus_points"
             Bot.daily_bonus_points s b (fun _ => eq_refl) H Hc).
  unfold Bot.bind at 1. unfold Bot.set at 1.
  set (s1 := Bot.with_daily_bonus_points b (Store.next_call s)).
  assert (H1 : Bot.no_faults s1) by (intro i; apply H).
  unfold Bot.bind at 1.
  destruct (setting_or_ok "invite_points" Bot.invite_points s1 H1)
    as ([v2|e2] & E2); rewrite E2;
    [|eexists; split; [reflexivity|]; split;
      [unfold Ledger.same_tables; cbn; tauto|];
      split; [intro i; apply H | reflexivity]].
  unfold Bot.bind at 1. unfold Bot.set at 1.
  set (s2 := Bot.with_invite_points v2 (Store.next_call s1)).
  assert (H2 : Bot.no_faults s2) by (intro i; apply H).
  unfold Bot.bind at 1.
  destruct (setting_or_ok "proof_points" Bot.proof_points s2 H2)
    as ([v3|e3] & E3); rewrite E3;
    (eexists; split; [reflexivity|]; split;
     [unfold Ledger.same_tables; cbn; tauto|];
     split; [intro i; apply H | reflexivity]).
Qed.

(** One claim, for a user whose stamp is empty or has the form that
    [claim_daily_bonus] writes. *)
Lemma claim_daily_bonus_pays s now user_id u b :
  Bot.no_faults s ->
  Store.select_user user_id s = Some u ->
  u_last_daily_bonus u = None
  \/ (exists t, u_last_daily_bonus u = Some (Calendar.datetime_text t)) ->
  Ledger.configured int "daily_bonus_points" Bot.daily_bonus_points s b ->
  exists s' u',
    PointsManager.claim_daily_bonus int now user_id s
    = (Bot.Done (Some b), s')
    /\ Store.select_user user_id s' = Some u'
    /\ u_points u' = u_points u + Z.max b 0
    /\ u_last_daily_bonus u' = Some (Calendar.datetime_text now)
    /\ Bot.no_faults s'
    /\ Bot.settings s' = Bot.settings s
    /\ Bot.daily_bonus_points s' = b.
Proof.
  intros H Hu Hstamp Hc.
  unfold PointsManager.claim_daily_bonus. unfold Bot.bind at 1.
  destruct (get_points_config_bonus s b H Hc) as (s0 & E0 & Hsame & H0 & Hb).
  rewrite E0. unfold Bot.bind at 1. rewrite get_user_ok by assumption.
  assert (Hset0 : Bot.settings s0 = Bot.settings s)
    by (now destruct Hsame as (_ & _ & _ & Es & _)).
  assert (Hu0 : Store.select_user user_id s0 = Some u).
  { unfold Store.select_user.
    destruct Hsame as (_ & _ & Eusers & _). now rewrite Eusers. }
  rewrite Hu0.
  assert (Hfresh : match u_last_daily_bonus u with
                   | Some text => String.eqb text (Calendar.date_text now)
                   | None => false
                   end = false).
  { destruct Hstamp as [-> | [t ->]]; [reflexivity|].
    apply datetime_text_is_no_date. }
  rewrite Hfresh.
  set (s1 := Store.next_call s0).
  assert (H1 : Bot.no_faults s1) by (subst s1; auto with bot).
  assert (Hu1 : Store.select_user user_id s1 = Some u) by exact Hu0.
  assert (Hb1 : Bot.daily_bonus_points s1 = b) by exact Hb.
  assert (Hset1 : Bot.settings s1 = Bot.settings s) by exact Hset0.
  unfold Bot.try_except. unfold Bot.bind at 1. unfold Bot.get at 1.
  rewrite Hb1. unfold Bot.bind at 1.
  assert (Hstamped : forall s2,
             Bot.no_faults s2 ->
             Bot.daily_bonus_points s2 = b ->
             Bot.settings s2 = Bot.settings s ->
             forall v, Store.select_user user_id s2 = Some v ->
             exists s3 u',
               (Store.execute
                  (Store.stamp_bonus (Calendar.datetime_text now) user_id)
                  ;;~ bonus <~ Bot.get Bot.daily_bonus_points ;;
                      Bot.ret (Some bonus)) s2
               = (Bot.Done (Some b), s3)
               /\ Store.select_user user_id s3 = Some u'
               /\ u_points u' = u_points v
               /\ u_last_daily_bonus u'
                  = Some (Calendar.datetime_text now)
               /\ Bot.no_faults s3
               /\ Bot.settings s3 = Bot.settings s
               /\ Bot.daily_bonus_points s3 = b).
  { intros s2 H2 Hb2 Hset2 v Hv. unfold Bot.bind.
    rewrite bot_execute_ok by assumption. cbn [Store.stamp_bonus].
    unfold Bot.get, Bot.ret. cbn [Bot.daily_bonus_points Store.next_call
      Bot.with_world Bot.with_users]. rewrite Hb2.
    eexists. exists (Store.stamp_bonus_row (Calendar.datetime_text now)
                       user_id v).
    split; [reflexivity|]. split; [|split; [|split; [|split; [|split]]]].
    - unfold Store.select_user.
      cbn [Bot.users Store.next_call Bot.with_world Bot.with_users].
      rewrite (find_key_map u_id).
      + fold (Store.select_user user_id s2). now rewrite Hv.
      + intros r. unfold Store.stamp_bonus_row.
        now destruct (u_id r =? user_id).
    - apply find_some in Hv as [_ Hv]. unfold Store.stamp_bonus_row.
      now rewrite Hv.
    - apply find_some in Hv as [_ Hv]. unfold Store.stamp_bonus_row.
      now rewrite Hv.
    - intro i. apply H2.
    - exact Hset2.
    - exact Hb2. }
  destruct (Z.leb_spec b 0) as [Hle | Hpos].
  - unfold PointsManager.add_points.
    replace (b <=? 0) with true by (symmetry; apply Z.leb_le; lia).
    cbn [Bot.ret].
    destruct (Hstamped s1 H1 Hb1 Hset1 u Hu1)
      as (s3 & u' & E & Hs & Hp & Hl & H3 & Hset3 & Hb3).
    rewrite E. exists s3, u'. split; [reflexivity|].
    split; [exact Hs|]. split; [lia|]. now repeat split.
  - rewrite add_points_ok; [|assumption | lia | congruence].
    set (s2 := Store.next_call (Store.next_call (Ledger.booked _ _ _ _ _ _))).
    assert (H2 : Bot.no_faults s2) by (subst s2; auto with bot).
    assert (Hu2 : Store.select_user user_id s2
                  = Some (Store.change_points_row b user_id u)).
    { subst s2.
      change (Store.select_user user_id
                (Store.next_call (Store.next_call ?x)))
        with (Store.select_user user_id x).
      rewrite select_user_booked. now rewrite Hu1. }
    destruct (Hstamped s2 H2 Hb1 Hset1 _ Hu2)
      as (s3 & u' & E & Hs & Hp & Hl & H3 & Hset3 & Hb3).
    rewrite E. exists s3, u'. split; [reflexivity|].
    split; [exact Hs|]. split; [|now repeat split].
    rewrite Hp. unfold Store.change_points_row.
    apply find_some in Hu1 as [_ Hid]. rewrite Hid. cbn [u_points]. lia.
Qed.

Lemma configured_same key current s s' v :
  Bot.settings s' = Bot.settings s ->
  current s' = v ->
  Ledger.configured int key current s v ->
  Ledger.configured int key current s' v.
Proof.
  unfold Ledger.configured, Store.select_setting. intros -> Hv Hc.
  now destruct (option_map snd _) as [[|c rest]|].
Qed.

(** X15 (daily bonus): [claim_daily_bonus] compares the stored stamp with
    today's date, but the stamp it stores has the time of day as well, so
    the two are never equal.  For a user whose stamp is empty or was
    written by [claim_daily_bonus], a claim returns the configured bonus
    [b], adds it to the balance when it is positive (and within the 64
    bits of SQLite) and writes such a stamp, and a second claim, at the
    same moment or at any other, does the same once more. *)
Theorem daily_bonus_is_paid_again s now again user_id u b :
  Bot.no_faults s ->
  Store.select_user user_id s = Some u ->
  u_last_daily_bonus u = None
  \/ (exists t, u_last_daily_bonus u = Some (Calendar.datetime_text t)) ->
  Ledger.configured int "daily_bonus_points" Bot.daily_bonus_points s b ->
  Int64.fits b ->
  Int64.fits (u_points u + 2 * Z.max b 0) ->
  let first := PointsManager.claim_daily_bonus int now user_id in
  let second := PointsManager.claim_daily_bonus int again user_id in
  let s1 := Bot.state_after first s in
  let s2 := Bot.state_after second s1 in
  Bot.value first s = Bot.Done (Some b)
  /\ Bot.value second s1 = Bot.Done (Some b)
  /\ (exists u1,
        Store.select_user user_id s1 = Some u1
        /\ u_points u1 = u_points u + Z.max b 0
        /\ u_last_daily_bonus u1 = Some (Calendar.datetime_text now))
  /\ (exists u2,
        Store.select_user user_id s2 = Some u2
        /\ u_points u2 = u_points u + 2 * Z.max b 0
        /\ u_last_daily_bonus u2 = Some (Calendar.datetime_text again)).
Proof.
  intros H Hu Hstamp Hc _ _ first second s1 s2.
  subst first second s1 s2. unfold Bot.value, Bot.state_after.
  destruct (claim_daily_bonus_pays s now user_id u b H Hu Hstamp Hc)
    as (s1 & u1 & E1 & Hu1 & Hp1 & Hl1 & H1 & Hset1 & Hb1).
  rewrite E1. cbn [fst snd].
  assert (Hc1 : Ledger.configured int "daily_bonus_points"
                  Bot.daily_bonus_points s1 b)
    by (now apply (configured_same _ _ s)).
  destruct (claim_daily_bonus_pays s1 again user_id u1 b H1 Hu1
              (or_intror (ex_intro _ now Hl1)) Hc1)
    as (s2 & u2 & E2 & Hu2 & Hp2 & Hl2 & _).
  rewrite E2. cbn [fst snd].
  split; [reflexivity|]. split; [reflexivity|]. split.
  - exists u1. now repeat split.
  - exists u2. split; [exact Hu2|]. split; [lia | exact Hl2].
Qed.

End DailyBonus.

(** User 10 has claimed the bonus of 10 points once (a balance of 60 and a
    stamp of that moment) and claims it twice more at the same moment. *)
Lemma daily_bonus_is_paid_again_witness :
  let claim := PointsManager.claim_daily_bonus Example.int 5000000 10 in
  let s := Bot.state_after claim Example.state0 in
  let u := mk_user 10 "ann" "Ann" "" 100 0 0 60 None 0 0 None
             (Some (Calendar.datetime_text 5000000)) 0 in
  Bot.no_faults s
  /\ Store.select_user 10 s = Some u
  /\ (exists t, u_last_daily_bonus u = Some (Calendar.datetime_text t))
  /\ Ledger.configured Example.int "daily_bonus_points"
       Bot.daily_bonus_points s 10
  /\ Int64.fits 10
  /\ Int64.fits (u_points u + 2 * Z.max 10 0)
  /\ Bot.value claim s = Bot.Done (Some 10)
  /\ Bot.value claim (Bot.state_after claim s) = Bot.Done (Some 10)
  /\ exists u2,
       Store.select_user 10
         (Bot.state_after claim (Bot.state_after claim s)) = Some u2
       /\ u_points u2 = 60 + 2 * Z.max 10 0.
Proof.
  intros claim s u.
  assert (H : Bot.no_faults s) by (intro i; reflexivity).
  assert (Hu : Store.select_user 10 s = Some u) by reflexivity.
  assert (Hstamp : exists t,
             u_last_daily_bonus u = Some (Calendar.datetime_text t))
    by (now exists 5000000).
  assert (Hc : Ledger.configured Example.int "daily_bonus_points"
                 Bot.daily_bonus_points s 10) by reflexivity.
  assert (Hb : Int64.fits 10) by (unfold Int64.fits; lia).
  assert (Hsum : Int64.fits (u_points u + 2 * Z.max 10 0))
    by (unfold Int64.fits; cbn; lia).
  destruct (daily_bonus_is_paid_again Example.int s 5000000 5000000 10 u 10
              H Hu (or_intror Hstamp) Hc Hb Hsum)
    as (E1 & E2 & _ & (u2 & Hu2 & Hp2 & _)).
  split; [exact H|]. split; [exact Hu|]. split; [exact Hstamp|].
  split; [exact Hc|]. split; [exact Hb|]. split; [exact Hsum|].
  split; [exact E1|]. split; [exact E2|].
  exists u2. split; [exact Hu2 | exact Hp2].
Defined.

(** ** Countries and the catalogue of numbers *)

Lemma next_id_positive {R : Type} (id : R -> Z) t : 0 < Store.next_id id t.
Proof.
  unfold Store.next_id.
  assert (0 <= fold_right (fun r m => Z.max (id r) m) 0 t); [|lia].
  induction t as [|x t IH]; cbn; lia.
Qed.

Lemma find_fresh_last {R : Type} (id : R -> Z) t x :
  id x = Store.next_id id t ->
  find (fun r => id r =? id x) (t ++ [x]) = Some x.
Proof.
  intros Hx. rewrite find_app.
  destruct (find (fun r => id r =? id x) t) as [r|] eqn:E.
  - apply find_some in E as [Hin E]. apply Z.eqb_eq in E.
    pose proof (next_id_fresh id t r Hin). lia.
  - cbn. now rewrite Z.eqb_refl.
Qed.

(** X16 (add_country): a name that is already in the table is refused and
    nothing is written; a new name gets a row with a positive id larger
    than every id of the table, which [get_country] then returns, active
    and with the platform [Telegram]. *)
Theorem add_country_outcomes s admin_id name flag :
  Bot.no_faults s ->
  let r := Bot.value (Catalogue.add_country admin_id name flag) s in
  let s' := Bot.state_after (Catalogue.add_country admin_id name flag) s in
  (existsb (fun c => String.eqb (c_name c) name) (Bot.countries s) = true ->
   r = Bot.Done None /\ Ledger.same_tables s' s)
  /\ (existsb (fun c => String.eqb (c_name c) name) (Bot.countries s)
      = false ->
      exists id,
        r = Bot.Done (Some id) /\ 0 < id
        /\ (forall c, In c (Bot.countries s) -> c_id c < id)
        /\ Bot.countries s'
           = Bot.countries s ++ [mk_country id name flag "Telegram" 1]
        /\ Bot.value (Catalogue.get_country id) s'
           = Bot.Done (Some (mk_country id name flag "Telegram" 1))).
Proof.
  intros H r s'. subst r s'. unfold Bot.value, Bot.state_after.
  set (id := Store.next_id c_id (Bot.countries s)).
  assert (Hrun : Catalogue.add_country admin_id name flag s
                 = if existsb (fun c => String.eqb (c_name c) name)
                        (Bot.countries s)
                   then (Bot.Done None, Store.next_call s)
                   else (Bot.Done (Some id),
                         Bot.with_world
                           (Database.next_call
                              (Database.commit
                                 (Sql.insert_log admin_id "COUNTRY_ADDED"
                                    ("ID: " ++ Py.str_int id ++ ", Name: "
                                       ++ name)%string (db (Bot.world s)))
                                 (Database.next_call (Bot.world s))))
                           (Bot.with_countries
                              (Bot.countries s
                                 ++ [mk_country id name flag "Telegram" 1])
                              s))).
  { unfold Catalogue.add_country, Bot.try_except. unfold Bot.bind at 1.
    rewrite bot_execute_insert_ok by assumption.
    unfold Store.insert_country.
    destruct (existsb _ (Bot.countries s)); [reflexivity|].
    unfold Bot.bind. rewrite bot_log_action_ok by auto with bot.
    reflexivity. }
  rewrite Hrun. split; intros E; rewrite E; cbn [fst snd].
  - split; [reflexivity | apply same_tables_next].
  - exists id. split; [reflexivity|].
    split; [apply next_id_positive|].
    split; [intros c Hc; now apply next_id_fresh|].
    split; [reflexivity|].
    unfold Catalogue.get_country.
    rewrite bot_fetchone_ok by (intro i; apply H). cbn [fst]. f_equal.
    unfold Store.select_country.
    cbn [Bot.countries Bot.with_world Store.next_call Bot.with_countries].
    exact (find_fresh_last c_id (Bot.countries s)
             (mk_country id name flag "Telegram" 1) eq_refl).
Qed.

Lemma add_country_outcomes_witness :
  Bot.no_faults Example.state0
  /\ Bot.value (Catalogue.add_country 1 "Egypt" "EG") Example.state0
     = Bot.Done None
  /\ exists id,
       Bot.value (Catalogue.add_country 1 "Peru" "PE") Example.state0
       = Bot.Done (Some id) /\ 0 < id.
Proof.
  split; [intro i; reflexivity|].
  destruct (add_country_outcomes Example.state0 1 "Egypt" "EG"
              (fun i => eq_refl)) as [Hdup _].
  destruct (add_country_outcomes Example.state0 1 "Peru" "PE"
              (fun i => eq_refl)) as [_ Hnew].
  split; [exact (proj1 (Hdup eq_refl))|].
  destruct (Hnew eq_refl) as (id & E & Hpos & _).
  exists id. now split.
Defined.

(** A reservation in a world without faults, step by step. *)
Lemma initialize_ok now uuid user_id number_id w nd :
  fault_free w ->
  Sql.select_active_number number_id (db w) = Some nd ->
  exists w',
    NumberManager.initialize_number_request now uuid user_id number_id w
    = (Ok (Some (NumberManager.mk_request_data number_id (n_number nd)
                   (n_platform nd) uuid
                   (strftime (now + minutes
                                      NumberManager.request_expiry_minutes)))),
       w')
    /\ db w' = Effect.initiated now uuid user_id number_id (db w)
    /\ fault_free w'.
Proof.
  intros H Hsel. unfold NumberManager.initialize_number_request.
  unfold bind at 1. rewrite fetchone_ok by assumption. rewrite Hsel.
  unfold try_except, bind, Database.log_action.
  rewrite execute_ok by auto with world.
  rewrite execute_ok by auto with world.
  rewrite execute_ok by auto with world.
  eexists. split; [reflexivity|]. split; [reflexivity|].
  auto with world.
Qed.

Lemma add_number_ok now admin_id country_id number platform is_premium
    premium_pattern s :
  Bot.no_faults s ->
  Store.select_country country_id s <> None ->
  exists s',
    Catalogue.add_number now admin_id country_id number platform is_premium
      premium_pattern s
    = (Bot.Done (Some (Store.next_id n_id (Bot.numbers_of s))), s')
    /\ Bot.numbers_of s'
       = Bot.numbers_of s
           ++ [mk_number (Store.next_id n_id (Bot.numbers_of s)) country_id
                 number platform admin_id (strftime now)
                 (if is_premium then 1 else 0) premium_pattern 0 None 1 None]
    /\ number_requests (db (Bot.world s'))
       = number_requests (db (Bot.world s))
    /\ Bot.no_faults s'.
Proof.
  intros H Hc. unfold Catalogue.add_number, Bot.try_except.
  unfold Bot.bind at 1. rewrite bot_execute_insert_ok by assumption.
  unfold Store.insert_number.
  destruct (Store.select_country country_id s); [|congruence].
  unfold Bot.bind. rewrite bot_log_action_ok by auto with bot.
  eexists. split; [reflexivity|]. split; [reflexivity|].
  split; [reflexivity | intro i; apply H].
Qed.

(** X17 (add_number): a number added to a country that exists gets a
    positive id larger than every id of the table, is active and unused,
    and a registered user can reserve it at once: the reservation returns
    the number and the platform that were entered. *)
Theorem added_number_can_be_reserved s now admin_id country_id number
    platform is_premium premium_pattern later uuid user_id :
  Bot.no_faults s ->
  Store.select_country country_id s <> None ->
  Store.select_user user_id s <> None ->
  exists id,
    Bot.value (Catalogue.add_number now admin_id country_id number platform
                 is_premium premium_pattern) s = Bot.Done (Some id)
    /\ 0 < id
    /\ (forall n, In n (Bot.numbers_of s) -> n_id n < id)
    /\ (let s' := Bot.state_after
                    (Catalogue.add_number now admin_id country_id number
                       platform is_premium premium_pattern) s in
        View.available id (db (Bot.world s')) = true
        /\ View.times_used id (db (Bot.world s')) = Some 0
        /\ Bot.value
             (Bot.lift
                (NumberManager.initialize_number_request later uuid user_id
                   id)) s'
           = Bot.Done
               (Some (NumberManager.mk_request_data id number platform uuid
                        (strftime (later + 5 * 60 * 1000000))))).
Proof.
  intros H Hc _.
  destruct (add_number_ok now admin_id country_id number platform is_premium
              premium_pattern s H Hc) as (s1 & E & Hn & _ & H1).
  set (id := Store.next_id n_id (Bot.numbers_of s)) in *.
  exists id. unfold Bot.value, Bot.state_after. rewrite E. cbn [fst snd].
  split; [reflexivity|]. split; [apply next_id_positive|].
  split; [intros n Hin; now apply next_id_fresh|].
  set (row := mk_number id country_id number platform admin_id
                (strftime now) (if is_premium then 1 else 0)
                premium_pattern 0 None 1 None) in *.
  assert (Hrow : View.number_by_id id (db (Bot.world s1)) = Some row).
  { unfold View.number_by_id. fold (Bot.numbers_of s1). rewrite Hn.
    exact (find_fresh_last n_id (Bot.numbers_of s) row eq_refl). }
  split; [|split].
  - unfold View.available. now rewrite Hrow.
  - unfold View.times_used. now rewrite Hrow.
  - assert (Hsel : Sql.select_active_number id (db (Bot.world s1))
                   = Some row).
    { unfold Sql.select_active_number. fold (Bot.numbers_of s1). rewrite Hn.
      rewrite find_app.
      destruct (find (Sql.active_number id) (Bot.numbers_of s)) as [n|]
        eqn:En.
      - apply find_some in En as [Hin En]. unfold Sql.active_number in En.
        apply andb_true_iff in En as [En _]. apply Z.eqb_eq in En.
        pose proof (next_id_fresh n_id (Bot.numbers_of s) n Hin).
        fold id in H0. lia.
      - cbn. unfold Sql.active_number. cbn. now rewrite Z.eqb_refl. }
    destruct (initialize_ok later uuid user_id id (Bot.world s1) row H1 Hsel)
      as (w' & Ei & _).
    unfold Bot.lift. now rewrite Ei.
Qed.

Lemma added_number_can_be_reserved_witness :
  Bot.no_faults Example.state0
  /\ Store.select_country 8 Example.state0 <> None
  /\ Store.select_user 10 Example.state0 <> None
  /\ exists id,
       Bot.value (Catalogue.add_number 5000000 1 8 "+96890000" "Telegram"
                    false None) Example.state0 = Bot.Done (Some id)
       /\ 0 < id.
Proof.
  split; [intro i; reflexivity|]. split; [discriminate|].
  split; [discriminate|].
  destruct (added_number_can_be_reserved Example.state0 5000000 1 8
              "+96890000" "Telegram" false None 6000000 "u" 10
              (fun i => eq_refl))
    as (id & E & Hpos & _); [discriminate | discriminate |].
  exists id. now split.
Defined.

(** X18 (add_number, failures): a number for a country that does not
    exist is refused (the foreign key) and nothing is written.  When the
    number is inserted but the log row fails, the answer is [None] all the
    same, although the number is in the table. *)
Theorem add_number_refusals s now admin_id country_id number platform
    is_premium premium_pattern :
  Store.failing s = false ->
  let r := Bot.value (Catalogue.add_number now admin_id country_id number
                        platform is_premium premium_pattern) s in
  let s' := Bot.state_after
              (Catalogue.add_number now admin_id country_id number platform
                 is_premium premium_pattern) s in
  (Store.select_country country_id s = None ->
   r = Bot.Done None /\ Ledger.same_tables s' s)
  /\ (Store.select_country country_id s <> None ->
      faults (Bot.world s) (S (db_calls (Bot.world s))) = true ->
      r = Bot.Done None
      /\ List.length (Bot.numbers_of s')
         = S (List.length (Bot.numbers_of s))).
Proof.
  intros Hf r s'. subst r s'. unfold Bot.value, Bot.state_after.
  unfold Catalogue.add_number, Bot.try_except, Bot.bind,
    Store.execute_insert, Store.insert_number.
  rewrite Hf. split.
  - intros ->. split; [reflexivity | apply same_tables_next].
  - intros Hc Hlog.
    destruct (Store.select_country country_id s); [|congruence].
    unfold Store.log_action, Bot.lift, Database.log_action,
      Database.execute.
    cbn [Bot.world Store.next_call Bot.with_world Bot.with_numbers faults
           db_calls Database.next_call Database.commit].
    rewrite Hlog. cbn [fst snd Bot.ret]. split; [reflexivity|].
    unfold Bot.numbers_of. cbn. rewrite length_app. cbn. lia.
Qed.

Lemma add_number_refusals_witness :
  Store.failing Example.state0 = false
  /\ Store.select_country 99 Example.state0 = None
  /\ Bot.value (Catalogue.add_number 5000000 1 99 "+1" "Telegram" false None)
       Example.state0 = Bot.Done None.
Proof.
  split; [reflexivity|]. split; [reflexivity|].
  exact (proj1 (proj1 (add_number_refusals Example.state0 5000000 1 99 "+1"
                         "Telegram" false None eq_refl) eq_refl)).
Defined.

(** ** The search for premium numbers *)

Lemma like_percent_all s : Text.like "%" s = true.
Proof.
  cbn [Text.like]. replace (Ascii.eqb "%" "%") with true by reflexivity.
  generalize false at 2 as inside.
  induction s as [|c s IH]; intros inside; [reflexivity|].
  destruct (inside && Text.continuation c); [apply IH|].
  rewrite IH. apply orb_true_r.
Qed.

Lemma replace_append old new a b :
  Text.replace old new (a ++ b)%string
  = (Text.replace old new a ++ Text.replace old new b)%string.
Proof.
  induction a as [|c a IH]; [reflexivity|].
  cbn [append Text.replace]. now rewrite IH.
Qed.

Lemma alphabet_complete c : In c Text.alphabet.
Proof.
  unfold Text.alphabet. rewrite <- (ascii_nat_embedding c).
  apply in_map, in_seq. pose proof (nat_ascii_bounded c). lia.
Qed.

(** What [lower] does, byte by byte: two bytes are folded to the same
    byte exactly when they are equal or the two cases of one letter, and
    the bytes [%], [_] and [*] are the case of no other byte. *)
Lemma lower_same_letter c d :
  Ascii.eqb (Text.lower c) (Text.lower d) = Text.same_letter c d.
Proof.
  assert (H : forallb (fun c =>
                forallb (fun d =>
                  Bool.eqb (Ascii.eqb (Text.lower c) (Text.lower d))
                    (Text.same_letter c d)) Text.alphabet) Text.alphabet
              = true) by (vm_compute; reflexivity).
  rewrite forallb_forall in H. specialize (H c (alphabet_complete c)).
  rewrite forallb_forall in H. specialize (H d (alphabet_complete d)).
  now apply Bool.eqb_prop.
Qed.

Lemma same_letter_mark c d :
  Text.same_letter c d = true ->
  Ascii.eqb c "%" = Ascii.eqb d "%" /\ Ascii.eqb c "_" = Ascii.eqb d "_"
  /\ Ascii.eqb c "*" = Ascii.eqb d "*" /\ Text.lower c = Text.lower d.
Proof.
  assert (H : forallb (fun c =>
                forallb (fun d =>
                  implb (Text.same_letter c d)
                    (Bool.eqb (Ascii.eqb c "%") (Ascii.eqb d "%")
                     && Bool.eqb (Ascii.eqb c "_") (Ascii.eqb d "_")
                     && Bool.eqb (Ascii.eqb c "*") (Ascii.eqb d "*")
                     && Ascii.eqb (Text.lower c) (Text.lower d)))
                  Text.alphabet) Text.alphabet
              = true) by (vm_compute; reflexivity).
  rewrite forallb_forall in H. specialize (H c (alphabet_complete c)).
  rewrite forallb_forall in H. specialize (H d (alphabet_complete d)).
  intros E. rewrite E in H. cbn [implb] in H.
  rewrite !andb_true_iff in H. destruct H as [[[H1 H2] H3] H4].
  repeat split; try now apply Bool.eqb_prop.
  now apply Ascii.eqb_eq.
Qed.

(** LIKE does not tell the cases of an ASCII letter of its pattern
    apart. *)
Lemma like_same_text p : forall q s,
  Text.same_text p q = true -> Text.like p s = Text.like q s.
Proof.
  induction p as [|c p IH]; intros [|d q] s E; try discriminate;
    [reflexivity|].
  cbn [Text.same_text] in E. apply andb_true_iff in E as [Ec Ep].
  destruct (same_letter_mark c d Ec) as (E1 & E2 & _ & El).
  cbn [Text.like]. rewrite <- E1, <- E2.
  destruct (Ascii.eqb c "%").
  - generalize false as inside.
    induction s as [|e s IHs]; intros inside; [now apply IH|].
    destruct (inside && Text.continuation e); [apply IHs|].
    now rewrite (IH q (String e s) Ep), IHs.
  - destruct (Ascii.eqb c "_").
    + destruct (Text.skip_char s); [now apply IH | reflexivity].
    + destruct s as [|e s]; [reflexivity|]. rewrite El. f_equal.
      now apply IH.
Qed.

Lemma replace_same_text p : forall q,
  Text.same_text p q = true ->
  Text.same_text (Text.replace "*" "%" p) (Text.replace "*" "%" q) = true.
Proof.
  induction p as [|c p IH]; intros [|d q] E; try discriminate;
    [reflexivity|].
  cbn [Text.same_text] in E. apply andb_true_iff in E as [Ec Ep].
  destruct (same_letter_mark c d Ec) as (_ & _ & E3 & _).
  cbn [Text.replace Text.same_text]. rewrite <- E3.
  rewrite (IH q Ep), andb_true_r.
  destruct (Ascii.eqb c "*"); [reflexivity | exact Ec].
Qed.

Lemma same_text_length p : forall q,
  Text.same_text p q = true -> String.length q = String.length p.
Proof.
  induction p as [|c p IH]; intros [|d q] E; try discriminate;
    [reflexivity|].
  cbn [Text.same_text] in E. apply andb_true_iff in E as [_ Ep].
  cbn. now rewrite (IH q Ep).
Qed.

(** A pattern without wildcard followed by a star is a prefix test. *)
Lemma like_prefix p : forall s,
  Text.plain p = true ->
  Text.like (Text.replace "*" "%" (p ++ "*")%string) s
  = Text.starts_with p s.
Proof.
  induction p as [|c p IH]; intros s Hp.
  - destruct s; [reflexivity|]. apply (like_percent_all (String a s)).
  - cbn [Text.plain] in Hp. rewrite !andb_true_iff, !negb_true_iff in Hp.
    destruct Hp as [[[Hc1 Hc2] Hc3] Hp].
    cbn [append Text.replace]. rewrite Hc3.
    cbn [Text.like]. rewrite Hc1, Hc2.
    destruct s as [|d s]; [reflexivity|].
    cbn [Text.starts_with]. now rewrite IH, lower_same_letter.
Qed.

Lemma length_replace old new a :
  String.length (Text.replace old new a) = String.length a.
Proof. induction a as [|c a IH]; cbn; [reflexivity | now rewrite IH]. Qed.

Lemma length_star a :
  String.length (a ++ "*")%string = S (String.length a).
Proof. induction a as [|c a IH]; cbn; [reflexivity | now rewrite IH]. Qed.

Lemma select_premium_In country_id sql_pattern s n :
  Store.like_pattern_ok sql_pattern = true ->
  In n (Store.select_premium country_id sql_pattern s)
  <-> In n (Bot.numbers_of s)
      /\ n_country_id n = country_id /\ n_is_active n = 1
      /\ n_is_premium n = 1 /\ Text.like sql_pattern (n_number n) = true.
Proof.
  intros Hok.
  unfold Store.select_premium. rewrite order_by_In, filter_In.
  unfold Store.premium_match, Sql.in_country.
  rewrite Hok, !andb_true_iff, !Z.eqb_eq. tauto.
Qed.

Lemma select_premium_sorted country_id sql_pattern s :
  StronglySorted (fun a b => n_added_at b <= n_added_at a)
    (Store.select_premium country_id sql_pattern s).
Proof.
  apply Sorted_StronglySorted; [intros a b c; lia|].
  unfold Store.select_premium.
  assert (Ht : forall x y, Store.added_later x y = false ->
                           Store.added_later y x = true).
  { unfold Store.added_later. intros x y E. apply Z.leb_gt in E.
    apply Z.leb_le. lia. }
  pose proof (order_by_sorted Store.added_later Ht
                (filter (Store.premium_match country_id sql_pattern)
                   (Bot.numbers_of s))) as Hs.
  induction Hs as [|x l Hl IH Hd]; constructor; [exact IH|].
  destruct Hd; constructor. now apply Z.leb_le.
Qed.

(** X19 (search_premium_numbers): for a pattern of at most 50000 bytes
    the search returns the id, the text and the platform of the numbers
    that are premium, active and of the country asked for, exactly those
    whose text matches the pattern with every [*] read as [%], most
    recently added first; the pattern [*] returns all of them, and a
    pattern that differs in the case of ASCII letters only returns the
    same. *)
Theorem premium_search_results s country_id pattern :
  Store.failing s = false ->
  Z.of_nat (String.length pattern) <= 50000 ->
  exists found,
    Bot.value (Catalogue.search_premium_numbers country_id pattern) s
    = Bot.Done (map (fun n => (n_id n, n_number n, n_platform n)) found)
    /\ (forall n,
          In n found
          <-> In n (Bot.numbers_of s)
              /\ n_country_id n = country_id /\ n_is_active n = 1
              /\ n_is_premium n = 1
              /\ Text.like (Text.replace "*" "%" pattern) (n_number n)
                 = true)
    /\ StronglySorted (fun a b => n_added_at b <= n_added_at a) found
    /\ (pattern = "*" ->
        Permutation found
          (filter (fun n => (n_country_id n =? country_id)
                            && (n_is_active n =? 1)
                            && (n_is_premium n =? 1))
             (Bot.numbers_of s)))
    /\ (forall other,
          Text.same_text pattern other = true ->
          Bot.value (Catalogue.search_premium_numbers country_id other) s
          = Bot.value (Catalogue.search_premium_numbers country_id pattern)
              s).
Proof.
  intros Hf Hlen.
  assert (Hok : Store.like_pattern_ok (Text.replace "*" "%" pattern) = true).
  { unfold Store.like_pattern_ok. rewrite length_replace.
    apply Z.leb_le. lia. }
  exists (Store.select_premium country_id (Text.replace "*" "%" pattern) s).
  split; [|split; [|split; [|split]]].
  - unfold Bot.value, Catalogue.search_premium_numbers.
    now rewrite fetchall_at.
  - intros n. now apply select_premium_In.
  - apply select_premium_sorted.
  - intros ->. unfold Store.select_premium.
    rewrite <- order_by_perm. unfold Store.premium_match, Sql.in_country.
    erewrite filter_ext; [reflexivity|]. intros n. rewrite Hok.
    cbn [Text.replace].
    replace (Ascii.eqb "*" "*") with true by reflexivity.
    now rewrite like_percent_all, !andb_true_r.
  - intros other Hsame.
    unfold Bot.value, Catalogue.search_premium_numbers.
    rewrite !fetchall_at by assumption. cbn [fst]. do 2 f_equal.
    unfold Store.select_premium. f_equal. apply filter_ext. intros n.
    unfold Store.premium_match, Store.like_pattern_ok.
    rewrite !length_replace, (same_text_length _ _ Hsame).
    f_equal. symmetry. now apply like_same_text, replace_same_text.
Qed.

Lemma premium_search_results_witness :
  Store.failing Example.state0 = false
  /\ Z.of_nat (String.length "*77*") <= 50000
  /\ Bot.value (Catalogue.search_premium_numbers 7 "*77*") Example.state0
     = Bot.Done [(2, "+15550777", "WhatsApp")]
  /\ exists found,
       Bot.Done [(2, "+15550777", "WhatsApp")]
       = Bot.Done (map (fun n => (n_id n, n_number n, n_platform n)) found)
       /\ (In Scenario.number2 found <-> True)
       /\ ~ In Scenario.number1 found.
Proof.
  split; [reflexivity|]. split; [cbn; lia|]. split; [reflexivity|].
  destruct (premium_search_results Example.state0 7 "*77*" eq_refl
              ltac:(cbn; lia))
    as (found & E & Hin & _).
  exists found. split; [exact E|]. split.
  - split; [tauto|]. intros _. apply Hin. cbn. repeat split; tauto.
  - intros Hn. apply Hin in Hn as (_ & _ & _ & Hp & _). discriminate.
Defined.

(** X20 (search by prefix): a pattern made of a text without [*], [%] and
    [_], followed by [*], finds the premium numbers of the country that
    start with that text, where a letter of [A] to [Z] and the same letter
    of [a] to [z] count as equal ([Text.starts_with]), as long as the
    pattern has at most 50000 bytes. *)
Theorem premium_search_by_prefix s country_id prefix :
  Store.failing s = false ->
  Text.plain prefix = true ->
  Z.of_nat (String.length prefix) < 50000 ->
  exists found,
    Bot.value (Catalogue.search_premium_numbers country_id
                 (prefix ++ "*")%string) s
    = Bot.Done (map (fun n => (n_id n, n_number n, n_platform n)) found)
    /\ (forall n,
          In n found
          <-> In n (Bot.numbers_of s)
              /\ n_country_id n = country_id /\ n_is_active n = 1
              /\ n_is_premium n = 1
              /\ Text.starts_with prefix (n_number n) = true).
Proof.
  intros Hf Hp Hlen.
  exists (Store.select_premium country_id
            (Text.replace "*" "%" (prefix ++ "*")%string) s).
  split.
  - unfold Bot.value, Catalogue.search_premium_numbers.
    now rewrite fetchall_at.
  - intros n. rewrite select_premium_In.
    + now rewrite like_prefix.
    + unfold Store.like_pattern_ok. rewrite length_replace, length_star.
      apply Z.leb_le. lia.
Qed.

(** The prefix [+1555] in the catalogue of [state0], and the prefix [vip]
    where a premium number is written [VIP-777]. *)
Lemma premium_search_by_prefix_witness :
  Store.failing Example.state0 = false
  /\ Text.plain "+1555" = true
  /\ Z.of_nat (String.length "+1555") < 50000
  /\ Bot.value (Catalogue.search_premium_numbers 7 "+1555*")
       Example.state0
     = Bot.Done [(2, "+15550777", "WhatsApp")]
  /\ (exists found,
        Bot.Done [(2, "+15550777", "WhatsApp")]
        = Bot.Done (map (fun n => (n_id n, n_number n, n_platform n))
                      found)
        /\ In Scenario.number2 found)
  /\ Store.failing Example.state_vanity = false
  /\ Text.plain "vip" = true
  /\ Z.of_nat (String.length "vip") < 50000
  /\ Bot.value (Catalogue.search_premium_numbers 7 "vip*")
       Example.state_vanity
     = Bot.Done [(4, "VIP-777", "Telegram")]
  /\ (exists found,
        Bot.Done [(4, "VIP-777", "Telegram")]
        = Bot.Done (map (fun n => (n_id n, n_number n, n_platform n))
                      found)
        /\ In Example.vanity found).
Proof.
  split; [reflexivity|]. split; [reflexivity|]. split; [cbn; lia|].
  split; [reflexivity|]. split.
  - destruct (premium_search_by_prefix Example.state0 7 "+1555" eq_refl
                eq_refl ltac:(cbn; lia)) as (found & E & Hin).
    exists found. split; [exact E|].
    apply Hin. cbn. repeat split; tauto.
  - split; [reflexivity|]. split; [reflexivity|]. split; [cbn; lia|].
    split; [reflexivity|].
    destruct (premium_search_by_prefix Example.state_vanity 7 "vip" eq_refl
                eq_refl ltac:(cbn; lia)) as (found & E & Hin).
    exists found. split; [exact E|].
    apply Hin. cbn. repeat split; tauto.
Defined.

(** ** The menu of countries *)

Lemma select_offered_In s c k :
  In (c, k) (Store.select_offered_countries s)
  <-> In c (Bot.countries s) /\ c_is_active c = 1
      /\ k = Sql.count_numbers (c_id c) (db (Bot.world s)) /\ 0 < k.
Proof.
  unfold Store.select_offered_countries. rewrite in_map_iff. split.
  - intros (c' & [= <- <-] & Hin).
    apply order_by_In, filter_In in Hin as [Hin Ho].
    unfold Store.offered in Ho.
    apply andb_true_iff in Ho as [Ha Hk].
    apply Z.eqb_eq in Ha. apply Z.ltb_lt in Hk.
    unfold Store.number_count in *. tauto.
  - intros (Hin & Ha & -> & Hk). exists c. split; [reflexivity|].
    apply order_by_In, filter_In. split; [exact Hin|].
    unfold Store.offered, Store.number_count.
    apply andb_true_iff. split; [now apply Z.eqb_eq | now apply Z.ltb_lt].
Qed.

(** X21 (get_all_countries): the menu gives the id, the name and the flag
    of exactly the active countries that have at least one active number,
    each with the count of its active numbers (premium ones included), in
    the order of their names. *)
Theorem countries_menu s :
  Store.failing s = false ->
  exists offers,
    Bot.value Catalogue.get_all_countries s
    = Bot.Done (map (fun o => (c_id (fst o), c_name (fst o), c_flag (fst o),
                               snd o)) offers)
    /\ (forall c k,
          In (c, k) offers
          <-> In c (Bot.countries s) /\ c_is_active c = 1
              /\ k = Z.of_nat
                       (List.length
                          (filter (fun n => (n_country_id n =? c_id c)
                                            && (n_is_active n =? 1))
                             (Bot.numbers_of s)))
              /\ 0 < k)
    /\ Sorted (fun a b => String.leb (c_name (fst a)) (c_name (fst b))
                          = true) offers.
Proof.
  intros Hf. exists (Store.select_offered_countries s).
  split; [|split].
  - unfold Bot.value, Catalogue.get_all_countries. now rewrite fetchall_at.
  - intros c k. apply select_offered_In.
  - unfold Store.select_offered_countries.
    assert (Ht : forall x y, Store.name_before x y = false ->
                             Store.name_before y x = true).
    { unfold Store.name_before. intros x y E.
      destruct (String.leb_total (c_name x) (c_name y)); congruence. }
    pose proof (order_by_sorted Store.name_before Ht
                  (filter (Store.offered s) (Bot.countries s))) as Hs.
    induction Hs as [|x l Hl IH Hd]; cbn; constructor; [exact IH|].
    destruct Hd; cbn; constructor. exact H.
Qed.

Lemma countries_menu_witness :
  Store.failing Example.state0 = false
  /\ Bot.value Catalogue.get_all_countries Example.state0
     = Bot.Done [(7, "Egypt", "EG", 3)]
  /\ exists offers,
       Bot.Done [(7, "Egypt", "EG", 3)]
       = Bot.Done (map (fun o => (c_id (fst o), c_name (fst o),
                                  c_flag (fst o), snd o)) offers)
       /\ In (Example.egypt, 3) offers
       /\ forall k, ~ In (Example.oman, k) offers.
Proof.
  split; [reflexivity|]. split; [reflexivity|].
  destruct (countries_menu Example.state0 eq_refl) as (offers & E & Hin & _).
  exists offers. split; [exact E|]. split.
  - apply Hin. cbn. repeat split; tauto.
  - intros k Hk. apply Hin in Hk as (_ & _ & -> & Hk). discriminate.
Defined.

Lemma filter_held country_id t u k l :
  filter (Sql.in_country country_id) (map (Sql.hold_row t u k) l)
  = filter (fun n => Sql.in_country country_id n && negb (n_id n =? k)) l.
Proof.
  induction l as [|n l IH]; [reflexivity|].
  cbn [map filter]. rewrite IH. unfold Sql.hold_row.
  destruct (n_id n =? k); cbn [negb].
  - unfold Sql.in_country at 1. cbn [n_is_active n_country_id].
    change (0 =? 1) with false. now rewrite !andb_false_r.
  - now rewrite andb_true_r.
Qed.

Lemma filter_split_length {A : Type} (p q : A -> bool) l :
  (List.length (filter (fun x => p x && q x) l)
   + List.length (filter (fun x => p x && negb (q x)) l))%nat
  = List.length (filter p l).
Proof.
  induction l as [|x l IH]; [reflexivity|].
  cbn [filter]. destruct (p x), (q x); cbn; lia.
Qed.

(** X22 (reservation and menu): when the number that a registered user
    reserves was the only active number of its country, the country is no
    longer in the menu of countries after the reservation. *)
Theorem reserving_last_number_hides_country s now uuid user_id number_id
    nd :
  Bot.no_faults s ->
  Store.select_user user_id s <> None ->
  Sql.select_active_number number_id (db (Bot.world s)) = Some nd ->
  Sql.count_numbers (n_country_id nd) (db (Bot.world s)) = 1 ->
  let s' := Bot.state_after
              (Bot.lift
                 (NumberManager.initialize_number_request now uuid user_id
                    number_id)) s in
  exists offers,
    Bot.value Catalogue.get_all_countries s'
    = Bot.Done (map Catalogue.offer_item offers)
    /\ forall c k, In (c, k) offers -> c_id c <> n_country_id nd.
Proof.
  intros H _ Hsel Hone s'.
  destruct (initialize_ok now uuid user_id number_id (Bot.world s) nd H Hsel)
    as (w' & E & Hdb & Hw').
  assert (Es : s' = Bot.with_world w' s).
  { subst s'. unfold Bot.state_after, Bot.lift. now rewrite E. }
  exists (Store.select_offered_countries s'). split.
  - unfold Bot.value, Catalogue.get_all_countries.
    rewrite bot_fetchall_ok; [reflexivity|]. rewrite Es. exact Hw'.
  - intros c k Hin Hc. apply select_offered_In in Hin as (_ & _ & -> & Hk).
    rewrite Hc, Es in Hk. cbn [Bot.world Bot.with_world] in Hk.
    rewrite Hdb in Hk. unfold Sql.count_numbers in Hk, Hone.
    cbn [numbers Effect.initiated Effect.number_held Effect.lease_inserted
           Sql.insert_log Sql.hold_number Sql.insert_request] in Hk.
    rewrite filter_held in Hk.
    pose proof (filter_split_length (Sql.in_country (n_country_id nd))
                  (fun n => negb (n_id n =? number_id))
                  (numbers (db (Bot.world s)))) as Hsplit.
    assert (Hnd : In nd
                    (filter (fun n => Sql.in_country (n_country_id nd) n
                                      && negb (negb (n_id n =? number_id)))
                       (numbers (db (Bot.world s))))).
    { apply find_some in Hsel as [Hin Ha]. apply filter_In.
      split; [exact Hin|]. unfold Sql.active_number in Ha.
      apply andb_true_iff in Ha as [Hid Hact].
      unfold Sql.in_country. now rewrite Z.eqb_refl, Hact, Hid. }
    destruct (filter (fun n => Sql.in_country (n_country_id nd) n
                               && negb (negb (n_id n =? number_id)))
                (numbers (db (Bot.world s)))) as [|x rest];
      [destruct Hnd|].
    cbn [List.length] in Hsplit. lia.
Qed.

Lemma reserving_last_number_hides_country_witness :
  Bot.no_faults (Bot.with_world Scenario.world0 Example.state0)
  /\ Store.select_user 10 (Bot.with_world Scenario.world0 Example.state0)
     <> None
  /\ Sql.select_active_number 1 (db Scenario.world0) = Some Scenario.number1
  /\ Sql.count_numbers 7 (db Scenario.world0) = 1
  /\ exists offers,
       Bot.value Catalogue.get_all_countries
         (Bot.state_after
            (Bot.lift
               (NumberManager.initialize_number_request 1000000 "a" 10 1))
            (Bot.with_world Scenario.world0 Example.state0))
       = Bot.Done (map Catalogue.offer_item offers)
       /\ forall c k, In (c, k) offers -> c_id c <> 7.
Proof.
  split; [intro i; reflexivity|]. split; [discriminate|].
  split; [reflexivity|]. split; [reflexivity|].
  exact (reserving_last_number_hides_country
           (Bot.with_world Scenario.world0 Example.state0) 1000000 "a" 10 1
           Scenario.number1 (fun i => eq_refl) ltac:(discriminate) eq_refl
           eq_refl).
Defined.

(** ** The PRO tier *)

Lemma pro_row_id f e k u : u_id (Store.pro_row f e k u) = u_id u.
Proof. unfold Store.pro_row. now destruct (u_id u =? k). Qed.

Lemma fault_free_subscriptions l s :
  Bot.no_faults s -> Bot.no_faults (Bot.with_pro_subscriptions l s).
Proof. intros H i. apply H. Qed.

#[local] Hint Resolve fault_free_subscriptions : bot.

Lemma deactivate_pro_ok k reason s :
  Bot.no_faults s ->
  exists s',
    ProManager.deactivate_pro k reason s = (Bot.Done true, s')
    /\ Bot.users s' = map (Store.pro_row 0 None k) (Bot.users s)
    /\ Bot.pro_subscriptions s'
       = map (Store.close_subscription_row k) (Bot.pro_subscriptions s)
    /\ Bot.no_faults s'.
Proof.
  intros H. unfold ProManager.deactivate_pro, Bot.try_except, Bot.bind.
  rewrite bot_execute_ok by assumption. cbn [Store.set_pro].
  rewrite bot_execute_ok by auto with bot. cbn [Store.close_subscriptions].
  rewrite bot_log_action_ok by auto with bot.
  eexists. split; [reflexivity|]. split; [reflexivity|].
  split; [reflexivity | intro i; apply H].
Qed.

Lemma activate_pro_ok now k duration method related s expiry :
  Bot.no_faults s ->
  Store.select_user k s <> None ->
  ProManager.add_days now duration = Some expiry ->
  exists s',
    ProManager.activate_pro now k duration method related s
    = (Bot.Done true, s')
    /\ Bot.users s'
       = map (Store.pro_row 1 (Some (strftime expiry)) k) (Bot.users s)
    /\ Bot.pro_subscriptions s'
       = Bot.pro_subscriptions s
           ++ [mk_subscription
                 (Store.next_id p_id (Bot.pro_subscriptions s)) k
                 (strftime now) (strftime expiry) duration method 1]
    /\ Bot.no_faults s'.
Proof.
  intros H Hu Hd. unfold ProManager.activate_pro, Bot.try_except.
  rewrite Hd. unfold Bot.bind.
  rewrite bot_execute_ok by assumption. cbn [Store.set_pro].
  rewrite bot_execute_ok by auto with bot.
  unfold Store.insert_subscription.
  change (Store.select_user k (Store.next_call ?x))
    with (Store.select_user k x).
  replace (Store.select_user k
             (Bot.with_users
                (map (Store.pro_row 1 (Some (strftime expiry)) k)
                   (Bot.users s)) s))
    with (option_map (Store.pro_row 1 (Some (strftime expiry)) k)
            (Store.select_user k s))
    by (symmetry; apply (find_key_map u_id), pro_row_id).
  destruct (Store.select_user k s); [|congruence]. cbn [option_map].
  rewrite bot_log_action_ok by auto with bot.
  eexists. split; [reflexivity|]. split; [reflexivity|].
  split; [reflexivity | intro i; apply H].
Qed.

Lemma is_pro_run now k s u :
  Bot.no_faults s ->
  Store.select_user k s = Some u ->
  exists s',
    ProManager.is_pro now k s
    = (Bot.Done ((u_is_pro u =? 1)
                 && match u_pro_expiry u with
                    | Some e => now <? strptime e
                    | None => false
                    end), s')
    /\ Bot.no_faults s'
    /\ ((u_is_pro u =? 1) = true ->
        forall e, u_pro_expiry u = Some e -> strptime e <= now ->
        Bot.users s' = map (Store.pro_row 0 None k) (Bot.users s)
        /\ Bot.pro_subscriptions s'
           = map (Store.close_subscription_row k) (Bot.pro_subscriptions s))
    /\ ((u_is_pro u =? 1) = false \/ u_pro_expiry u = None
        \/ (exists e, u_pro_expiry u = Some e /\ now < strptime e) ->
        Ledger.same_tables s' s).
Proof.
  intros H Hu. unfold ProManager.is_pro. unfold Bot.bind at 1.
  rewrite get_user_ok by assumption. rewrite Hu.
  destruct (u_is_pro u =? 1) eqn:Ef.
  2:{ eexists. split; [reflexivity|]. split; [auto with bot|].
      split; [discriminate|]. intros _. apply same_tables_next. }
  destruct (u_pro_expiry u) as [e|] eqn:Ee.
  2:{ eexists. split; [reflexivity|]. split; [auto with bot|].
      split; [intros _ e [=]|]. intros _. apply same_tables_next. }
  cbn [andb]. destruct (Z.ltb_spec now (strptime e)) as [Hlive | Hover].
  - eexists. split; [reflexivity|]. split; [auto with bot|].
    split; [intros _ e' [= <-]; lia|]. intros _. apply same_tables_next.
  - destruct (deactivate_pro_ok k "expired" (Store.next_call s))
      as (s1 & E & Hus & Hps & H1); [auto with bot|].
    unfold Bot.bind. rewrite E. exists s1. split; [reflexivity|].
    split; [exact H1|]. split.
    + intros _ e' _ _. now split.
    + intros [Hc | [Hc | (e' & [= <-] & Hc)]]; [discriminate..|lia].
Qed.

(** X23 (is_pro): a user counts as PRO exactly while the flag is set and
    the stored expiry lies after [now].  The first check after the expiry
    switches the subscription off: the flag and the expiry are cleared, the
    user's subscription rows are no longer active, the balance is kept; in
    all other cases the check writes nothing. *)
Theorem is_pro_checks_expiry s now user_id u :
  Bot.no_faults s ->
  Store.select_user user_id s = Some u ->
  let r := Bot.value (ProManager.is_pro now user_id) s in
  let s' := Bot.state_after (ProManager.is_pro now user_id) s in
  r = Bot.Done ((u_is_pro u =? 1)
                && match u_pro_expiry u with
                   | Some e => now <? strptime e
                   | None => false
                   end)
  /\ (u_is_pro u = 1 ->
      forall e, u_pro_expiry u = Some e -> strptime e <= now ->
      (exists u',
         Store.select_user user_id s' = Some u'
         /\ u_is_pro u' = 0 /\ u_pro_expiry u' = None
         /\ u_points u' = u_points u)
      /\ (forall p, In p (Bot.pro_subscriptions s') ->
          p_user_id p = user_id -> p_is_active p <> 1)
      /\ Bot.value (ProManager.is_pro now user_id) s' = Bot.Done false)
  /\ (u_is_pro u <> 1 \/ u_pro_expiry u = None
      \/ (exists e, u_pro_expiry u = Some e /\ now < strptime e) ->
      Ledger.same_tables s' s).
Proof.
  intros H Hu r s'. subst r s'. unfold Bot.value, Bot.state_after.
  destruct (is_pro_run now user_id s u H Hu) as (s1 & E & H1 & Hoff & Hsame).
  rewrite E. cbn [fst snd]. split; [reflexivity|]. split.
  - intros Hf e Ee Hover.
    destruct (Hoff (proj2 (Z.eqb_eq _ _) Hf) e Ee Hover) as [Hus Hps].
    assert (Hsel : Store.select_user user_id s1
                   = Some (Store.pro_row 0 None user_id u)).
    { unfold Store.select_user. rewrite Hus.
      rewrite (find_key_map u_id) by apply pro_row_id.
      fold (Store.select_user user_id s). now rewrite Hu. }
    assert (Hrow : Store.pro_row 0 None user_id u
                   = mk_user (u_id u) (u_username u) (u_first_name u)
                       (u_last_name u) (u_joined_at u) (u_banned u)
                       (u_is_admin u) (u_points u) (u_invited_by u)
                       (u_total_invites u) 0 None (u_last_daily_bonus u)
                       (u_proofs_submitted u)).
    { unfold Store.pro_row. apply find_some in Hu as [_ Hid].
      now rewrite Hid. }
    split; [|split].
    + eexists. split; [exact Hsel|]. rewrite Hrow. now cbn.
    + intros p Hp Hk. rewrite Hps in Hp. apply in_map_iff in Hp
        as (q & <- & _). unfold Store.close_subscription_row in *.
      destruct (Z.eqb_spec (p_user_id q) user_id) as [Eq | Hne];
        cbn [andb] in *.
      * destruct (Z.eqb_spec (p_is_active q) 1); cbn; [lia | assumption].
      * congruence.
    + destruct (is_pro_run now user_id s1 _ H1 Hsel) as (s2 & E2 & _).
      rewrite E2, Hrow. reflexivity.
  - intros Hc. apply Hsame.
    destruct Hc as [Hc | [Hc | Hc]];
      [left | now right; left | now right; right].
    now apply Z.eqb_neq.
Qed.

(** User 10 was made PRO for 30 days at second 5 (until second 2592005):
    a check one day later finds the user PRO, the first check after the
    expiry does not and switches the subscription off. *)
Lemma is_pro_checks_expiry_witness :
  let s := Bot.state_after
             (ProManager.activate_pro 5000000 10 30 "admin" None)
             Example.state0 in
  let u := mk_user 10 "ann" "Ann" "" 100 0 0 50 None 0 1 (Some 2592005)
             None 0 in
  let late := 3000000000000 in
  Bot.no_faults s
  /\ Store.select_user 10 s = Some u
  /\ u_is_pro u = 1 /\ u_pro_expiry u = Some 2592005
  /\ strptime 2592005 <= late
  /\ Bot.value (ProManager.is_pro 86400000000 10) s = Bot.Done true
  /\ Bot.value (ProManager.is_pro late 10) s = Bot.Done false
  /\ (exists u',
        Store.select_user 10 (Bot.state_after (ProManager.is_pro late 10) s)
        = Some u'
        /\ u_is_pro u' = 0 /\ u_pro_expiry u' = None
        /\ u_points u' = u_points u)
  /\ (forall p,
        In p (Bot.pro_subscriptions
                (Bot.state_after (ProManager.is_pro late 10) s)) ->
        p_user_id p = 10 -> p_is_active p <> 1).
Proof.
  intros s u late.
  assert (H : Bot.no_faults s) by (intro i; reflexivity).
  assert (Hu : Store.select_user 10 s = Some u) by reflexivity.
  assert (Hlate : strptime 2592005 <= late) by (vm_compute; discriminate).
  destruct (is_pro_checks_expiry s 86400000000 10 u H Hu) as (Elive & _).
  destruct (is_pro_checks_expiry s late 10 u H Hu) as (Elate & Hoff & _).
  destruct (Hoff eq_refl 2592005 eq_refl Hlate) as (Hrow & Hsubs & _).
  split; [exact H|]. split; [exact Hu|]. split; [reflexivity|].
  split; [reflexivity|]. split; [exact Hlate|].
  split; [exact Elive|]. split; [exact Elate|].
  split; [exact Hrow | exact Hsubs].
Defined.

(** X24 (activate_pro): after [activate_pro] the user is PRO at every
    moment before the stored expiry, which is the second of
    [now + duration_days] days, and not PRO from then on; the subscription
    is recorded as active.  For a user without row nothing is activated,
    and neither is it when [now + duration_days] days is no date that
    [datetime] can hold. *)
Theorem activated_pro_lasts s now user_id duration_days method related_id
    later :
  Bot.no_faults s ->
  let r := Bot.value (ProManager.activate_pro now user_id duration_days
                        method related_id) s in
  let s' := Bot.state_after (ProManager.activate_pro now user_id
                               duration_days method related_id) s in
  (forall expiry,
     ProManager.add_days now duration_days = Some expiry ->
     expiry = now + duration_days * 86400 * 1000000
     /\ (Store.select_user user_id s <> None ->
         r = Bot.Done true
         /\ Bot.value (ProManager.is_pro later user_id) s'
            = Bot.Done (later <? strptime (strftime expiry))
         /\ exists p, In p (Bot.pro_subscriptions s')
                      /\ p_user_id p = user_id /\ p_is_active p = 1
                      /\ p_duration_days p = duration_days)
     /\ (Store.select_user user_id s = None ->
         r = Bot.Done false /\ Ledger.same_tables s' s))
  /\ (ProManager.add_days now duration_days = None ->
      r = Bot.Done false /\ s' = s).
Proof.
  intros H r s'. subst r s'. unfold Bot.value, Bot.state_after. split.
  - intros expiry Hd. split.
    { unfold ProManager.add_days, ProManager.days in Hd.
      destruct (_ && _) in Hd; congruence. }
    split.
    + intros Hu.
      destruct (activate_pro_ok now user_id duration_days method related_id
                  s expiry H Hu Hd) as (s1 & E & Hus & Hps & H1).
      rewrite E. cbn [fst snd]. split; [reflexivity|]. split.
      * destruct (Store.select_user user_id s) as [u|] eqn:Eu;
          [|congruence].
        assert (Hsel : Store.select_user user_id s1
                       = Some (Store.pro_row 1 (Some (strftime expiry))
                                 user_id u)).
        { unfold Store.select_user. rewrite Hus.
          rewrite (find_key_map u_id) by apply pro_row_id.
          fold (Store.select_user user_id s). now rewrite Eu. }
        destruct (is_pro_run later user_id s1 _ H1 Hsel) as (s2 & E2 & _).
        rewrite E2. cbn [fst]. unfold Store.pro_row.
        apply find_some in Eu as [_ Hid]. rewrite Hid. reflexivity.
      * eexists. split; [rewrite Hps; apply in_or_app; right; now left|].
        now cbn.
    + intros Hu. unfold ProManager.activate_pro, Bot.try_except.
      rewrite Hd. unfold Bot.bind.
      rewrite bot_execute_ok by assumption. cbn [Store.set_pro].
      rewrite bot_execute_ok by auto with bot.
      unfold Store.insert_subscription.
      change (Store.select_user user_id (Store.next_call ?x))
        with (Store.select_user user_id x).
      replace (Store.select_user user_id
                 (Bot.with_users
                    (map (Store.pro_row 1 (Some (strftime expiry)) user_id)
                       (Bot.users s)) s))
        with (option_map (Store.pro_row 1 (Some (strftime expiry)) user_id)
                (Store.select_user user_id s))
        by (symmetry; apply (find_key_map u_id), pro_row_id).
      rewrite Hu. cbn [option_map fst snd Bot.ret].
      split; [reflexivity|].
      unfold Ledger.same_tables. cbn. repeat split.
      apply (map_untouched u_id _ user_id); [|exact Hu].
      intros x Hx. unfold Store.pro_row.
      now destruct (Z.eqb_spec (u_id x) user_id).
  - intros Hd. unfold ProManager.activate_pro, Bot.try_except.
    rewrite Hd. now cbn.
Qed.

Lemma activated_pro_lasts_witness :
  Bot.no_faults Example.state0
  /\ ProManager.add_days 5000000 30 = Some 2592005000000
  /\ Store.select_user 10 Example.state0 <> None
  /\ Bot.value (ProManager.is_pro 86400000000 10)
       (Bot.state_after
          (ProManager.activate_pro 5000000 10 30 "admin" None)
          Example.state0) = Bot.Done true.
Proof.
  split; [intro i; reflexivity|]. split; [reflexivity|].
  split; [discriminate|].
  destruct (activated_pro_lasts Example.state0 5000000 10 30 "admin" None
              86400000000 (fun i => eq_refl)) as [Hok _].
  assert (Hd : ProManager.add_days 5000000 30 = Some 2592005000000)
    by reflexivity.
  destruct (Hok _ Hd) as (_ & Hsome & _).
  destruct Hsome as (_ & Hpro & _); [discriminate|].
  exact Hpro.
Defined.

Section BuyPro.

Variable int : string -> option Z.

Lemma setting_or_read key current s text n :
  Store.failing s = false ->
  Store.select_setting key s = Some text ->
  text <> "" ->
  int text = Some n ->
  PointsManager.setting_or int key current s
  = (Bot.Done n, Store.next_call s).
Proof.
  intros H Hsel Hne Hint. unfold PointsManager.setting_or, Bot.bind.
  unfold Store.get_setting. rewrite fetchone_at by assumption. rewrite Hsel.
  destruct text as [|c rest]; [congruence|]. now rewrite Hint.
Qed.

(** [activate_pro] on a user who exists, for any pattern of failing calls:
    the flag, the subscription row and the log row. *)
Lemma activate_pro_run now k duration method related s u expiry :
  Store.select_user k s = Some u ->
  ProManager.add_days now duration = Some expiry ->
  exists s',
    ProManager.activate_pro now k duration method related s
    = (Bot.Done
         (negb (faults (Bot.world s) (db_calls (Bot.world s))
                || faults (Bot.world s) (S (db_calls (Bot.world s)))
                || faults (Bot.world s) (S (S (db_calls (Bot.world s)))))),
       s')
    /\ Bot.users s'
       = (if faults (Bot.world s) (db_calls (Bot.world s))
          then Bot.users s
          else map (Store.pro_row 1 (Some (strftime expiry)) k)
                 (Bot.users s)).
Proof.
  intros Hu Hd. unfold ProManager.activate_pro, Bot.try_except.
  rewrite Hd. unfold Bot.bind, Store.execute.
  unfold Store.failing at 1.
  destruct (faults (Bot.world s) (db_calls (Bot.world s)));
    [eexists; split; reflexivity|].
  cbn [Store.set_pro].
  change (Store.failing (Store.next_call (Bot.with_users ?l ?x)))
    with (faults (Bot.world s) (S (db_calls (Bot.world s)))).
  destruct (faults (Bot.world s) (S (db_calls (Bot.world s))));
    [eexists; split; reflexivity|].
  unfold Store.insert_subscription.
  set (t := Bot.with_users _ s).
  assert (Ht : Store.select_user k (Store.next_call t)
               = option_map (Store.pro_row 1 (Some (strftime expiry)) k)
                   (Store.select_user k s))
    by (apply (find_key_map u_id), pro_row_id).
  rewrite Ht, Hu. cbn [option_map].
  unfold Store.log_action, Bot.lift, Database.log_action, Database.execute.
  cbn [Bot.world Store.next_call Bot.with_world Bot.with_pro_subscriptions
         faults db_calls Database.next_call Database.commit t
         Bot.with_users].
  destruct (faults (Bot.world s) (S (S (db_calls (Bot.world s)))));
    eexists; split; reflexivity.
Qed.

(** X25 (buy_pro_with_points): with a price and a duration that are stored
    as settings and read without failure (like the row of the user), and
    an expiry that [datetime] can hold.  A price that is not positive or
    not covered by the balance is refused and nothing is written.
    Otherwise five statements follow, each committed on its own: the debit,
    its history row, the PRO flag with the expiry, the subscription row
    and the log row.  The answer is [True] exactly when none of them
    fails; the balance is debited as soon as the debit succeeds, and the
    user is PRO as soon as the flag is written, whatever the answer.  So a
    failure after the debit costs the price without PRO. *)
Theorem buy_pro_with_points_outcomes s now user_id u days_text days
    cost_text cost expiry :
  Store.select_user user_id s = Some u ->
  Store.select_setting "pro_days_duration" s = Some days_text ->
  days_text <> "" ->
  int days_text = Some days ->
  ProManager.add_days now days = Some expiry ->
  Store.select_setting "pro_points_cost" s = Some cost_text ->
  cost_text <> "" ->
  int cost_text = Some cost ->
  let c := db_calls (Bot.world s) in
  let fails (i : nat) := faults (Bot.world s) (i + c)%nat in
  fails 0%nat = false -> fails 1%nat = false -> fails 2%nat = false ->
  fails 3%nat = false ->
  let r := Bot.value (ProManager.buy_pro_with_points int now user_id) s in
  let s' := Bot.state_after (ProManager.buy_pro_with_points int now user_id)
              s in
  (cost <= 0 \/ u_points u < cost ->
   r = Bot.Done false /\ Ledger.same_tables s' s)
  /\ (0 < cost <= u_points u ->
      r = Bot.Done (negb (fails 4%nat || fails 5%nat || fails 6%nat
                          || fails 7%nat || fails 8%nat))
      /\ exists u',
           Store.select_user user_id s' = Some u'
           /\ u_points u'
              = (if fails 4%nat then u_points u else u_points u - cost)
           /\ 0 <= u_points u'
           /\ (u_is_pro u', u_pro_expiry u')
              = (if fails 4%nat || fails 5%nat || fails 6%nat
                 then (u_is_pro u, u_pro_expiry u)
                 else (1, Some (strftime expiry))))
  /\ expiry = now + days * 86400 * 1000000.
Proof.
  intros Hu Hd Hdne Hdi Hexp Hc Hcne Hci c fails H0 H1 H2 H3 r s'.
  subst r s'. unfold Bot.value, Bot.state_after.
  assert (Hexpiry : expiry = now + days * 86400 * 1000000).
  { unfold ProManager.add_days, ProManager.days in Hexp.
    destruct (_ && _) in Hexp; congruence. }
  set (s0 := Bot.with_pro_points_cost cost
               (Store.next_call
                  (Bot.with_pro_days_duration days (Store.next_call s)))).
  assert (Hsame0 : Ledger.same_tables s0 s)
    by (unfold Ledger.same_tables; cbn; tauto).
  assert (Hcfg : ProManager._get_pro_config int s = (Bot.Done tt, s0)).
  { unfold ProManager._get_pro_config, Bot.try_except. unfold Bot.bind at 1.
    rewrite (setting_or_read _ _ s days_text days) by assumption.
    unfold Bot.bind at 1. unfold Bot.set at 1. unfold Bot.bind at 1.
    rewrite (setting_or_read _ _ _ cost_text cost);
      [reflexivity | exact H1 | exact Hc | assumption..]. }
  set (s1 := Store.next_call s0).
  assert (Hsame1 : Ledger.same_tables s1 s)
    by (unfold Ledger.same_tables; cbn; tauto).
  assert (Hu1 : Store.select_user user_id s1 = Some u) by exact Hu.
  assert (Hhead :
    ProManager.buy_pro_with_points int now user_id s
    = if u_points u <? cost then (Bot.Done false, s1)
      else
        (success <~ PointsManager.subtract_points now user_id cost
                      "شراء اشتراك PRO" None ;;
         if success
         then duration <~ Bot.get Bot.pro_days_duration ;;
              ProManager.activate_pro now user_id duration "points" None
         else Bot.ret false) s1).
  { unfold ProManager.buy_pro_with_points. unfold Bot.bind at 1.
    rewrite Hcfg. unfold Bot.bind at 1.
    unfold Store.get_user. rewrite fetchone_at by exact H2.
    change (Store.select_user user_id s0) with (Store.select_user user_id s).
    rewrite Hu. unfold Bot.bind at 1. unfold Bot.get at 1.
    change (Bot.pro_points_cost (Store.next_call s0)) with cost.
    fold s1. now destruct (u_points u <? cost). }
  rewrite Hhead. clear Hhead.
  assert (Hbody :
    (success <~ PointsManager.subtract_points now user_id cost
                  "شراء اشتراك PRO" None ;;
     if success
     then duration <~ Bot.get Bot.pro_days_duration ;;
          ProManager.activate_pro now user_id duration "points" None
     else Bot.ret false) s1
    = if cost <=? 0 then (Bot.Done false, s1)
      else if u_points u <? cost then (Bot.Done false, Store.next_call s1)
      else if fails 4%nat
      then (Bot.Done false, Store.next_call (Store.next_call s1))
      else if fails 5%nat
      then (Bot.Done false,
            Store.next_call
              (Store.next_call
                 (Bot.with_users
                    (map (Store.change_points_row (- cost) user_id)
                       (Bot.users s1)) (Store.next_call s1))))
      else ProManager.activate_pro now user_id days "points" None
             (Store.next_call
                (Store.next_call
                   (Ledger.booked now user_id (- cost) "شراء اشتراك PRO"
                      None (Store.next_call s1))))).
  { unfold Bot.bind at 1.
    rewrite (subtract_points_run now user_id cost _ None s1 u Hu1).
    change (Store.failing s1) with (fails 3%nat). rewrite H3.
    change (faults (Bot.world s1) (S (db_calls (Bot.world s1))))
      with (fails 4%nat).
    change (faults (Bot.world s1) (S (S (db_calls (Bot.world s1)))))
      with (fails 5%nat).
    destruct (cost <=? 0); [reflexivity|].
    destruct (u_points u <? cost); [reflexivity|].
    destruct (fails 4%nat); [reflexivity|].
    destruct (fails 5%nat); reflexivity. }
  rewrite Hbody. clear Hbody.
  split; [|split; [|exact Hexpiry]].
  - intros Hrefused.
    destruct (Z.ltb_spec (u_points u) cost) as [Hlow | Hcov];
      [now split|].
    replace (cost <=? 0) with true by (symmetry; apply Z.leb_le; lia).
    now split.
  - intros [Hpos Hcov].
    replace (u_points u <? cost) with false
      by (symmetry; apply Z.ltb_ge; lia).
    replace (cost <=? 0) with false by (symmetry; apply Z.leb_gt; lia).
    assert (Hid : u_id u = user_id)
      by (apply find_some in Hu as [_ Hid]; now apply Z.eqb_eq).
    destruct (fails 4%nat) eqn:F4.
    { cbn [fst snd orb negb]. split; [reflexivity|].
      exists u. split; [exact Hu|]. split; [reflexivity|].
      split; [lia | reflexivity]. }
    assert (Hdebit : forall t,
              Bot.users t
              = map (Store.change_points_row (- cost) user_id) (Bot.users s)
              -> Store.select_user user_id t
                 = Some (Store.change_points_row (- cost) user_id u)).
    { intros t Et. unfold Store.select_user. rewrite Et.
      rewrite (find_key_map u_id) by apply change_points_row_id.
      fold (Store.select_user user_id s). now rewrite Hu. }
    assert (Hrow : Store.change_points_row (- cost) user_id u
                   = mk_user (u_id u) (u_username u) (u_first_name u)
                       (u_last_name u) (u_joined_at u) (u_banned u)
                       (u_is_admin u) (u_points u + - cost)
                       (u_invited_by u) (u_total_invites u) (u_is_pro u)
                       (u_pro_expiry u) (u_last_daily_bonus u)
                       (u_proofs_submitted u)).
    { unfold Store.change_points_row. now rewrite Hid, Z.eqb_refl. }
    destruct (fails 5%nat) eqn:F5.
    { cbn [fst snd orb negb]. split; [reflexivity|].
      eexists. split; [now apply Hdebit|]. rewrite Hrow. cbn.
      split; [lia|]. split; [lia | reflexivity]. }
    set (s2 := Store.next_call (Store.next_call (Ledger.booked _ _ _ _ _ _))).
    assert (Hu2 : Store.select_user user_id s2
                  = Some (Store.change_points_row (- cost) user_id u))
      by (now apply Hdebit).
    destruct (activate_pro_run now user_id days "points" None s2 _ expiry
                Hu2 Hexp) as (s3 & E & Hus).
    rewrite E. cbn [fst snd orb].
    change (faults (Bot.world s2) (db_calls (Bot.world s2)))
      with (fails 6%nat) in *.
    change (faults (Bot.world s2) (S (db_calls (Bot.world s2))))
      with (fails 7%nat).
    change (faults (Bot.world s2) (S (S (db_calls (Bot.world s2)))))
      with (fails 8%nat).
    split; [reflexivity|].
    destruct (fails 6%nat) eqn:F6.
    + eexists. split; [unfold Store.select_user; rewrite Hus; exact Hu2|].
      rewrite Hrow. cbn. split; [lia|]. split; [lia | reflexivity].
    + eexists. split.
      * unfold Store.select_user. rewrite Hus.
        rewrite (find_key_map u_id) by apply pro_row_id.
        fold (Store.select_user user_id s2). rewrite Hu2. reflexivity.
      * rewrite Hrow. unfold Store.pro_row. cbn [u_id].
        rewrite Hid, Z.eqb_refl. cbn.
        split; [lia|]. split; [lia | reflexivity].
Qed.

End BuyPro.

(** Two purchases at a price of 100 for 30 days by a user with 150
    points: one where every statement works, and one where the PRO flag
    cannot be written after the debit. *)
Lemma buy_pro_with_points_outcomes_witness :
  let buy := ProManager.buy_pro_with_points Example.int 5000000 10 in
  Store.select_user 10 Example.state_rich = Some Example.ann_rich
  /\ Store.select_setting "pro_days_duration" Example.state_rich
     = Some "30"
  /\ Example.int "30" = Some 30
  /\ ProManager.add_days 5000000 30 = Some 2592005000000
  /\ Store.select_setting "pro_points_cost" Example.state_rich = Some "100"
  /\ Example.int "100" = Some 100
  /\ 0 < 100 <= u_points Example.ann_rich
  /\ Bot.value buy Example.state_rich = Bot.Done true
  /\ (exists u',
        Store.select_user 10 (Bot.state_after buy Example.state_rich)
        = Some u'
        /\ u_points u' = 50
        /\ (u_is_pro u', u_pro_expiry u') = (1, Some 2592005))
  /\ Bot.value buy Example.state_flag_fails = Bot.Done false
  /\ (exists u',
        Store.select_user 10 (Bot.state_after buy Example.state_flag_fails)
        = Some u'
        /\ u_points u' = 50
        /\ (u_is_pro u', u_pro_expiry u') = (0, None)).
Proof.
  intros buy.
  assert (Hin : 0 < 100 <= u_points Example.ann_rich) by (cbn; lia).
  assert (Hne : forall t : string, t = "30" \/ t = "100" -> t <> "").
  { intros t [-> | ->]; discriminate. }
  destruct (buy_pro_with_points_outcomes Example.int Example.state_rich
              5000000 10 Example.ann_rich "30" 30 "100" 100 2592005000000
              eq_refl eq_refl (Hne _ (or_introl eq_refl)) eq_refl eq_refl
              eq_refl (Hne _ (or_intror eq_refl)) eq_refl
              eq_refl eq_refl eq_refl eq_refl) as (_ & Hok & _).
  destruct (Hok Hin) as (Hr & u1 & Hu1 & Hp1 & _ & Hpro1).
  destruct (buy_pro_with_points_outcomes Example.int
              Example.state_flag_fails
              5000000 10 Example.ann_rich "30" 30 "100" 100 2592005000000
              eq_refl eq_refl (Hne _ (or_introl eq_refl)) eq_refl eq_refl
              eq_refl (Hne _ (or_intror eq_refl)) eq_refl
              eq_refl eq_refl eq_refl eq_refl) as (_ & Hbad & _).
  destruct (Hbad Hin) as (Hr' & u2 & Hu2 & Hp2 & _ & Hpro2).
  split; [reflexivity|]. split; [reflexivity|]. split; [reflexivity|].
  split; [reflexivity|]. split; [reflexivity|]. split; [reflexivity|].
  split; [exact Hin|]. split; [exact Hr|]. split.
  - exists u1. split; [exact Hu1|]. split; [exact Hp1 | exact Hpro1].
  - split; [exact Hr'|].
    exists u2. split; [exact Hu2|]. split; [exact Hp2 | exact Hpro2].
Defined.
